(** * relplanner: the versioned JSON document store of [server.go]

    A shallow embedding of the Go server's document handlers: the
    fingerprint ([computeETag]), the integrity sidecar ([writeChecksum]),
    the shape check ([validateByPath]), backup listing and rotation
    ([listBackups], [cleanupOldBackups]), the optimistic-concurrency write
    ([updateJSONFileWithBackup]), the read path ([serveJSONFile]), the
    backup endpoint ([handleBackups]) and the write that no handler calls
    any more ([updateJSONFile]).

    The file system under [./data] is an explicit state that every
    handler takes and returns.  The Go libraries the server calls are
    given here as far as the handlers observe them: [crypto/sha256] and
    [path/filepath] are written out, [encoding/json] and [sort.Slice] are
    interfaces (type classes) with an executable instance each. *)

From Stdlib Require Import ZArith Lia Ascii String List Bool.
From Stdlib Require Import Init.Byte ZifyNat.
From stdpp Require Import base option list gmap strings sorting.

Local Open Scope Z_scope.
Local Open Scope list_scope.
Local Open Scope string_scope.

(** ** Bytes and their hexadecimal rendering ([fmt]'s [%x] verb) *)

Definition byte_of_Z (z : Z) : byte :=
  match Byte.of_N (Z.to_N (z mod 256)) with
  | Some b => b
  | None => x00
  end.

Definition Z_of_byte (b : byte) : Z := Z.of_N (Byte.to_N b).

Definition hexDigit (n : Z) : ascii :=
  match String.get (Z.to_nat n) "0123456789abcdef" with
  | Some c => c
  | None => "0"%char
  end.

(** Two lower-case hexadecimal digits per byte. *)
Fixpoint hexEncode (bs : list byte) : string :=
  match bs with
  | [] => ""
  | b :: rest =>
      String (hexDigit (Z_of_byte b / 16))
        (String (hexDigit (Z_of_byte b mod 16)) (hexEncode rest))
  end.

(** ** [crypto/sha256]: FIPS 180-4 on 32-bit words kept in [Z] *)

Module SHA256.

Definition mask32 : Z := 0xffffffff.
Definition trunc32 (x : Z) : Z := Z.land x mask32.
Definition add32 (x y : Z) : Z := trunc32 (x + y).
Definition rotr (n x : Z) : Z :=
  Z.lor (Z.shiftr x n) (trunc32 (Z.shiftl x (32 - n))).
Definition not32 (x : Z) : Z := Z.lxor x mask32.

Definition Ch (x y z : Z) : Z := Z.lxor (Z.land x y) (Z.land (not32 x) z).
Definition Maj (x y z : Z) : Z :=
  Z.lxor (Z.lxor (Z.land x y) (Z.land x z)) (Z.land y z).
Definition bigSigma0 (x : Z) : Z :=
  Z.lxor (Z.lxor (rotr 2 x) (rotr 13 x)) (rotr 22 x).
Definition bigSigma1 (x : Z) : Z :=
  Z.lxor (Z.lxor (rotr 6 x) (rotr 11 x)) (rotr 25 x).
Definition smallSigma0 (x : Z) : Z :=
  Z.lxor (Z.lxor (rotr 7 x) (rotr 18 x)) (Z.shiftr x 3).
Definition smallSigma1 (x : Z) : Z :=
  Z.lxor (Z.lxor (rotr 17 x) (rotr 19 x)) (Z.shiftr x 10).

(** The constants of FIPS 180-4 come from the first 64 primes: a round
    constant is the first 32 bits of the fractional part of the cube
    root of a prime, an initial hash word the first 32 bits of the
    fractional part of the square root of one of the first 8. *)
Definition isPrime (n : nat) : bool :=
  forallb (fun d => negb (n mod d =? 0)%nat) (seq 2 (n - 2)).

Definition primes : list Z :=
  map Z.of_nat (List.filter isPrime (seq 2 310)).

(** The integer cube root of [n], between [lo] and [hi]. *)
Fixpoint cubeRoot (fuel : nat) (lo hi n : Z) : Z :=
  match fuel with
  | O => lo
  | S fuel' =>
      if (hi - lo <=? 1)%Z then lo
      else
        let mid := (lo + hi) / 2 in
        if (mid * mid * mid <=? n)%Z then cubeRoot fuel' mid hi n
        else cubeRoot fuel' lo mid n
  end.

Definition roundConstants : list Z :=
  map (fun p => trunc32 (cubeRoot 64 0 (2 ^ 36) (p * 2 ^ 96))) primes.

(** The eight working words. *)
Record digest := Digest {
  h0 : Z; h1 : Z; h2 : Z; h3 : Z; h4 : Z; h5 : Z; h6 : Z; h7 : Z
}.

Definition initialWord (i : nat) : Z :=
  trunc32 (Z.sqrt (nth i primes 0 * 2 ^ 64)).

Definition initial : digest :=
  Digest (initialWord 0) (initialWord 1) (initialWord 2) (initialWord 3)
         (initialWord 4) (initialWord 5) (initialWord 6) (initialWord 7).

(** Padding: a 1 bit, zeros up to 56 mod 64, then the bit length on
    eight big-endian bytes. *)
Definition bigEndian (width : nat) (v : Z) : list Z :=
  map (fun i => Z.land (Z.shiftr v (8 * Z.of_nat (width - 1 - i))) 0xff)
      (seq 0 width).

Definition pad (msg : list Z) : list Z :=
  let len := Z.of_nat (length msg) in
  let zeros := Z.to_nat ((55 - len) mod 64) in
  (msg ++ [0x80] ++ repeat 0 zeros ++ bigEndian 8 (8 * len))%list.

Fixpoint wordsOf (bs : list Z) : list Z :=
  match bs with
  | a :: b :: c :: d :: rest =>
      (Z.shiftl a 24 + Z.shiftl b 16 + Z.shiftl c 8 + d) :: wordsOf rest
  | _ => []
  end.

(** The message schedule, newest word first: [extend n w] adds [n]
    words to the (reversed) schedule [w]. *)
Fixpoint extend (n : nat) (w : list Z) : list Z :=
  match n with
  | O => w
  | S n' =>
      let at_ i := nth i w 0 in
      let next :=
        add32 (add32 (add32 (smallSigma1 (at_ 1%nat)) (at_ 6%nat))
                     (smallSigma0 (at_ 14%nat))) (at_ 15%nat) in
      extend n' (next :: w)
  end.

Definition schedule (block : list Z) : list Z :=
  rev (extend 48 (rev block)).

Definition round (s : digest) (kw : Z * Z) : digest :=
  let t1 :=
    add32 (add32 (add32 (add32 (h7 s) (bigSigma1 (h4 s)))
                        (Ch (h4 s) (h5 s) (h6 s))) (fst kw)) (snd kw) in
  let t2 := add32 (bigSigma0 (h0 s)) (Maj (h0 s) (h1 s) (h2 s)) in
  Digest (add32 t1 t2) (h0 s) (h1 s) (h2 s)
         (add32 (h3 s) t1) (h4 s) (h5 s) (h6 s).

Definition compress (s : digest) (block : list Z) : digest :=
  let r := fold_left round (combine roundConstants (schedule block)) s in
  Digest (add32 (h0 s) (h0 r)) (add32 (h1 s) (h1 r))
         (add32 (h2 s) (h2 r)) (add32 (h3 s) (h3 r))
         (add32 (h4 s) (h4 r)) (add32 (h5 s) (h5 r))
         (add32 (h6 s) (h6 r)) (add32 (h7 s) (h7 r)).

(** One 16-word block at a time; [fuel] bounds the number of blocks. *)
Fixpoint blocks (fuel : nat) (ws : list Z) (s : digest) : digest :=
  match fuel with
  | O => s
  | S fuel' =>
      match ws with
      | [] => s
      | _ => blocks fuel' (skipn 16 ws) (compress s (firstn 16 ws))
      end
  end.

Definition wordBytes (w : Z) : list byte := map byte_of_Z (bigEndian 4 w).

Definition digestBytes (s : digest) : list byte :=
  (wordBytes (h0 s) ++ wordBytes (h1 s) ++ wordBytes (h2 s) ++
   wordBytes (h3 s) ++ wordBytes (h4 s) ++ wordBytes (h5 s) ++
   wordBytes (h6 s) ++ wordBytes (h7 s))%list.

(** [sha256.Sum256]: the 32-byte digest of [msg]. *)
Definition Sum256 (msg : list byte) : list byte :=
  let ws := wordsOf (pad (map Z_of_byte msg)) in
  digestBytes (blocks (length ws) ws initial).

End SHA256.

(** ** [strings]: the functions the server calls *)

(** [strings.HasPrefix]. *)
Definition HasPrefix (s pre : string) : bool := String.prefix pre s.

(** [strings.HasSuffix]. *)
Definition HasSuffix (s suffix : string) : bool :=
  (String.length suffix <=? String.length s)%nat &&
  (substring (String.length s - String.length suffix)
     (String.length suffix) s =? suffix).

(** [strings.TrimSuffix]: [s] without the trailing [suffix], or [s]
    itself when [s] does not end in [suffix]. *)
Definition TrimSuffix (s suffix : string) : string :=
  if HasSuffix s suffix
  then substring 0 (String.length s - String.length suffix) s
  else s.

(** [strings.Split] for a separator of one byte (the server only splits
    on ["."]; [filepath] below splits on ["/"]).  There is always at
    least one part. *)
Fixpoint Split (s : string) (sep : ascii) : list string :=
  match s with
  | "" => [""]
  | String c rest =>
      if Ascii.eqb c sep then "" :: Split rest sep
      else match Split rest sep with
           | part :: parts => String c part :: parts
           | [] => [String c ""]
           end
  end.

(** ** [path/filepath] on a Unix host *)

Definition Separator : ascii := "/"%char.

Fixpoint trimTrailingSeparators (p : string) : string :=
  match p with
  | "" => ""
  | String c rest =>
      let r := trimTrailingSeparators rest in
      if (r =? "") && Ascii.eqb c Separator then "" else String c r
  end.

(** [filepath.Base]: the last element of the path.  Trailing separators
    go first; an empty path gives ["."], a path of separators only
    gives ["/"]. *)
Definition Base (p : string) : string :=
  if p =? "" then "."
  else
    let p := trimTrailingSeparators p in
    let elem := List.last (Split p Separator) "" in
    if elem =? "" then "/" else elem.

(** One element of a path against the elements kept so far (innermost
    first): empty and ["."] elements vanish, [".."] takes back the
    previous element when there is one to take back. *)
Definition cleanStep (rooted : bool) (kept : list string) (elem : string)
  : list string :=
  if (elem =? "") || (elem =? ".") then kept
  else if elem =? ".." then
    match kept with
    | top :: below => if top =? ".." then elem :: kept else below
    | [] => if rooted then [] else [elem]
    end
  else elem :: kept.

Definition cleanElements (rooted : bool) (elems : list string) : list string :=
  rev (fold_left (cleanStep rooted) elems []).

(** [filepath.Clean]. *)
Definition Clean (p : string) : string :=
  if p =? "" then "."
  else
    let rooted := HasPrefix p "/" in
    let out := String.concat "/" (cleanElements rooted (Split p Separator)) in
    if rooted then "/" ++ out
    else if out =? "" then "." else out.

(** [filepath.Join] of two elements: the first non-empty element starts
    the path, the rest is appended behind a separator, and the result
    is cleaned. *)
Definition Join (a b : string) : string :=
  if negb (a =? "") then Clean (a ++ "/" ++ b)
  else if negb (b =? "") then Clean b
  else "".

(** ** The server's constants *)

Definition dataDir : string := "./data".
Definition port : Z := 8080.
Definition backupDir : string := "./data/backups".
Definition defaultMaxBackups : Z := 10.

(** ** The file system under [./data]

    [./data] holds the live documents, [./data/backups] the backups and
    their sidecars.  Both directories can be missing.  Other
    subdirectories are kept as entries without their contents: all the
    server can observe of them is that they are directories and whether
    [os.Remove] would find them empty. *)

Inductive entry :=
  | File (content : list byte)
  | SubDir (nonempty : bool).

Inductive FS :=
  | NoData
  | Data (files : gmap string entry) (backups : option (gmap string entry)).

Definition dataFiles (fs : FS) : option (gmap string entry) :=
  match fs with
  | NoData => None
  | Data files _ => Some files
  end.

Definition backupFiles (fs : FS) : option (gmap string entry) :=
  match fs with
  | NoData => None
  | Data _ backups => backups
  end.

Inductive oserror := ENOENT | EISDIR | ENOTDIR | ENOTEMPTY.

(** [os.IsNotExist] on the error of a call ([None] is Go's [nil]). *)
Definition IsNotExist (err : option oserror) : bool :=
  match err with
  | Some ENOENT => true
  | _ => false
  end.

(** Where a path leads.  The server runs in the parent of [./data] and
    only builds paths below it; everything else is outside the tree. *)
Inductive loc :=
  | LDataDir
  | LBackupDir
  | LDataEntry (name : string)
  | LBackupEntry (name : string)
  | LOutside.

Definition resolve (p : string) : loc :=
  if HasPrefix p "/" then LOutside
  else
    match cleanElements false (Split p Separator) with
    | [d] => if d =? "data" then LDataDir else LOutside
    | [d; n] =>
        if d =? "data"
        then if n =? "backups" then LBackupDir else LDataEntry n
        else LOutside
    | [d; b; n] =>
        if (d =? "data") && (b =? "backups") then LBackupEntry n
        else LOutside
    | _ => LOutside
    end.

Definition isEmptyDir (m : gmap string entry) : bool := bool_decide (m = ∅).

(** What is at a location; a directory of the tree shows as [SubDir]. *)
Definition find (l : loc) (fs : FS) : option entry :=
  match l, fs with
  | LDataDir, Data files backups =>
      Some (SubDir (negb (isEmptyDir files && bool_decide (backups = None))))
  | LBackupDir, Data _ (Some m) => Some (SubDir (negb (isEmptyDir m)))
  | LDataEntry n, Data files _ => files !! n
  | LBackupEntry n, Data _ (Some m) => m !! n
  | _, _ => None
  end.

(** [os.Stat], as far as its error goes. *)
Definition os_Stat (p : string) (fs : FS) : option oserror :=
  match find (resolve p) fs with
  | Some _ => None
  | None => Some ENOENT
  end.

(** [os.ReadFile]: the bytes read and the error.  A path that cannot be
    opened gives a nil slice ([None]); a directory opens and then fails
    on the first read, which leaves an empty, non-nil slice. *)
Definition os_ReadFile (p : string) (fs : FS)
  : option (list byte) * option oserror :=
  match find (resolve p) fs with
  | Some (File content) => (Some content, None)
  | Some (SubDir _) => (Some [], Some EISDIR)
  | None => (None, Some ENOENT)
  end.

Definition writeEntry (n : string) (data : list byte) (m : gmap string entry)
  : option (gmap string entry) :=
  match m !! n with
  | Some (SubDir _) => None
  | _ => Some (<[n := File data]> m)
  end.

(** [os.WriteFile]: creates or truncates a regular file in an existing
    directory. *)
Definition os_WriteFile (p : string) (data : list byte) (fs : FS)
  : option oserror * FS :=
  match resolve p, fs with
  | LDataEntry n, Data files backups =>
      match writeEntry n data files with
      | Some files' => (None, Data files' backups)
      | None => (Some EISDIR, fs)
      end
  | LBackupEntry n, Data files (Some m) =>
      match writeEntry n data m with
      | Some m' => (None, Data files (Some m'))
      | None => (Some EISDIR, fs)
      end
  | LDataDir, Data _ _ => (Some EISDIR, fs)
  | LBackupDir, Data _ (Some _) => (Some EISDIR, fs)
  | _, _ => (Some ENOENT, fs)
  end.

Definition removeEntry (n : string) (m : gmap string entry)
  : oserror + gmap string entry :=
  match m !! n with
  | None => inl ENOENT
  | Some (SubDir true) => inl ENOTEMPTY
  | Some _ => inr (delete n m)
  end.

(** [os.Remove]: removes a file or an empty directory. *)
Definition os_Remove (p : string) (fs : FS) : option oserror * FS :=
  match resolve p, fs with
  | LDataEntry n, Data files backups =>
      match removeEntry n files with
      | inr files' => (None, Data files' backups)
      | inl e => (Some e, fs)
      end
  | LBackupEntry n, Data files (Some m) =>
      match removeEntry n m with
      | inr m' => (None, Data files (Some m'))
      | inl e => (Some e, fs)
      end
  | LBackupDir, Data files (Some m) =>
      if isEmptyDir m then (None, Data files None) else (Some ENOTEMPTY, fs)
  | LDataDir, Data files backups =>
      if isEmptyDir files && bool_decide (backups = None)
      then (None, NoData) else (Some ENOTEMPTY, fs)
  | _, _ => (Some ENOENT, fs)
  end.

(** A directory entry as [os.ReadDir] returns it. *)
Record DirEntry := { Name : string; IsDir : bool }.

Definition isDir (e : entry) : bool :=
  match e with
  | File _ => false
  | SubDir _ => true
  end.

Definition nameLe (a b : string * entry) : Prop := String.le a.1 b.1.

#[global] Instance nameLe_dec : RelDecision nameLe :=
  fun a b => decide (String.le a.1 b.1).

(** The entries of a directory, sorted by file name. *)
Definition dirEntries (m : gmap string entry) : list DirEntry :=
  map (fun ne => {| Name := ne.1; IsDir := isDir ne.2 |})
      (merge_sort nameLe (map_to_list m)).

(** [os.ReadDir]. *)
Definition os_ReadDir (p : string) (fs : FS) : oserror + list DirEntry :=
  match resolve p, fs with
  | LBackupDir, Data _ (Some m) => inr (dirEntries m)
  | LDataDir, Data files backups =>
      inr (dirEntries
             (match backups with
              | Some m => <["backups" := SubDir (negb (isEmptyDir m))]> files
              | None => files
              end))
  | LDataEntry n, Data files _ =>
      match files !! n with
      | Some (File _) => inl ENOTDIR
      | Some (SubDir false) => inr []
      | _ => inl ENOENT
      end
  | LBackupEntry n, Data _ (Some m) =>
      match m !! n with
      | Some (File _) => inl ENOTDIR
      | Some (SubDir false) => inr []
      | _ => inl ENOENT
      end
  | _, _ => inl ENOENT
  end.

(** ** [os.Rename]

    Between entries of [./data] and of the backup directory.  Go looks
    at the new path first and refuses a directory there ([EEXIST]),
    unless both paths name that same directory in different words;
    [rename(2)] then moves the entry, onto a regular file if there is
    one, and refuses to move a directory onto a file ([ENOTDIR]).  The
    server renames nothing but a document's file; a rename of one of
    the two directories themselves is not modelled and fails like a
    rename out of the tree. *)

Inductive linkError :=
  | LinkError (e : oserror)
  | LinkExists.

#[global] Instance loc_eq_dec : EqDecision loc.
Proof. solve_decision. Defined.

Definition isEntry (l : loc) : bool :=
  match l with
  | LDataEntry _ | LBackupEntry _ => true
  | _ => false
  end.

(** The directory of an entry's location is there. *)
Definition parentExists (l : loc) (fs : FS) : bool :=
  match l, fs with
  | LDataEntry _, Data _ _ => true
  | LBackupEntry _, Data _ (Some _) => true
  | _, _ => false
  end.

(** The state with [e], or with nothing, at an entry's location. *)
Definition place (l : loc) (e : option entry) (fs : FS) : FS :=
  match l, fs with
  | LDataEntry n, Data files backups =>
      Data (partial_alter (fun _ => e) n files) backups
  | LBackupEntry n, Data files (Some m) =>
      Data files (Some (partial_alter (fun _ => e) n m))
  | _, _ => fs
  end.

Definition os_Rename (oldpath newpath : string) (fs : FS)
  : option linkError * FS :=
  let from := resolve oldpath in
  let to := resolve newpath in
  if isEntry from && isEntry to then
    match find from fs with
    | None => (Some (LinkError ENOENT), fs)
    | Some e =>
        match find to fs with
        | Some (SubDir _) =>
            if (oldpath =? newpath) || negb (bool_decide (from = to))
            then (Some LinkExists, fs)
            else (None, fs)
        | Some (File _) =>
            if isDir e then (Some (LinkError ENOTDIR), fs)
            else (None, place to (Some e) (place from None fs))
        | None =>
            if parentExists to fs
            then (None, place to (Some e) (place from None fs))
            else (Some (LinkError ENOENT), fs)
        end
    end
  else (Some (LinkError ENOENT), fs).

(** ** Text helpers *)

Definition quote : string := String (ascii_of_nat 34) "".
Definition newline : string := String (ascii_of_nat 10) "".
Definition quoted (s : string) : string := quote ++ s ++ quote.
Definition bytes (s : string) : list byte := list_byte_of_string s.

Definition errnoText (e : oserror) : string :=
  match e with
  | ENOENT => "no such file or directory"
  | EISDIR => "is a directory"
  | ENOTDIR => "not a directory"
  | ENOTEMPTY => "directory not empty"
  end.

(** The text of an [*fs.PathError]. *)
Definition pathError (op path : string) (e : oserror) : string :=
  op ++ " " ++ path ++ ": " ++ errnoText e.

(** ** [encoding/json]

    What [json.Unmarshal] stores in an [interface{}]: [nil], [bool],
    [float64], [string], [[]interface{}] or [map[string]interface{}].
    A number is kept as its literal; no handler looks inside one. *)

#[local] Set Warnings "-register-all".

Inductive JSON :=
  | JNull
  | JBool (b : bool)
  | JNumber (literal : string)
  | JString (s : string)
  | JArray (items : list JSON)
  | JObject (members : list (string * JSON)).

(** [_, ok := m[key]] on an object's members. *)
Definition hasKey (members : list (string * JSON)) (key : string) : bool :=
  existsb (fun kv => kv.1 =? key) members.

(** The calls the server makes into [encoding/json]. *)
Class JSONCodec := {
  (** [json.Unmarshal(body, &v)] for [v interface{}]; [None] is an error. *)
  Unmarshal : list byte -> option JSON;
  (** [json.MarshalIndent(v, "", "  ")]; [None] is an error. *)
  MarshalIndent : JSON -> option (list byte);
  (** The bytes [json.NewEncoder(w).Encode(v)] writes. *)
  Encode : JSON -> list byte;
  (** [json.NewDecoder(body).Decode(&requestData)] for the struct with
      the one field [Filename]; [None] is an error. *)
  DecodeFilename : list byte -> option string
}.

(** ** [sort.Slice] *)

Class SliceSorter := {
  sortSlice : forall {A : Type}, (A -> A -> bool) -> list A -> list A
}.

(** ** [strconv.Atoi] on a 64-bit host *)

Definition digitValue (c : ascii) : option Z :=
  let n := Z.of_nat (nat_of_ascii c) in
  if ((48 <=? n) && (n <=? 57))%Z then Some (n - 48) else None.

Fixpoint digitsValue (s : string) (acc : Z) : option Z :=
  match s with
  | "" => Some acc
  | String c rest =>
      match digitValue c with
      | Some d => digitsValue rest (10 * acc + d)
      | None => None
      end
  end.

Definition Atoi (s : string) : option Z :=
  let '(negative, digits) :=
    match s with
    | String c rest =>
        if Ascii.eqb c "-" then (true, rest)
        else if Ascii.eqb c "+" then (false, rest)
        else (false, s)
    | "" => (false, s)
    end in
  if digits =? "" then None
  else
    match digitsValue digits 0 with
    | Some v =>
        let v := if negative then - v else v in
        if ((- 2 ^ 63 <=? v) && (v <? 2 ^ 63))%Z then Some v else None
    | None => None
    end.

(** ** [time.Now().Format("20060102-150405")] *)

Record Time := {
  Year : nat; Month : nat; Day : nat; Hour : nat; Minute : nat; Second : nat
}.

Definition digitChar (n : nat) : ascii := ascii_of_nat (48 + n mod 10).

Definition twoDigits (n : nat) : string :=
  String (digitChar (n / 10)) (String (digitChar n) "").

(** The decimal digits of [n] in front of [acc]. *)
Fixpoint decimal (fuel n : nat) (acc : string) : string :=
  match fuel with
  | O => acc
  | S fuel' =>
      let acc := String (digitChar n) acc in
      if (n <? 10)%nat then acc else decimal fuel' (n / 10) acc
  end.

(** The year takes four digits, more from the year 10000 on. *)
Definition yearDigits (y : nat) : string :=
  if (y / 100 <? 100)%nat then twoDigits (y / 100) ++ twoDigits y
  else decimal (S y) y "".

Definition Format (t : Time) : string :=
  yearDigits (Year t) ++ twoDigits (Month t) ++ twoDigits (Day t) ++ "-" ++
  twoDigits (Hour t) ++ twoDigits (Minute t) ++ twoDigits (Second t).

(** ** [net/http]: requests and responses *)

Inductive Method := GET | POST | DELETE | OtherMethod (name : string).

Record Request := {
  method : Method;
  reqHeader : gmap string string;
  query : gmap string string;
  (** The bytes of the body, [None] when reading it fails. *)
  reqBody : option (list byte)
}.

(** [r.Header.Get] and [r.URL.Query().Get]: the empty string stands for
    a missing key. *)
Definition Get (m : gmap string string) (key : string) : string :=
  default "" (m !! key).

Record Response := {
  status : Z;
  respHeader : gmap string string;
  respBody : list byte
}.

Definition StatusOK : Z := 200.
Definition StatusBadRequest : Z := 400.
Definition StatusMethodNotAllowed : Z := 405.
Definition StatusPreconditionFailed : Z := 412.
Definition StatusInternalServerError : Z := 500.

(** [http.Error] on a response whose headers so far are [h]. *)
Definition http_Error (h : gmap string string) (msg : string) (code : Z)
  : Response :=
  {| status := code;
     respHeader :=
       <["X-Content-Type-Options" := "nosniff"]>
         (<["Content-Type" := "text/plain; charset=utf-8"]>
            (delete "Content-Length" h));
     respBody := bytes (msg ++ newline) |}.

(** A handler either replies or panics (the connection is dropped). *)
Inductive Reply :=
  | Replied (resp : Response)
  | Panicked.

(** ** The server: fingerprint, sidecar, validation *)

(** [computeETag]; [None] is the nil slice. *)
Definition computeETag (b : option (list byte)) : string :=
  match b with
  | None => quoted "0"
  | Some content => quoted (hexEncode (take 8 (SHA256.Sum256 content)))
  end.

(** [writeChecksum]: the [.sha256] file next to a backup. *)
Definition writeChecksum (path : string) (fs : FS) : FS :=
  match os_ReadFile path fs with
  | (_, Some _) => fs
  | (b, None) =>
      let sum := SHA256.Sum256 (default [] b) in
      (os_WriteFile (path ++ ".sha256") (bytes (hexEncode sum ++ newline)) fs).2
  end.

(** [validateByPath]: [None] is the nil error, [Some msg] an error. *)
Definition validateByPath (path : string) (data : JSON) : option string :=
  let base := Base path in
  if base =? "environments.json" then
    match data with
    | JObject m =>
        if hasKey m "environments" then None
        else Some "missing environments array"
    | _ => Some "environments.json must be an object"
    end
  else if base =? "releases.json" then
    match data with
    | JObject _ => None
    | _ => Some "releases.json must be an object keyed by environment"
    end
  else if base =? "holidays.json" then
    match data with
    | JObject m =>
        if hasKey m "holidays" then None
        else Some "missing holidays array"
    | _ => Some "holidays.json must be an object"
    end
  else None.

(** ** The server: backups *)

(** [listBackups]: the names in the backup directory that start with
    [filePrefix] and are not directories, or the error text. *)
Definition listBackups (filePrefix : string) (fs : FS) : string + list string :=
  match os_ReadDir backupDir fs with
  | inl e =>
      inl ("failed to read backup directory: " ++ pathError "open" backupDir e)
  | inr files =>
      inr (map Name
             (filter (fun file => negb (IsDir file) && HasPrefix (Name file) filePrefix)
                     files))
  end.

(** [a > b] on Go strings. *)
Definition gtString (a b : string) : bool := String.ltb b a.

(** The [less] function [cleanupOldBackups] hands to [sort.Slice]. *)
Definition newerFirst (a b : string) : bool :=
  let partsI := Split a "." in
  let partsJ := Split b "." in
  if (length partsI <? 3)%nat || (length partsJ <? 3)%nat
  then gtString a b
  else gtString (nth 1 partsI "") (nth 1 partsJ "").

(** What a call that can panic comes to. *)
Inductive Outcome :=
  | Returned (err : option string)
  | Panic.

(** The deletion loop of [cleanupOldBackups] over [backups[i:]]. *)
Fixpoint removeBackups (names : list string) (fs : FS) : option string * FS :=
  match names with
  | [] => (None, fs)
  | name :: rest =>
      let backupPath := Join backupDir name in
      match os_Remove backupPath fs with
      | (Some e, fs') =>
          (Some ("failed to delete backup " ++ backupPath ++ ": " ++
                 pathError "remove" backupPath e), fs')
      | (None, fs') => removeBackups rest fs'
      end
  end.

(** [cleanupOldBackups].  A negative [maxBackups] makes the loop start
    at a negative index, which panics. *)
Definition cleanupOldBackups `{sorter : SliceSorter}
    (baseFilename : string) (maxBackups : Z) (fs : FS) : Outcome * FS :=
  let baseFilename := TrimSuffix baseFilename ".json" in
  match listBackups baseFilename fs with
  | inl err => (Returned (Some err), fs)
  | inr backups =>
      if (Z.of_nat (length backups) <=? maxBackups)%Z then (Returned None, fs)
      else
        let backups := sortSlice newerFirst backups in
        if (maxBackups <? 0)%Z then (Panic, fs)
        else
          let '(err, fs') :=
            removeBackups (drop (Z.to_nat maxBackups) backups) fs in
          (Returned err, fs')
  end.

(** ** The server: reading and writing a document *)

Definition jsonHeader : gmap string string :=
  {[ "Content-Type" := "application/json" ]}.

(** [serveJSONFile]. *)
Definition serveJSONFile (filePath : string) (fs : FS) : Response :=
  if IsNotExist (os_Stat filePath fs) then
    {| status := StatusOK; respHeader := jsonHeader; respBody := bytes "{}" |}
  else
    match os_ReadFile filePath fs with
    | (_, Some e) =>
        http_Error ∅ ("Error reading file: " ++ pathError "read" filePath e)
                   StatusInternalServerError
    | (data, None) =>
        {| status := StatusOK; respHeader := jsonHeader;
           respBody := default [] data |}
    end.

Definition updatedWithBackup : string :=
  "{" ++ quoted "success" ++ ": true, " ++ quoted "message" ++ ": " ++
  quoted "File updated successfully with backup" ++ "}".

(** The reply to a write that went through, with the new ETag. *)
Definition updatedResponse (prettyJSON : list byte) : Response :=
  {| status := StatusOK;
     respHeader :=
       <["Content-Type" := "application/json"]>
         {[ "ETag" := computeETag (Some prettyJSON) ]};
     respBody := bytes updatedWithBackup |}.

(** The end of [updateJSONFileWithBackup]: the write of the new content
    and the reply. *)
Definition writeAndReply (filePath : string) (prettyJSON : list byte) (fs : FS)
  : Reply * FS :=
  match os_WriteFile filePath prettyJSON fs with
  | (Some _, fs') =>
      (Replied (http_Error ∅ "Error writing file" StatusInternalServerError), fs')
  | (None, fs') => (Replied (updatedResponse prettyJSON), fs')
  end.

(** [updateJSONFileWithBackup]; [now] is what [time.Now()] returns when
    the backup is named. *)
Definition updateJSONFileWithBackup `{codec : JSONCodec} `{sorter : SliceSorter}
    (r : Request) (filePath : string) (maxBackups : Z) (now : Time) (fs : FS)
  : Reply * FS :=
  match reqBody r with
  | None =>
      (Replied (http_Error ∅ "Error reading request body" StatusBadRequest), fs)
  | Some body =>
  match Unmarshal body with
  | None => (Replied (http_Error ∅ "Invalid JSON" StatusBadRequest), fs)
  | Some jsonData =>
  match validateByPath filePath jsonData with
  | Some err =>
      (Replied (http_Error ∅ ("Schema validation failed: " ++ err)
                           StatusBadRequest), fs)
  | None =>
  match MarshalIndent jsonData with
  | None =>
      (Replied (http_Error ∅ "Error formatting JSON" StatusInternalServerError),
       fs)
  | Some prettyJSON =>
      let baseFilename := Base filePath in
      match os_Stat filePath fs with
      | Some _ => writeAndReply filePath prettyJSON fs
      | None =>
          let ifMatch := Get (reqHeader r) "If-Match" in
          let current := (os_ReadFile filePath fs).1 in
          if negb (ifMatch =? "") && negb (computeETag current =? ifMatch)
          then
            (Replied (http_Error {[ "ETag" := computeETag current ]}
                                 "Precondition Failed"
                                 StatusPreconditionFailed), fs)
          else
            let timestamp := Format now in
            let backupFilename :=
              TrimSuffix baseFilename ".json" ++ "." ++ timestamp ++ ".json" in
            let backupPath := Join backupDir backupFilename in
            match os_ReadFile filePath fs with
            | (_, Some _) => writeAndReply filePath prettyJSON fs
            | (origData, None) =>
                match os_WriteFile backupPath (default [] origData) fs with
                | (Some _, fs1) => writeAndReply filePath prettyJSON fs1
                | (None, fs1) =>
                    let fs2 := writeChecksum backupPath fs1 in
                    match cleanupOldBackups baseFilename maxBackups fs2 with
                    | (Panic, fs3) => (Panicked, fs3)
                    | (Returned _, fs3) => writeAndReply filePath prettyJSON fs3
                    end
                end
            end
      end
  end end end end.

(** The backup count a document handler reads off [X-Max-Backups]. *)
Definition maxBackupsHeader (r : Request) : Z :=
  let maxBackupsStr := Get (reqHeader r) "X-Max-Backups" in
  if maxBackupsStr =? "" then defaultMaxBackups
  else
    match Atoi maxBackupsStr with
    | Some val => if (0 <? val)%Z then val else defaultMaxBackups
    | None => defaultMaxBackups
    end.

Definition methodNotAllowed : Response :=
  http_Error ∅ "Method not allowed" StatusMethodNotAllowed.

(** [handleEmployees] serves [environments.json]. *)
Definition handleEmployees `{codec : JSONCodec} `{sorter : SliceSorter}
    (r : Request) (now : Time) (fs : FS) : Reply * FS :=
  let filePath := Join dataDir "environments.json" in
  match method r with
  | GET => (Replied (serveJSONFile filePath fs), fs)
  | POST => updateJSONFileWithBackup r filePath (maxBackupsHeader r) now fs
  | _ => (Replied methodNotAllowed, fs)
  end.

(** [handleDaysOff] serves [releases.json]. *)
Definition handleDaysOff `{codec : JSONCodec} `{sorter : SliceSorter}
    (r : Request) (now : Time) (fs : FS) : Reply * FS :=
  let filePath := Join dataDir "releases.json" in
  match method r with
  | GET => (Replied (serveJSONFile filePath fs), fs)
  | POST => updateJSONFileWithBackup r filePath (maxBackupsHeader r) now fs
  | _ => (Replied methodNotAllowed, fs)
  end.

(** [handleHolidays] serves [holidays.json]. *)
Definition handleHolidays `{codec : JSONCodec} `{sorter : SliceSorter}
    (r : Request) (now : Time) (fs : FS) : Reply * FS :=
  let filePath := Join dataDir "holidays.json" in
  match method r with
  | GET => (Replied (serveJSONFile filePath fs), fs)
  | POST => updateJSONFileWithBackup r filePath (maxBackupsHeader r) now fs
  | _ => (Replied methodNotAllowed, fs)
  end.

Definition backupDeleted : string :=
  "{" ++ quoted "success" ++ ": true, " ++ quoted "message" ++ ": " ++
  quoted "Backup deleted successfully" ++ "}".

(** [handleBackups]: fetch one backup, list a prefix, delete one backup. *)
Definition handleBackups `{codec : JSONCodec} (r : Request) (fs : FS) : Reply * FS :=
  match method r with
  | GET =>
      let filename := Get (query r) "filename" in
      if negb (filename =? "") then
        let fname := Base filename in
        let path := Join backupDir fname in
        match os_ReadFile path fs with
        | (_, Some e) =>
            (Replied (http_Error ∅
                        ("Error reading backup: " ++ pathError "open" path e)
                        StatusInternalServerError), fs)
        | (data, None) =>
            let resp :=
              JObject [ ("filename", JString fname);
                        ("checksum", JString (computeETag data));
                        ("content",
                         JString (string_of_list_byte (default [] data))) ] in
            (Replied {| status := StatusOK; respHeader := jsonHeader;
                        respBody := Encode resp |}, fs)
        end
      else
        let filePrefix := Get (query r) "prefix" in
        if filePrefix =? "" then
          (Replied (http_Error ∅ "Missing 'prefix' parameter" StatusBadRequest),
           fs)
        else
          match listBackups filePrefix fs with
          | inl err =>
              (Replied (http_Error ∅ ("Error listing backups: " ++ err)
                                   StatusInternalServerError), fs)
          | inr backups =>
              (Replied {| status := StatusOK; respHeader := jsonHeader;
                          respBody := Encode (JArray (map JString backups)) |},
               fs)
          end
  | DELETE =>
      match reqBody r ≫= DecodeFilename with
      | None =>
          (Replied (http_Error ∅ "Invalid request body" StatusBadRequest), fs)
      | Some requestFilename =>
          if requestFilename =? "" then
            (Replied (http_Error ∅ "Missing filename" StatusBadRequest), fs)
          else
            let filename := Base requestFilename in
            let filePath := Join backupDir filename in
            match os_Remove filePath fs with
            | (Some e, fs') =>
                (Replied (http_Error ∅
                            ("Error deleting backup: " ++
                             pathError "remove" filePath e)
                            StatusInternalServerError), fs')
            | (None, fs') =>
                (Replied {| status := StatusOK; respHeader := jsonHeader;
                            respBody := bytes backupDeleted |}, fs')
            end
      end
  | _ => (Replied methodNotAllowed, fs)
  end.

(** The three document endpoints registered in [main]. *)
Inductive Document := Environments | Releases | Holidays.

Definition documentFile (d : Document) : string :=
  match d with
  | Environments => "environments.json"
  | Releases => "releases.json"
  | Holidays => "holidays.json"
  end.

Definition documentPath (d : Document) : string := Join dataDir (documentFile d).

(** The prefix under which a document's backups are listed. *)
Definition documentPrefix (d : Document) : string :=
  TrimSuffix (documentFile d) ".json".

Definition handleDocument `{codec : JSONCodec} `{sorter : SliceSorter} (d : Document)
  : Request -> Time -> FS -> Reply * FS :=
  match d with
  | Environments => handleEmployees
  | Releases => handleDaysOff
  | Holidays => handleHolidays
  end.

(** ** The server: the write that keeps its backups next to the document *)

Definition updatedPlain : string :=
  "{" ++ quoted "success" ++ ": true, " ++ quoted "message" ++ ": " ++
  quoted "File updated successfully" ++ "}".

(** [updateJSONFile]: the existing file is renamed to
    [<filePath>.bak.<timestamp>] and gets a sidecar; nothing is
    rotated.  No handler calls it. *)
Definition updateJSONFile `{codec : JSONCodec}
    (r : Request) (filePath : string) (now : Time) (fs : FS) : Response * FS :=
  match reqBody r with
  | None => (http_Error ∅ "Error reading request body" StatusBadRequest, fs)
  | Some body =>
  match Unmarshal body with
  | None => (http_Error ∅ "Invalid JSON" StatusBadRequest, fs)
  | Some jsonData =>
  match validateByPath filePath jsonData with
  | Some err =>
      (http_Error ∅ ("Schema validation failed: " ++ err) StatusBadRequest, fs)
  | None =>
  match MarshalIndent jsonData with
  | None => (http_Error ∅ "Error formatting JSON" StatusInternalServerError, fs)
  | Some prettyJSON =>
      let write fs2 :=
        match os_WriteFile filePath prettyJSON fs2 with
        | (Some _, fs3) =>
            (http_Error ∅ "Error writing file" StatusInternalServerError, fs3)
        | (None, fs3) =>
            ({| status := StatusOK;
                respHeader :=
                  <["Content-Type" := "application/json"]>
                    {[ "ETag" := computeETag (Some prettyJSON) ]};
                respBody := bytes updatedPlain |}, fs3)
        end in
      match os_Stat filePath fs with
      | Some _ => write fs
      | None =>
          let ifMatch := Get (reqHeader r) "If-Match" in
          let current := (os_ReadFile filePath fs).1 in
          if negb (ifMatch =? "") && negb (computeETag current =? ifMatch)
          then
            (http_Error {[ "ETag" := computeETag current ]}
                        "Precondition Failed" StatusPreconditionFailed, fs)
          else
            let backupPath := filePath ++ ".bak." ++ Format now in
            let fs1 := (os_Rename filePath backupPath fs).2 in
            write (writeChecksum backupPath fs1)
      end
  end end end end.

(** ** [sort.Slice] as Go runs it on at most twelve elements

    [insertionSortLessFunc]: every element sinks towards the front
    while it is [less] than its left neighbour.  [sink] works on the
    sorted part kept in reverse, nearest neighbour first. *)

Fixpoint sink {A : Type} (less : A -> A -> bool) (x : A) (sorted : list A)
  : list A :=
  match sorted with
  | [] => [x]
  | y :: rest => if less x y then y :: sink less x rest else x :: sorted
  end.

Definition insertionSort {A : Type} (less : A -> A -> bool) (l : list A)
  : list A :=
  rev (fold_left (fun sorted x => sink less x sorted) l []).

Definition goSort : SliceSorter := {| sortSlice := @insertionSort |}.

(** ** An executable [encoding/json] for a fragment of JSON

    Used to run the handlers on concrete requests.  The fragment:
    objects, arrays, [true], [false], [null], integers of at most
    fifteen digits, and strings of printable ASCII without escapes.
    Anything else is rejected, as is everything [encoding/json]
    rejects.  On the fragment the output is that of [encoding/json]:
    object keys sorted, the last of two equal keys kept, two spaces of
    indentation, [<], [>] and [&] escaped. *)

Module RefJSON.

Definition isSpace (c : ascii) : bool :=
  let n := nat_of_ascii c in
  (n =? 32)%nat || (n =? 9)%nat || (n =? 10)%nat || (n =? 13)%nat.

Fixpoint skipSpace (s : string) : string :=
  match s with
  | String c rest => if isSpace c then skipSpace rest else s
  | "" => ""
  end.

Definition plainChar (c : ascii) : bool :=
  let n := nat_of_ascii c in
  (32 <=? n)%nat && (n <=? 126)%nat && negb (n =? 34)%nat && negb (n =? 92)%nat.

(** The text of a string up to its closing quote, and what follows. *)
Fixpoint stringBody (s : string) : option (string * string) :=
  match s with
  | "" => None
  | String c rest =>
      if (nat_of_ascii c =? 34)%nat then Some ("", rest)
      else if plainChar c then
        match stringBody rest with
        | Some (text, after) => Some (String c text, after)
        | None => None
        end
      else None
  end.

Definition isDigit (c : ascii) : bool :=
  let n := nat_of_ascii c in (48 <=? n)%nat && (n <=? 57)%nat.

Fixpoint digitRun (s : string) : string * string :=
  match s with
  | String c rest =>
      if isDigit c then let '(ds, after) := digitRun rest in (String c ds, after)
      else ("", s)
  | "" => ("", "")
  end.

(** An integer literal: no leading zero, no fraction, no exponent. *)
Definition number (s : string) : option (string * string) :=
  let '(sign, s1) :=
    match s with
    | String c rest => if Ascii.eqb c "-" then ("-", rest) else ("", s)
    | "" => ("", s)
    end in
  let '(ds, after) := digitRun s1 in
  let okDigits :=
    match ds with
    | "" => false
    | String c more => negb (Ascii.eqb c "0") || (more =? "")
    end in
  let okEnd :=
    match after with
    | String c _ =>
        negb (Ascii.eqb c "." || Ascii.eqb c "e" || Ascii.eqb c "E")
    | "" => true
    end in
  if okDigits && okEnd && (String.length ds <=? 15)%nat
  then Some (sign ++ ds, after) else None.

(** A member replaces an earlier member with its key, as in a Go map. *)
Definition setMember (k : string) (v : JSON) (ms : list (string * JSON))
  : list (string * JSON) :=
  (filter (fun kv => negb (kv.1 =? k)) ms ++ [(k, v)])%list.

Fixpoint value (fuel : nat) (s : string) : option (JSON * string) :=
  match fuel with
  | O => None
  | S fuel' =>
      match skipSpace s with
      | "" => None
      | String c rest =>
          if Ascii.eqb c "{" then
            match skipSpace rest with
            | String c' rest' =>
                if Ascii.eqb c' "}" then Some (JObject [], rest')
                else members fuel' (String c' rest') []
            | "" => None
            end
          else if Ascii.eqb c "[" then
            match skipSpace rest with
            | String c' rest' =>
                if Ascii.eqb c' "]" then Some (JArray [], rest')
                else elements fuel' (String c' rest') []
            | "" => None
            end
          else if (nat_of_ascii c =? 34)%nat then
            match stringBody rest with
            | Some (text, after) => Some (JString text, after)
            | None => None
            end
          else if HasPrefix (String c rest) "true" then
            Some (JBool true, substring 4 (String.length rest) (String c rest))
          else if HasPrefix (String c rest) "false" then
            Some (JBool false, substring 5 (String.length rest) (String c rest))
          else if HasPrefix (String c rest) "null" then
            Some (JNull, substring 4 (String.length rest) (String c rest))
          else
            match number (String c rest) with
            | Some (lit, after) => Some (JNumber lit, after)
            | None => None
            end
      end
  end
with elements (fuel : nat) (s : string) (acc : list JSON)
  : option (JSON * string) :=
  match fuel with
  | O => None
  | S fuel' =>
      match value fuel' s with
      | Some (v, after) =>
          match skipSpace after with
          | String c rest =>
              if Ascii.eqb c "," then elements fuel' rest (acc ++ [v])%list
              else if Ascii.eqb c "]" then Some (JArray (acc ++ [v])%list, rest)
              else None
          | "" => None
          end
      | None => None
      end
  end
with members (fuel : nat) (s : string) (acc : list (string * JSON))
  : option (JSON * string) :=
  match fuel with
  | O => None
  | S fuel' =>
      match skipSpace s with
      | String q rest =>
          if (nat_of_ascii q =? 34)%nat then
            match stringBody rest with
            | Some (key, after) =>
                match skipSpace after with
                | String colon rest' =>
                    if Ascii.eqb colon ":" then
                      match value fuel' rest' with
                      | Some (v, after') =>
                          match skipSpace after' with
                          | String c rest'' =>
                              if Ascii.eqb c ","
                              then members fuel' rest'' (setMember key v acc)
                              else if Ascii.eqb c "}"
                              then Some (JObject (setMember key v acc), rest'')
                              else None
                          | "" => None
                          end
                      | None => None
                      end
                    else None
                | "" => None
                end
            | None => None
            end
          else None
      | "" => None
      end
  end.

Definition parse (body : list byte) : option (JSON * string) :=
  let s := string_of_list_byte body in
  value (S (String.length s)) s.

Definition unmarshal (body : list byte) : option JSON :=
  match parse body with
  | Some (v, after) => if skipSpace after =? "" then Some v else None
  | None => None
  end.

Definition hex4 (n : nat) : string :=
  let d i := hexDigit (Z.of_nat (n / 16 ^ i) mod 16) in
  String (d 3%nat) (String (d 2%nat) (String (d 1%nat) (String (d 0%nat) ""))).

Definition escapeChar (c : ascii) : string :=
  let n := nat_of_ascii c in
  if (n =? 34)%nat then String "\" quote
  else if (n =? 92)%nat then "\\"
  else if (n =? 10)%nat then "\n"
  else if (n =? 13)%nat then "\r"
  else if (n =? 9)%nat then "\t"
  else if (n <? 32)%nat || (n =? 60)%nat || (n =? 62)%nat || (n =? 38)%nat
  then "\u" ++ hex4 n
  else String c "".

Fixpoint escape (s : string) : string :=
  match s with
  | "" => ""
  | String c rest => escapeChar c ++ escape rest
  end.

Definition keyLe (a b : string * string) : Prop := String.le a.1 b.1.

#[global] Instance keyLe_dec : RelDecision keyLe :=
  fun a b => decide (String.le a.1 b.1).

Fixpoint spaces (n : nat) : string :=
  match n with
  | O => ""
  | S n' => "  " ++ spaces n'
  end.

(** [indent = None] prints compactly, [Some depth] on indented lines. *)
Definition opening (indent : option nat) : string :=
  match indent with
  | Some depth => newline ++ spaces (S depth)
  | None => ""
  end.

Definition closing (indent : option nat) : string :=
  match indent with
  | Some depth => newline ++ spaces depth
  | None => ""
  end.

Definition deeper (indent : option nat) : option nat := S <$> indent.

Definition colon (indent : option nat) : string :=
  match indent with
  | Some _ => ": "
  | None => ":"
  end.

Fixpoint render (indent : option nat) (v : JSON) : string :=
  match v with
  | JNull => "null"
  | JBool true => "true"
  | JBool false => "false"
  | JNumber lit => lit
  | JString text => quoted (escape text)
  | JArray [] => "[]"
  | JArray items =>
      "[" ++ opening indent ++
      String.concat ("," ++ opening indent) (map (render (deeper indent)) items) ++
      closing indent ++ "]"
  | JObject [] => "{}"
  | JObject ms =>
      let printed :=
        map (fun kv =>
               match kv with
               | (k, v') => (k, render (deeper indent) v')
               end) ms in
      "{" ++ opening indent ++
      String.concat ("," ++ opening indent)
        (map (fun kt => quoted (escape kt.1) ++ colon indent ++ kt.2)
             (merge_sort keyLe printed)) ++
      closing indent ++ "}"
  end.

Definition lower (c : ascii) : ascii :=
  let n := nat_of_ascii c in
  if (65 <=? n)%nat && (n <=? 90)%nat then ascii_of_nat (n + 32) else c.

Fixpoint lowerCase (s : string) : string :=
  match s with
  | "" => ""
  | String c rest => String (lower c) (lowerCase rest)
  end.

(** The member a struct field named [field] is filled from: the
    exact key if there is one, else a key equal up to case. *)
Definition fieldMember (field : string) (ms : list (string * JSON))
  : option JSON :=
  match List.find (fun kv => kv.1 =? field) ms with
  | Some kv => Some kv.2
  | None =>
      match List.find (fun kv => lowerCase kv.1 =? lowerCase field) (rev ms) with
      | Some kv => Some kv.2
      | None => None
      end
  end.

Definition decodeFilename (body : list byte) : option string :=
  match parse body with
  | Some (JObject ms, _) =>
      match fieldMember "filename" ms with
      | Some (JString name) => Some name
      | Some JNull | None => Some ""
      | Some _ => None
      end
  | Some (JNull, _) => Some ""
  | _ => None
  end.

Definition codec : JSONCodec :=
  {| Unmarshal := unmarshal;
     MarshalIndent := fun v => Some (bytes (render (Some O) v));
     Encode := fun v => bytes (render None v ++ newline);
     DecodeFilename := decodeFilename |}.

End RefJSON.

(** ** Well-formed states and what the theorems speak about *)

Fixpoint noSeparator (s : string) : bool :=
  match s with
  | "" => true
  | String c rest => negb (Ascii.eqb c Separator) && noSeparator rest
  end.

(** A name a directory entry can have. *)
Definition plainName (n : string) : bool :=
  negb (n =? "") && negb (n =? ".") && negb (n =? "..") && noSeparator n.

Definition plainNames (m : gmap string entry) : Prop :=
  map_Forall (fun n _ => plainName n = true) m.

#[global] Instance plainNames_dec m : Decision (plainNames m).
Proof.
  unfold plainNames. apply map_Forall_dec. intros n _. apply bool_eq_dec.
Defined.

(** Every entry of both directories has a name a directory entry can
    have, and [backups] is not listed among the other entries of
    [./data]. *)
Definition wellFormed (fs : FS) : Prop :=
  match fs with
  | NoData => True
  | Data files backups =>
      plainNames files /\ files !! "backups" = None /\
      match backups with
      | Some m => plainNames m
      | None => True
      end
  end.

#[global] Instance wellFormed_dec fs : Decision (wellFormed fs) :=
  match fs with
  | NoData => left I
  | Data files backups =>
      and_dec (plainNames_dec files)
        (and_dec (decide (files !! "backups" = None))
           (match backups as b
                  return Decision (match b with
                                   | Some m => plainNames m
                                   | None => True
                                   end) with
            | Some m => plainNames_dec m
            | None => left I
            end))
  end.

(** The elements kept while cleaning a relative path: names (innermost
    first) on top of leading [".."]s. *)
Definition keptShape (kept : list string) : Prop :=
  exists names dots,
    kept = (names ++ dots)%list /\
    Forall (fun e => plainName e = true) names /\
    Forall (fun e => e = "..") dots.

(** The bytes of a document's file, when it is a regular file. *)
Definition documentContent (d : Document) (fs : FS) : option (list byte) :=
  match dataFiles fs with
  | Some files =>
      match files !! documentFile d with
      | Some (File content) => Some content
      | _ => None
      end
  | None => None
  end.

Definition isDirectory (e : option entry) : bool :=
  match e with
  | Some (SubDir _) => true
  | _ => false
  end.

(** The name [updateJSONFileWithBackup] gives the backup it takes at
    [now]. *)
Definition backupName (d : Document) (now : Time) : string :=
  documentPrefix d ++ "." ++ Format now ++ ".json".

(** The text of the sidecar of a backup with the bytes [content]. *)
Definition sidecarOf (content : list byte) : list byte :=
  bytes (hexEncode (SHA256.Sum256 content) ++ newline).

(** The backup directory once a backup and its sidecar are in it. *)
Definition withBackup (name : string) (content : list byte)
    (m : gmap string entry) : gmap string entry :=
  <[name ++ ".sha256" := File (sidecarOf content)]> (<[name := File content]> m).

(** The same request [n] times in a row. *)
Fixpoint repeatRequest (n : nat) (handler : FS -> Reply * FS) (fs : FS)
  : list Reply * FS :=
  match n with
  | O => ([], fs)
  | S n' =>
      let '(reply, fs1) := handler fs in
      let '(replies, fs2) := repeatRequest n' handler fs1 in
      (reply :: replies, fs2)
  end.

(** The contract of [sort.Slice]: the slice is permuted, and when
    [less] is a strict weak ordering no element is [less] than one
    placed before it. *)
Definition SortPermutes (sorter : SliceSorter) : Prop :=
  forall (A : Type) (less : A -> A -> bool) (l : list A),
    @sortSlice sorter A less l ≡ₚ l.

Definition strictWeakOrderOn {A : Type} (l : list A) (less : A -> A -> bool)
  : Prop :=
  (forall a b, a ∈ l -> b ∈ l -> less a b = true -> less b a = false) /\
  (forall a b c, a ∈ l -> b ∈ l -> c ∈ l ->
     less a b = false -> less b c = false -> less a c = false).

Definition SortSorts (sorter : SliceSorter) : Prop :=
  forall (A : Type) (less : A -> A -> bool) (l : list A),
    strictWeakOrderOn l less ->
    StronglySorted (fun a b => less b a = false) (@sortSlice sorter A less l).

(** The timestamp token of a backup's name: its second part between
    dots. *)
Definition stamp (name : string) : string := nth 1 (Split name ".") "".

(** How many names of [l] carry a later timestamp than [name]. *)
Definition newerThan (name : string) (l : list string) : nat :=
  length (filter (fun other => gtString (stamp other) (stamp name)) l).

(** What [os.ReadFile] hands to [computeETag] for an entry: a
    directory reads as no bytes. *)
Definition bytesOnDisk (e : entry) : list byte :=
  match e with
  | File content => content
  | SubDir _ => []
  end.

(** [fs'] is [fs] up to the entries of the backup directory whose
    names start with [pre]. *)
Definition sameExceptBackups (pre : string) (fs fs' : FS) : Prop :=
  dataFiles fs' = dataFiles fs /\
  match backupFiles fs, backupFiles fs' with
  | Some m, Some m' => forall n, HasPrefix n pre = false -> m' !! n = m !! n
  | None, None => True
  | _, _ => False
  end.

(** How many names of [l] carry the timestamp of [name]. *)
Definition sameStamp (name : string) (l : list string) : nat :=
  length (filter (fun other => stamp other =? stamp name) l).

(** [s] has no byte [c]. *)
Fixpoint freeOf (c : ascii) (s : string) : bool :=
  match s with
  | "" => true
  | String x rest => negb (Ascii.eqb x c) && freeOf c rest
  end.

(** The fields of a time, the most significant first, and their
    comparison in that order. *)
Definition timeFields (t : Time) : list nat :=
  [Year t; Month t; Day t; Hour t; Minute t; Second t].

Fixpoint lexCompare (a b : list nat) : comparison :=
  match a, b with
  | [], [] => Eq
  | [], _ :: _ => Lt
  | _ :: _, [] => Gt
  | x :: a', y :: b' =>
      match Nat.compare x y with
      | Eq => lexCompare a' b'
      | c => c
      end
  end.

(** [t1] is before [t2]. *)
Definition earlier (t1 t2 : Time) : bool :=
  match lexCompare (timeFields t1) (timeFields t2) with
  | Lt => true
  | _ => false
  end.

(** A time whose year has at most four digits and whose other fields
    have at most two, as every time of the calendar up to the year
    9999 has. *)
Definition fourDigitYear (t : Time) : Prop :=
  (Year t < 100 * 100)%nat /\ (Month t < 100)%nat /\ (Day t < 100)%nat /\
  (Hour t < 100)%nat /\ (Minute t < 100)%nat /\ (Second t < 100)%nat.


(** The name [updateJSONFile] moves a document's file to at [now]. *)
Definition movedName (d : Document) (now : Time) : string :=
  documentFile d ++ ".bak." ++ Format now.

(** The decimal digits of [n], as a client writes a number into a
    header. *)
Definition decimalDigits (n : nat) : string := decimal (S n) n "".

(** ** The server as a whole: requests in a row *)

Inductive Endpoint :=
  | DocumentEndpoint (d : Document)
  | BackupsEndpoint.

Definition serve `{codec : JSONCodec} `{sorter : SliceSorter}
    (e : Endpoint) (r : Request) (now : Time) (fs : FS) : Reply * FS :=
  match e with
  | DocumentEndpoint d => handleDocument d r now fs
  | BackupsEndpoint => handleBackups r fs
  end.

(** The state after the requests of [trace], oldest first. *)
Fixpoint serveAll `{codec : JSONCodec} `{sorter : SliceSorter}
    (trace : list (Endpoint * Request * Time)) (fs : FS) : FS :=
  match trace with
  | [] => fs
  | (e, r, now) :: rest => serveAll rest (serve e r now fs).2
  end.

(** Modelled on the spec's validation table (section 4.4), by document
    name: what [validate(name, parsedJSON)] accepts. *)
Definition shapeRule (name : string) (parsed : JSON) : bool :=
  if name =? "environments" then
    match parsed with
    | JObject ms => hasKey ms "environments"
    | _ => false
    end
  else if name =? "releases" then
    match parsed with
    | JObject _ => true
    | _ => false
    end
  else if name =? "holidays" then
    match parsed with
    | JObject ms => hasKey ms "holidays"
    | _ => false
    end
  else true.

(** A request as it is without its [If-Match] header. *)
Definition withoutIfMatch (r : Request) : Request :=
  {| method := method r;
     reqHeader := delete "If-Match" (reqHeader r);
     query := query r;
     reqBody := reqBody r |}.

(** ** Sample requests and states for the checks on concrete inputs *)

Definition sampleTime : Time :=
  {| Year := 2025; Month := 4; Day := 15; Hour := 10; Minute := 15; Second := 0 |}.

Definition postRequest (headers : gmap string string) (body : string) : Request :=
  {| method := POST; reqHeader := headers; query := ∅;
     reqBody := Some (bytes body) |}.

Definition getRequest : Request :=
  {| method := GET; reqHeader := ∅; query := ∅; reqBody := Some [] |}.

Definition deleteRequest (body : string) : Request :=
  {| method := DELETE; reqHeader := ∅; query := ∅;
     reqBody := Some (bytes body) |}.

(** [./data] with [environments.json] holding an empty object and an
    empty backup directory. *)
Definition sampleFS : FS :=
  Data {[ "environments.json" := File (bytes "{}") ]} (Some ∅).

(** A body the environments document accepts. *)
Definition environmentsBody : string :=
  "{" ++ quoted "environments" ++ ": []}".

(** Three backups of the environments document, one a day, each with
    the sidecar [writeChecksum] leaves next to it. *)
Definition threeBackups : gmap string entry :=
  withBackup "environments.20250103-000000.json" (bytes "{3}")
    (withBackup "environments.20250102-000000.json" (bytes "{2}")
       (withBackup "environments.20250101-000000.json" (bytes "{1}") ∅)).

Definition threeBackupsFS : FS :=
  Data {[ "environments.json" := File (bytes "{}") ]} (Some threeBackups).

(** [./data] without its backup directory. *)
Definition noBackupDirFS : FS :=
  Data {[ "environments.json" := File (bytes "{}") ]} None.

(** Three backups of the environments document without sidecars. *)
Definition bareBackupsFS : FS :=
  Data ∅ (Some (<["environments.20250103-000000.json" := File (bytes "{3}")]>
                  (<["environments.20250102-000000.json" := File (bytes "{2}")]>
                     (<["environments.20250101-000000.json" := File (bytes "{1}")]>
                        ∅)))).

(** The directories as [main] creates them. *)
Definition freshFS : FS := Data ∅ (Some ∅).

(** The requests of the scenario of section 8 of the spec: a first
    write of the releases document, a second one with the first ETag as
    If-Match, a third one with the same, now stale, ETag. *)
Definition releasesBody (status : string) : string :=
  "{" ++ quoted "staging" ++ ":[{" ++ quoted "date" ++ ":" ++
  quoted "2025-04-15" ++ "," ++ quoted "status" ++ ":" ++ quoted status ++ "}]}".

Definition atSecond (s : nat) : Time :=
  {| Year := 2025; Month := 4; Day := 15; Hour := 10; Minute := 15; Second := s |}.

Definition scenarioStep (ifMatch : option string) (status : string)
    (s : nat) (fs : FS) : Reply * FS :=
  handleDaysOff (codec := RefJSON.codec) (sorter := goSort)
    (postRequest
       (match ifMatch with
        | Some etag => <["If-Match" := etag]> {[ "X-Max-Backups" := "2" ]}
        | None => {[ "X-Max-Backups" := "2" ]}
        end)
       (releasesBody status))
    (atSecond s) fs.

Definition replyETag (reply : Reply) : option string :=
  match reply with
  | Replied resp => respHeader resp !! "ETag"
  | Panicked => None
  end.

Definition replyStatus (reply : Reply) : option Z :=
  match reply with
  | Replied resp => Some (status resp)
  | Panicked => None
  end.

Definition fetchRequest (filename : string) : Request :=
  {| method := GET; reqHeader := ∅; query := {[ "filename" := filename ]};
     reqBody := Some [] |}.

(** The body of a DELETE that names [filename]. *)
Definition deleteBody (filename : string) : string :=
  "{" ++ quoted "filename" ++ ": " ++ quoted filename ++ "}".

(** The second request of the scenario: its If-Match is the ETag the
    first write returned. *)
Definition followUpRequest : Request :=
  postRequest
    (<["If-Match" := default "" (replyETag (scenarioStep None "Planned" 1 freshFS).1)]>
       {[ "X-Max-Backups" := "2" ]})
    (releasesBody "Done").

(** * Properties *)

(** ** Paths *)

Lemma Split_noSeparator n :
  noSeparator n = true -> Split n Separator = [n].
Proof.
  induction n as [|c n IH]; simpl; [done|].
  intros [Hc Hn]%andb_true_iff. apply negb_true_iff in Hc.
  rewrite Hc, IH by done. done.
Qed.

Lemma plainName_inv n :
  plainName n = true ->
  (n =? "") = false /\ (n =? ".") = false /\ (n =? "..") = false /\
  noSeparator n = true.
Proof.
  unfold plainName. rewrite !andb_true_iff, !negb_true_iff. tauto.
Qed.

Lemma cleanStep_plain rooted kept n :
  plainName n = true -> cleanStep rooted kept n = n :: kept.
Proof.
  intros (H0 & H1 & H2 & _)%plainName_inv.
  unfold cleanStep. rewrite H0, H1, H2. done.
Qed.

Lemma cleanElements_backup n :
  plainName n = true ->
  cleanElements false ["."; "data"; "backups"; n] = ["data"; "backups"; n] /\
  cleanElements false ["data"; "backups"; n] = ["data"; "backups"; n].
Proof.
  intros Hn. unfold cleanElements. cbn [fold_left].
  rewrite !(cleanStep_plain _ _ n Hn). split; reflexivity.
Qed.

Lemma Join_backupDir n :
  plainName n = true -> Join backupDir n = "data/backups/" ++ n.
Proof.
  intros Hn. destruct (plainName_inv n Hn) as (_ & _ & _ & Hs).
  unfold Join, Clean, backupDir. simpl.
  change (String.append "" n) with n.
  rewrite (Split_noSeparator n Hs).
  rewrite (proj1 (cleanElements_backup n Hn)). reflexivity.
Qed.

Lemma resolve_backup n :
  plainName n = true -> resolve ("data/backups/" ++ n) = LBackupEntry n.
Proof.
  intros Hn. destruct (plainName_inv n Hn) as (_ & _ & _ & Hs).
  unfold resolve. simpl.
  change (String.append "" n) with n.
  rewrite (Split_noSeparator n Hs).
  rewrite (proj2 (cleanElements_backup n Hn)). reflexivity.
Qed.

(** ** Strings *)

#[local] Arguments String.append !s1 s2 : simpl nomatch.
#[local] Arguments digitChar : simpl never.
#[local] Arguments Nat.div : simpl never.
#[local] Arguments Nat.modulo : simpl never.
#[local] Arguments Nat.ltb : simpl never.
#[local] Arguments SHA256.Sum256 : simpl never.
#[local] Arguments hexEncode : simpl never.
#[local] Arguments Format : simpl never.

Lemma length_append (a b : string) :
  String.length (a ++ b) = (String.length a + String.length b)%nat.
Proof. induction a as [|c a IH]; simpl; [done|]. by rewrite IH. Qed.

Lemma append_assoc (a b c : string) : (a ++ b) ++ c = a ++ (b ++ c).
Proof. induction a as [|x a IH]; simpl; [done|]. by rewrite IH. Qed.

Lemma append_inv_tail (a b t : string) : a ++ t = b ++ t -> a = b.
Proof.
  revert b. induction a as [|x a IH]; intros [|y b] H; simpl in H.
  - done.
  - apply (f_equal String.length) in H. simpl in H.
    rewrite length_append in H. lia.
  - apply (f_equal String.length) in H. simpl in H.
    rewrite length_append in H. lia.
  - injection H as -> H. f_equal. by apply IH.
Qed.

Lemma noSeparator_app (a b : string) :
  noSeparator (a ++ b) = noSeparator a && noSeparator b.
Proof.
  induction a as [|c a IH]; simpl; [done|]. by rewrite IH, andb_assoc.
Qed.

Lemma plainName_long n :
  (2 < String.length n)%nat -> noSeparator n = true -> plainName n = true.
Proof.
  intros Hlen Hs. unfold plainName. rewrite Hs, andb_true_r.
  rewrite !andb_true_iff, !negb_true_iff, !String.eqb_neq.
  repeat split; intros ->; simpl in Hlen; lia.
Qed.

Lemma plainName_sidecar n :
  plainName n = true -> plainName (n ++ ".sha256") = true.
Proof.
  intros (_ & _ & _ & Hs)%plainName_inv. apply plainName_long.
  - rewrite length_append. simpl. lia.
  - rewrite noSeparator_app, Hs. done.
Qed.

Lemma digitChar_noSeparator n : Ascii.eqb (digitChar n) Separator = false.
Proof.
  unfold digitChar.
  assert (n mod 10 < 10)%nat as Hk by (apply Nat.mod_upper_bound; lia).
  revert Hk. generalize (n mod 10)%nat. intros k Hk.
  do 10 (destruct k as [|k]; [reflexivity|]). lia.
Qed.

Lemma twoDigits_noSeparator n : noSeparator (twoDigits n) = true.
Proof.
  unfold twoDigits. cbn [noSeparator]. by rewrite !digitChar_noSeparator.
Qed.

Lemma decimal_noSeparator fuel n acc :
  noSeparator acc = true -> noSeparator (decimal fuel n acc) = true.
Proof.
  revert n acc.
  induction fuel as [|fuel IH]; intros n acc Hacc; cbn [decimal]; [done|].
  assert (noSeparator (String (digitChar n) acc) = true) as H.
  { cbn [noSeparator]. by rewrite digitChar_noSeparator, Hacc. }
  destruct (n <? 10)%nat; [done|]. by apply IH.
Qed.

Lemma yearDigits_noSeparator y : noSeparator (yearDigits y) = true.
Proof.
  unfold yearDigits. destruct (y / 100 <? 100)%nat.
  - by rewrite noSeparator_app, !twoDigits_noSeparator.
  - by apply decimal_noSeparator.
Qed.

Lemma Format_noSeparator now : noSeparator (Format now) = true.
Proof.
  unfold Format.
  by rewrite !noSeparator_app, yearDigits_noSeparator, !twoDigits_noSeparator.
Qed.

Lemma backupName_plain d now : plainName (backupName d now) = true.
Proof.
  apply plainName_long.
  - unfold backupName. rewrite !length_append. destruct d; simpl; lia.
  - unfold backupName.
    rewrite !noSeparator_app, Format_noSeparator. by destruct d.
Qed.

(** ** Where the server's paths lead *)

Lemma documentPath_resolve d :
  resolve (documentPath d) = LDataEntry (documentFile d) /\
  Base (documentPath d) = documentFile d.
Proof. destruct d; split; reflexivity. Qed.

Lemma Split_parts_noSeparator p :
  Forall (fun e => noSeparator e = true) (Split p Separator).
Proof.
  induction p as [|c p IH]; simpl; [by repeat constructor|].
  destruct (Ascii.eqb c Separator) eqn:Hc.
  - by constructor.
  - destruct (Split p Separator) as [|part parts].
    + constructor; [|constructor]. simpl. by rewrite Hc.
    + inversion IH; subst. constructor; [|done]. simpl. by rewrite Hc.
Qed.

Lemma cleanStep_shape kept e :
  noSeparator e = true -> keptShape kept -> keptShape (cleanStep false kept e).
Proof.
  intros He (names & dots & -> & Hn & Hd). unfold cleanStep.
  destruct (e =? "") eqn:E0; simpl; [by exists names, dots|].
  destruct (e =? ".") eqn:E1; simpl; [by exists names, dots|].
  destruct (e =? "..") eqn:E2.
  - apply String.eqb_eq in E2 as ->.
    destruct names as [|top names]; simpl.
    + destruct dots as [|top dots].
      * exists [], [".."]. by repeat constructor.
      * inversion Hd; subst. simpl.
        exists [], (".." :: ".." :: dots). by repeat constructor.
    + inversion Hn as [|? ? Htop Hn']; subst.
      assert ((top =? "..") = false) as ->
        by (by apply plainName_inv in Htop as (_ & _ & ? & _)).
      by exists names, dots.
  - exists (e :: names), dots. split; [done|]. split; [|done].
    constructor; [|done]. unfold plainName. by rewrite E0, E1, E2, He.
Qed.

Lemma cleanElements_shape elems :
  Forall (fun e => noSeparator e = true) elems ->
  keptShape (fold_left (cleanStep false) elems []).
Proof.
  assert (forall kept, keptShape kept ->
            Forall (fun e => noSeparator e = true) elems ->
            keptShape (fold_left (cleanStep false) elems kept)) as H.
  { induction elems as [|e elems IH]; intros kept Hk He; simpl; [done|].
    inversion He; subst. apply IH; [|done]. by apply cleanStep_shape. }
  apply H. exists [], []. by repeat constructor.
Qed.

(** Cleaned elements behind a first element that is a name are names. *)
Lemma cleanElements_plain p first others :
  cleanElements false (Split p Separator) = first :: others ->
  first <> ".." -> Forall (fun e => plainName e = true) others.
Proof.
  unfold cleanElements. intros Hrev Hfirst.
  destruct (cleanElements_shape _ (Split_parts_noSeparator p))
    as (names & dots & Hk & Hn & Hd).
  rewrite Hk, rev_app_distr in Hrev.
  destruct (rev dots) as [|dot rest] eqn:Hdots.
  - simpl in Hrev.
    assert (Forall (fun e => plainName e = true) (rev names)) as Hall
      by (by apply Forall_rev).
    rewrite Hrev in Hall. by inversion Hall.
  - simpl in Hrev. injection Hrev as Hdot _.
    assert (Forall (fun e => e = "..") (rev dots)) as Hall
      by (by apply Forall_rev).
    rewrite Hdots in Hall. inversion Hall; subst. done.
Qed.

Lemma resolve_entry_plain p n :
  resolve p = LDataEntry n \/ resolve p = LBackupEntry n ->
  plainName n = true /\ (resolve p = LDataEntry n -> n <> "backups").
Proof.
  unfold resolve. destruct (HasPrefix p "/"); [by intros [?|?]|].
  destruct (cleanElements false (Split p Separator))
    as [|d [|x [|y [|z rest]]]] eqn:Hclean; try by intros [?|?].
  - destruct (d =? "data"); by intros [?|?].
  - destruct (d =? "data") eqn:Hd; [|by intros [?|?]].
    apply String.eqb_eq in Hd as ->.
    pose proof (cleanElements_plain _ _ _ Hclean ltac:(done)) as Hall.
    inversion Hall; subst.
    destruct (x =? "backups") eqn:Hx; [by intros [?|?]|].
    apply String.eqb_neq in Hx. intros [[= <-]|?]; [|done]. by split.
  - destruct ((d =? "data") && (x =? "backups")) eqn:Hd; [|by intros [?|?]].
    apply andb_true_iff in Hd as [Hd _]. apply String.eqb_eq in Hd as ->.
    pose proof (cleanElements_plain _ _ _ Hclean ltac:(done)) as Hall.
    inversion Hall as [|? ? _ Hall']; subst. inversion Hall'; subst.
    intros [?|[= <-]]; [done|]. by split.
Qed.

(** ** Well-formed states stay well-formed *)

Lemma plainNames_insert m n e :
  plainNames m -> plainName n = true -> plainNames (<[n := e]> m).
Proof.
  intros Hm Hn n' e'. rewrite lookup_insert. case_decide; [by subst|].
  apply Hm.
Qed.

Lemma plainNames_delete m n : plainNames m -> plainNames (delete n m).
Proof.
  intros Hm n' e'. rewrite lookup_delete. case_decide; [done|]. apply Hm.
Qed.

Lemma writeEntry_plainNames n data m m' :
  writeEntry n data m = Some m' -> plainName n = true ->
  plainNames m -> plainNames m'.
Proof.
  unfold writeEntry. intros H Hn Hm.
  destruct (m !! n) as [[|]|]; simplify_eq; by apply plainNames_insert.
Qed.

Lemma removeEntry_plainNames n m m' :
  removeEntry n m = inr m' -> plainNames m -> plainNames m'.
Proof.
  unfold removeEntry. intros H Hm.
  destruct (m !! n) as [[|[]]|]; simplify_eq; by apply plainNames_delete.
Qed.

Lemma os_WriteFile_wellFormed p data fs :
  wellFormed fs -> wellFormed (os_WriteFile p data fs).2.
Proof.
  unfold os_WriteFile. intros Hwf.
  destruct (resolve p) as [| |n|n|] eqn:Hp, fs as [|files [m|]];
    simpl; try done.
  - destruct (resolve_entry_plain p n (or_introl Hp)) as [Hn Hb].
    destruct (writeEntry n data files) as [files'|] eqn:Hw; [|done].
    destruct Hwf as (Hf & Hbk & Hm). simpl. split_and!; [|..|done].
    + by eapply writeEntry_plainNames.
    + unfold writeEntry in Hw.
      destruct (files !! n) as [[|]|]; simplify_eq;
        rewrite lookup_insert_ne; auto.
  - destruct (resolve_entry_plain p n (or_introl Hp)) as [Hn Hb].
    destruct (writeEntry n data files) as [files'|] eqn:Hw; [|done].
    destruct Hwf as (Hf & Hbk & Hm). simpl. split_and!; [|..|done].
    + by eapply writeEntry_plainNames.
    + unfold writeEntry in Hw.
      destruct (files !! n) as [[|]|]; simplify_eq;
        rewrite lookup_insert_ne; auto.
  - destruct (resolve_entry_plain p n (or_intror Hp)) as [Hn _].
    destruct (writeEntry n data m) as [m'|] eqn:Hw; [|done].
    destruct Hwf as (Hf & Hbk & Hm). simpl. split_and!; [done..|].
    by eapply writeEntry_plainNames.
Qed.

Lemma os_Remove_wellFormed p fs :
  wellFormed fs -> wellFormed (os_Remove p fs).2.
Proof.
  unfold os_Remove. intros Hwf.
  destruct (resolve p) as [| |n|n|] eqn:Hp, fs as [|files [m|]];
    simpl; try done.
  - by destruct (isEmptyDir files && false).
  - by destruct (isEmptyDir files && true).
  - destruct Hwf as (Hf & Hbk & Hm). by destruct (isEmptyDir m).
  - destruct Hwf as (Hf & Hbk & Hm).
    destruct (removeEntry n files) as [e|files'] eqn:Hr; [done|].
    simpl. split_and!; [by eapply removeEntry_plainNames| |done].
    unfold removeEntry in Hr.
    destruct (files !! n) as [[|[]]|]; simplify_eq;
      rewrite lookup_delete; by case_decide.
  - destruct Hwf as (Hf & Hbk & _).
    destruct (removeEntry n files) as [e|files'] eqn:Hr; [done|].
    simpl. split_and!; [by eapply removeEntry_plainNames| |done].
    unfold removeEntry in Hr.
    destruct (files !! n) as [[|[]]|]; simplify_eq;
      rewrite lookup_delete; by case_decide.
  - destruct Hwf as (Hf & Hbk & Hm).
    destruct (removeEntry n m) as [e|m'] eqn:Hr; [done|].
    simpl. split_and!; [done..|]. by eapply removeEntry_plainNames.
Qed.

Lemma writeChecksum_wellFormed path fs :
  wellFormed fs -> wellFormed (writeChecksum path fs).
Proof.
  intros Hwf. unfold writeChecksum.
  destruct (os_ReadFile path fs) as [b [e|]]; [done|].
  by apply os_WriteFile_wellFormed.
Qed.

Lemma removeBackups_wellFormed names fs :
  wellFormed fs -> wellFormed (removeBackups names fs).2.
Proof.
  revert fs. induction names as [|n names IH]; intros fs Hwf; simpl; [done|].
  pose proof (os_Remove_wellFormed (Join backupDir n) fs Hwf) as Hwf'.
  destruct (os_Remove (Join backupDir n) fs) as [[e|] fs']; simpl in *;
    [done|]. by apply IH.
Qed.

Lemma cleanupOldBackups_wellFormed `{sorter : SliceSorter} base maxBackups fs :
  wellFormed fs -> wellFormed (cleanupOldBackups base maxBackups fs).2.
Proof.
  intros Hwf. unfold cleanupOldBackups.
  destruct (listBackups _ fs) as [err|backups]; [done|].
  destruct (Z.of_nat (length backups) <=? maxBackups)%Z; [done|].
  destruct (maxBackups <? 0)%Z; [done|].
  pose proof (removeBackups_wellFormed
    (drop (Z.to_nat maxBackups) (sortSlice newerFirst backups)) fs Hwf) as Hwf'.
  by destruct (removeBackups _ fs).
Qed.

Lemma writeAndReply_wellFormed filePath prettyJSON fs :
  wellFormed fs -> wellFormed (writeAndReply filePath prettyJSON fs).2.
Proof.
  intros Hwf. unfold writeAndReply.
  pose proof (os_WriteFile_wellFormed filePath prettyJSON fs Hwf) as Hwf'.
  by destruct (os_WriteFile filePath prettyJSON fs) as [[e|] fs'].
Qed.

Lemma updateJSONFileWithBackup_wellFormed `{codec : JSONCodec} `{sorter : SliceSorter}
    r filePath maxBackups now fs :
  wellFormed fs ->
  wellFormed (updateJSONFileWithBackup r filePath maxBackups now fs).2.
Proof.
  intros Hwf. unfold updateJSONFileWithBackup.
  destruct (reqBody r) as [body|]; [|done].
  destruct (Unmarshal body) as [jsonData|]; [|done].
  destruct (validateByPath filePath jsonData); [done|].
  destruct (MarshalIndent jsonData) as [prettyJSON|]; [|done].
  destruct (os_Stat filePath fs); [by apply writeAndReply_wellFormed|].
  destruct (negb _ && negb _); [done|].
  destruct (os_ReadFile filePath fs) as [origData [e|]];
    [by apply writeAndReply_wellFormed|].
  match goal with |- context [os_WriteFile ?p ?d fs] =>
    pose proof (os_WriteFile_wellFormed p d fs Hwf) as Hwf1;
    destruct (os_WriteFile p d fs) as [[e|] fs1] end;
    simpl in Hwf1; [by apply writeAndReply_wellFormed|].
  match goal with |- context [cleanupOldBackups ?b ?k ?st] =>
    pose proof (cleanupOldBackups_wellFormed b k st
                  (writeChecksum_wellFormed _ _ Hwf1)) as Hwf3;
    destruct (cleanupOldBackups b k st) as [[err|] fs3] end;
    simpl in Hwf3; [by apply writeAndReply_wellFormed|done].
Qed.

Lemma handleDocument_wellFormed `{codec : JSONCodec} `{sorter : SliceSorter} d r now fs :
  wellFormed fs -> wellFormed (handleDocument d r now fs).2.
Proof.
  intros Hwf.
  destruct d; unfold handleDocument, handleEmployees, handleDaysOff,
    handleHolidays; destruct (method r); try done;
    by apply updateJSONFileWithBackup_wellFormed.
Qed.

Lemma handleBackups_wellFormed `{codec : JSONCodec} r fs :
  wellFormed fs -> wellFormed (handleBackups r fs).2.
Proof.
  intros Hwf. unfold handleBackups. destruct (method r); try done.
  - destruct (negb _).
    + by destruct (os_ReadFile _ fs) as [? [?|]].
    + destruct (_ =? ""); [done|]. by destruct (listBackups _ fs).
  - destruct (reqBody r ≫= DecodeFilename) as [name|]; [|done].
    destruct (name =? ""); [done|].
    pose proof (os_Remove_wellFormed (Join backupDir (Base name)) fs Hwf).
    by destruct (os_Remove _ fs) as [[e|] fs'].
Qed.

(** ** Listing the backup directory *)

Lemma names_of_entries pre (l : list (string * entry)) :
  map Name
    (filter (fun file => negb (IsDir file) && HasPrefix (Name file) pre)
       (map (fun ne => {| Name := ne.1; IsDir := isDir ne.2 |}) l)) =
  (filter (fun ne => negb (isDir ne.2) && HasPrefix ne.1 pre) l).*1.
Proof.
  induction l as [|[n e] l IH]; [done|].
  cbn [map]. rewrite !filter_cons. cbn [fst snd Name IsDir].
  destruct (decide (negb (isDir e) && HasPrefix n pre)); [|done].
  cbn [map fmap list_fmap fst]. by rewrite IH.
Qed.

Lemma listBackups_present pre files m :
  listBackups pre (Data files (Some m)) =
  inr (filter (fun ne => negb (isDir ne.2) && HasPrefix ne.1 pre)
         (merge_sort nameLe (map_to_list m))).*1.
Proof.
  unfold listBackups, os_ReadDir.
  change (resolve backupDir) with LBackupDir. cbn iota.
  unfold dirEntries. by rewrite names_of_entries.
Qed.

Lemma listBackups_spec pre files m l :
  listBackups pre (Data files (Some m)) = inr l ->
  NoDup l /\
  forall n, n ∈ l <-> (exists c, m !! n = Some (File c)) /\ HasPrefix n pre = true.
Proof.
  rewrite listBackups_present. intros [= <-].
  pose proof (merge_sort_Permutation nameLe (map_to_list m)) as Hperm.
  split.
  - apply (sublist_NoDup _ (merge_sort nameLe (map_to_list m)).*1).
    + rewrite Hperm. apply NoDup_fst_map_to_list.
    + apply fmap_sublist, sublist_filter.
  - intros n. rewrite list_elem_of_fmap. split.
    + intros ([n' e] & -> & [HP Hin]%list_elem_of_filter).
      rewrite Hperm in Hin. apply elem_of_map_to_list in Hin.
      cbn [fst snd] in *. apply Is_true_true, andb_true_iff in HP as [Hd Hp].
      split; [|done]. destruct e; [by eexists|done].
    + intros [[c Hc] Hp]. exists (n, File c). split; [done|].
      apply list_elem_of_filter. split.
      * cbn [fst snd]. by rewrite Hp.
      * rewrite Hperm. by apply elem_of_map_to_list.
Qed.

Lemma listBackups_missing pre fs :
  backupFiles fs = None -> exists err, listBackups pre fs = inl err.
Proof.
  unfold listBackups, os_ReadDir. change (resolve backupDir) with LBackupDir.
  destruct fs as [|files [m|]]; [|done|]; eauto.
Qed.

(** ** The deletion loop *)

Lemma os_Remove_backup files m n :
  plainName n = true ->
  os_Remove (Join backupDir n) (Data files (Some m)) =
  match removeEntry n m with
  | inr m' => (None, Data files (Some m'))
  | inl e => (Some e, Data files (Some m))
  end.
Proof.
  intros Hn. unfold os_Remove.
  by rewrite (Join_backupDir n Hn), (resolve_backup n Hn).
Qed.

Lemma os_WriteFile_backup files m n data :
  plainName n = true ->
  os_WriteFile (Join backupDir n) data (Data files (Some m)) =
  match writeEntry n data m with
  | Some m' => (None, Data files (Some m'))
  | None => (Some EISDIR, Data files (Some m))
  end.
Proof.
  intros Hn. unfold os_WriteFile.
  by rewrite (Join_backupDir n Hn), (resolve_backup n Hn).
Qed.

Lemma foldr_delete_delete (m : gmap string entry) n names :
  foldr delete (delete n m) names = delete n (foldr delete m names).
Proof.
  induction names as [|x names IH]; cbn [foldr]; [done|].
  rewrite IH. apply delete_delete.
Qed.

Lemma removeBackups_files files m names :
  plainNames m -> NoDup names ->
  (forall n, n ∈ names -> exists c, m !! n = Some (File c)) ->
  removeBackups names (Data files (Some m)) =
  (None, Data files (Some (foldr delete m names))).
Proof.
  revert m. induction names as [|n names IH]; intros m Hm Hnd Hfiles.
  { done. }
  apply NoDup_cons in Hnd as [Hn Hnd].
  destruct (Hfiles n) as [c Hc]; [left|].
  cbn [removeBackups]. rewrite os_Remove_backup by eauto.
  unfold removeEntry. rewrite Hc.
  rewrite IH; [| by apply plainNames_delete | done |].
  - by rewrite foldr_delete_delete.
  - intros x Hx. destruct (Hfiles x) as [c' Hc']; [by right|].
    exists c'. rewrite lookup_delete_ne; [done|]. by intros ->.
Qed.

Lemma lookup_foldr_delete (m : gmap string entry) names n :
  foldr delete m names !! n = if decide (n ∈ names) then None else m !! n.
Proof.
  induction names as [|x names IH]; cbn [foldr].
  { rewrite decide_False; [done|]. apply not_elem_of_nil. }
  rewrite lookup_delete. destruct (decide (x = n)) as [->|Hx].
  - rewrite decide_True; [done|]. apply elem_of_cons. by left.
  - rewrite IH. destruct (decide (n ∈ names)) as [Hin|Hin].
    + rewrite decide_True; [done|]. apply elem_of_cons. by right.
    + rewrite decide_False; [done|]. rewrite elem_of_cons. by intros [?|?].
Qed.

(** ** Rotation *)

(** What [cleanupOldBackups] does when the backup directory is there:
    it returns without an error, leaves [./data] alone, and what it
    keeps in the backup directory is what it found there minus the
    names behind the first [maxBackups] of the sorted listing. *)
Lemma cleanupOldBackups_present `{sorter : SliceSorter}
    base maxBackups files m l :
  SortPermutes sorter -> plainNames m -> (0 <= maxBackups)%Z ->
  listBackups (TrimSuffix base ".json") (Data files (Some m)) = inr l ->
  cleanupOldBackups base maxBackups (Data files (Some m)) =
    (Returned None,
     Data files (Some
       (if (Z.of_nat (length l) <=? maxBackups)%Z then m
        else foldr delete m
               (drop (Z.to_nat maxBackups) (sortSlice newerFirst l))))).
Proof.
  intros Hperm Hm Hmax Hl. unfold cleanupOldBackups. rewrite Hl.
  destruct (Z.of_nat (length l) <=? maxBackups)%Z; [done|].
  assert ((maxBackups <? 0)%Z = false) as -> by lia.
  destruct (listBackups_spec _ _ _ _ Hl) as [Hnd Hfiles].
  rewrite removeBackups_files; [done|done|..].
  - eapply sublist_NoDup; [|apply sublist_drop].
    by rewrite (Hperm _ newerFirst l).
  - intros n Hn. apply Hfiles.
    rewrite <- (Hperm _ newerFirst l). eapply elem_of_sublist; [done|].
    apply sublist_drop.
Qed.

Lemma listing_after_rotation `{sorter : SliceSorter}
    pre maxBackups files m l l' :
  SortPermutes sorter -> (0 <= maxBackups)%Z ->
  listBackups pre (Data files (Some m)) = inr l ->
  listBackups pre
    (Data files (Some (foldr delete m
       (drop (Z.to_nat maxBackups) (sortSlice newerFirst l))))) = inr l' ->
  l' ≡ₚ take (Z.to_nat maxBackups) (sortSlice newerFirst l).
Proof.
  intros Hperm Hmax Hl Hl'.
  destruct (listBackups_spec _ _ _ _ Hl) as [Hnd Hfiles].
  destruct (listBackups_spec _ _ _ _ Hl') as [Hnd' Hfiles'].
  set (sorted := sortSlice newerFirst l) in *.
  assert (NoDup sorted) as Hsorted
    by (unfold sorted; by rewrite (Hperm _ newerFirst l)).
  assert (forall n, n ∈ sorted <-> n ∈ l) as Hin
    by (intros n; unfold sorted; by rewrite (Hperm _ newerFirst l)).
  rewrite <- (take_drop (Z.to_nat maxBackups) sorted) in Hsorted, Hin.
  apply NoDup_app in Hsorted as (Htake & Hdisj & Hdrop).
  apply NoDup_Permutation; [done..|]. intros n.
  destruct (decide (n ∈ drop (Z.to_nat maxBackups) sorted)) as [Hd|Hd].
  - split.
    + intros [[c Hc] _]%Hfiles'.
      by rewrite lookup_foldr_delete, decide_True in Hc.
    + intros Ht. by destruct (Hdisj n Ht).
  - split.
    + intros [[c Hc] Hp]%Hfiles'.
      rewrite lookup_foldr_delete, decide_False in Hc by done.
      assert (n ∈ l) as Hnl by (apply Hfiles; eauto).
      apply Hin, elem_of_app in Hnl as [?|?]; done.
    + intros Ht. apply Hfiles'.
      assert (n ∈ l) as Hnl by (apply Hin, elem_of_app; by left).
      apply Hfiles in Hnl as [[c Hc] Hp]. split; [|done]. exists c.
      by rewrite lookup_foldr_delete, decide_False.
Qed.

(** ** A write to a document that exists *)

Lemma maxBackupsHeader_pos r : (0 < maxBackupsHeader r)%Z.
Proof.
  unfold maxBackupsHeader, defaultMaxBackups.
  destruct (_ =? ""); [lia|].
  destruct (Atoi _) as [val|]; [|lia].
  destruct (0 <? val)%Z eqn:Hval; lia.
Qed.

Lemma handleDocument_POST `{codec : JSONCodec} `{sorter : SliceSorter}
    d r now fs :
  method r = POST ->
  handleDocument d r now fs =
  updateJSONFileWithBackup r (documentPath d) (maxBackupsHeader r) now fs.
Proof.
  intros Hpost.
  destruct d; unfold handleDocument, handleEmployees, handleDaysOff,
    handleHolidays; by rewrite Hpost.
Qed.

Lemma document_stat_read d files backups current :
  files !! documentFile d = Some (File current) ->
  os_Stat (documentPath d) (Data files backups) = None /\
  os_ReadFile (documentPath d) (Data files backups) = (Some current, None).
Proof.
  intros Hfile. unfold os_Stat, os_ReadFile.
  rewrite (proj1 (documentPath_resolve d)). cbn [find]. by rewrite Hfile.
Qed.

Lemma document_absent d fs :
  documentContent d fs = None ->
  os_Stat (documentPath d) fs = Some ENOENT \/
  exists nonempty, find (LDataEntry (documentFile d)) fs = Some (SubDir nonempty).
Proof.
  unfold documentContent, os_Stat.
  rewrite (proj1 (documentPath_resolve d)).
  destruct fs as [|files backups]; cbn [dataFiles find]; [by left|].
  destruct (files !! documentFile d) as [[|nonempty]|]; [done| |by left].
  intros _. right. by exists nonempty.
Qed.

Lemma document_write d files backups prettyJSON :
  isDirectory (files !! documentFile d) = false ->
  os_WriteFile (documentPath d) prettyJSON (Data files backups) =
  (None, Data (<[documentFile d := File prettyJSON]> files) backups).
Proof.
  intros Hfile. unfold os_WriteFile, writeEntry.
  rewrite (proj1 (documentPath_resolve d)).
  by destruct (files !! documentFile d) as [[|]|].
Qed.

Lemma sidecar_path n :
  plainName n = true ->
  Join backupDir n ++ ".sha256" = Join backupDir (n ++ ".sha256").
Proof.
  intros Hn. rewrite (Join_backupDir n Hn).
  rewrite (Join_backupDir _ (plainName_sidecar n Hn)).
  apply append_assoc.
Qed.

Lemma os_ReadFile_backup files m n :
  plainName n = true ->
  os_ReadFile (Join backupDir n) (Data files (Some m)) =
  match m !! n with
  | Some (File content) => (Some content, None)
  | Some (SubDir _) => (Some [], Some EISDIR)
  | None => (None, Some ENOENT)
  end.
Proof.
  intros Hn. unfold os_ReadFile.
  by rewrite (Join_backupDir n Hn), (resolve_backup n Hn).
Qed.

Lemma writeChecksum_backup files m n content :
  plainName n = true -> m !! n = Some (File content) ->
  writeChecksum (Join backupDir n) (Data files (Some m)) =
  Data files (Some (if isDirectory (m !! (n ++ ".sha256")) then m
                    else <[n ++ ".sha256" := File (sidecarOf content)]> m)).
Proof.
  intros Hn Hfile. unfold writeChecksum.
  rewrite (os_ReadFile_backup _ _ _ Hn), Hfile. cbn [default].
  rewrite (sidecar_path n Hn).
  rewrite (os_WriteFile_backup _ _ _ _ (plainName_sidecar n Hn)).
  unfold writeEntry, sidecarOf.
  by destruct (m !! (n ++ ".sha256")) as [[|]|].
Qed.

Lemma sidecar_name_differs n : n ++ ".sha256" <> n.
Proof.
  intros H. apply (f_equal String.length) in H.
  rewrite length_append in H. cbn [String.length] in H. lia.
Qed.

(** What the backup directory is when rotation starts, for a write to
    a document whose file holds [current]. *)
Lemma update_existing `{codec : JSONCodec} `{sorter : SliceSorter}
    d r now files backups body parsed prettyJSON current :
  SortPermutes sorter -> wellFormed (Data files backups) ->
  method r = POST -> reqBody r = Some body ->
  Unmarshal body = Some parsed ->
  validateByPath (documentPath d) parsed = None ->
  MarshalIndent parsed = Some prettyJSON ->
  files !! documentFile d = Some (File current) ->
  negb (Get (reqHeader r) "If-Match" =? "") &&
    negb (computeETag (Some current) =? Get (reqHeader r) "If-Match") = false ->
  exists backups',
    handleDocument d r now (Data files backups) =
      (Replied (updatedResponse prettyJSON),
       Data (<[documentFile d := File prettyJSON]> files) backups') /\
    match backups with
    | None => backups' = None
    | Some m =>
        if isDirectory (m !! backupName d now) then backups' = Some m
        else
          cleanupOldBackups (documentFile d) (maxBackupsHeader r)
            (Data files (Some
               (if isDirectory (m !! (backupName d now ++ ".sha256"))
                then <[backupName d now := File current]> m
                else withBackup (backupName d now) current m))) =
          (Returned None, Data files backups')
    end.
Proof.
  intros Hperm Hwf Hpost Hbody Hparse Hvalid Hmarshal Hfile Hpass.
  rewrite handleDocument_POST by done. unfold updateJSONFileWithBackup.
  rewrite Hbody, Hparse, Hvalid, Hmarshal.
  destruct (document_stat_read d files backups current Hfile) as [-> ->].
  cbn [fst]. rewrite Hpass.
  rewrite (proj2 (documentPath_resolve d)).
  change (TrimSuffix (documentFile d) ".json" ++ "." ++ Format now ++ ".json")
    with (backupName d now).
  pose proof (backupName_plain d now) as Hname.
  assert (forall bk, writeAndReply (documentPath d) prettyJSON (Data files bk) =
            (Replied (updatedResponse prettyJSON),
             Data (<[documentFile d := File prettyJSON]> files) bk)) as Hwrite.
  { intros bk. unfold writeAndReply. rewrite document_write; [done|].
    by rewrite Hfile. }
  destruct backups as [m|].
  - rewrite (os_WriteFile_backup _ _ _ _ Hname). unfold writeEntry.
    cbn [default].
    destruct (m !! backupName d now) as [[content|nonempty]|] eqn:Hold;
      cbn [isDirectory].
    + rewrite (writeChecksum_backup _ _ _ current Hname)
        by apply lookup_insert_eq.
      rewrite lookup_insert_ne by (symmetry; apply sidecar_name_differs).
      destruct Hwf as (Hf & Hb & Hm).
      assert (plainNames (<[backupName d now := File current]> m)) as Hm1
        by (by apply plainNames_insert).
      set (m2 := if isDirectory (m !! (backupName d now ++ ".sha256"))
                 then <[backupName d now := File current]> m
                 else withBackup (backupName d now) current m).
      assert (plainNames m2) as Hm2.
      { unfold m2, withBackup. destruct (isDirectory _); [done|].
        apply plainNames_insert; [done|]. by apply plainName_sidecar. }
      destruct (listBackups (TrimSuffix (documentFile d) ".json")
                  (Data files (Some m2))) as [err|l] eqn:Hl.
      { by rewrite listBackups_present in Hl. }
      pose proof (maxBackupsHeader_pos r) as Hmax.
      rewrite (cleanupOldBackups_present _ _ _ _ l Hperm Hm2) by (done || lia).
      rewrite Hwrite. eexists. split; [reflexivity|].
      apply (cleanupOldBackups_present _ _ _ _ l Hperm Hm2); done || lia.
    + exists (Some m). split; [|done]. by rewrite Hwrite.
    + rewrite (writeChecksum_backup _ _ _ current Hname)
        by apply lookup_insert_eq.
      rewrite lookup_insert_ne by (symmetry; apply sidecar_name_differs).
      destruct Hwf as (Hf & Hb & Hm).
      assert (plainNames (<[backupName d now := File current]> m)) as Hm1
        by (by apply plainNames_insert).
      set (m2 := if isDirectory (m !! (backupName d now ++ ".sha256"))
                 then <[backupName d now := File current]> m
                 else withBackup (backupName d now) current m).
      assert (plainNames m2) as Hm2.
      { unfold m2, withBackup. destruct (isDirectory _); [done|].
        apply plainNames_insert; [done|]. by apply plainName_sidecar. }
      destruct (listBackups (TrimSuffix (documentFile d) ".json")
                  (Data files (Some m2))) as [err|l] eqn:Hl.
      { by rewrite listBackups_present in Hl. }
      pose proof (maxBackupsHeader_pos r) as Hmax.
      rewrite (cleanupOldBackups_present _ _ _ _ l Hperm Hm2) by (done || lia).
      rewrite Hwrite. eexists. split; [reflexivity|].
      apply (cleanupOldBackups_present _ _ _ _ l Hperm Hm2); done || lia.
  - unfold os_WriteFile.
    rewrite (Join_backupDir _ Hname), (resolve_backup _ Hname).
    exists None. split; [|done]. by rewrite Hwrite.
Qed.

(** ** Go's insertion sort meets the contract of [sort.Slice] *)

Lemma sink_Permutation {A} (less : A -> A -> bool) x sorted :
  sink less x sorted ≡ₚ x :: sorted.
Proof.
  induction sorted as [|y sorted IH]; cbn [sink]; [done|].
  destruct (less x y); [|done]. rewrite IH. apply Permutation_swap.
Qed.

Lemma insertionSort_Permutation {A} (less : A -> A -> bool) l :
  insertionSort less l ≡ₚ l.
Proof.
  unfold insertionSort. rewrite <- Permutation_rev.
  assert (forall acc,
            fold_left (fun sorted x => sink less x sorted) l acc ≡ₚ (l ++ acc)%list)
    as H.
  { induction l as [|x l IH]; intros acc; cbn [fold_left]; [done|].
    rewrite IH, sink_Permutation. cbn [app]. symmetry.
    apply Permutation_middle. }
  rewrite H. by rewrite app_nil_r.
Qed.

Lemma goSort_permutes : SortPermutes goSort.
Proof. intros A less l. apply insertionSort_Permutation. Qed.

Lemma sink_sorted {A} (less : A -> A -> bool) l x sorted :
  strictWeakOrderOn l less -> x ∈ l -> (forall y, y ∈ sorted -> y ∈ l) ->
  StronglySorted (fun later earlier => less later earlier = false) sorted ->
  StronglySorted (fun later earlier => less later earlier = false)
    (sink less x sorted).
Proof.
  intros [Hasym Hneg] Hx.
  induction sorted as [|y sorted IH]; intros Hin Hsorted; cbn [sink].
  { by repeat constructor. }
  apply StronglySorted_cons in Hsorted as [Hy Hsorted].
  assert (y ∈ l) as Hyl by (apply Hin; left).
  assert (forall z, z ∈ sorted -> z ∈ l) as Hin' by (intros z Hz; apply Hin; by right).
  destruct (less x y) eqn:Hxy.
  - apply StronglySorted_cons. split; [|by apply IH].
    rewrite sink_Permutation. constructor; [by apply Hasym|done].
  - apply StronglySorted_cons. split; [|by apply StronglySorted_cons].
    constructor; [done|]. rewrite Forall_forall in Hy |- *.
    intros z Hz. apply (Hneg x y z); auto.
Qed.

Lemma StronglySorted_rev {A} (R : relation A) l :
  StronglySorted R l -> StronglySorted (fun a b => R b a) (rev l).
Proof.
  induction l as [|x l IH]; intros Hl; cbn [rev]; [constructor|].
  apply StronglySorted_cons in Hl as [Hx Hl].
  apply StronglySorted_app_2; [|by apply IH|by repeat constructor].
  intros a b Ha Hb. apply list_elem_of_singleton in Hb as ->.
  rewrite Forall_forall in Hx. apply Hx.
  apply list_elem_of_In, in_rev. by apply list_elem_of_In.
Qed.

Lemma goSort_sorts : SortSorts goSort.
Proof.
  intros A less l Hswo. cbn [sortSlice goSort]. unfold insertionSort.
  apply (StronglySorted_rev (fun later earlier => less later earlier = false)).
  assert (forall todo acc,
            (forall x, x ∈ todo -> x ∈ l) -> (forall y, y ∈ acc -> y ∈ l) ->
            StronglySorted (fun later earlier => less later earlier = false) acc ->
            StronglySorted (fun later earlier => less later earlier = false)
              (fold_left (fun sorted x => sink less x sorted) todo acc)) as H.
  { induction todo as [|x todo IH]; intros acc Htodo Hacc Hsorted;
      cbn [fold_left]; [done|].
    apply IH.
    - intros z Hz. apply Htodo. by right.
    - intros z Hz. rewrite sink_Permutation in Hz.
      apply elem_of_cons in Hz as [->|Hz]; [apply Htodo; left|by apply Hacc].
    - eapply sink_sorted; [done|apply Htodo; left|done..]. }
  apply H; [done|by intros ? ?%elem_of_nil|constructor].
Qed.

(** ** The sample states are well-formed *)

Lemma sampleFS_wellFormed : wellFormed sampleFS.
Proof. apply (bool_decide_unpack _). by vm_compute. Qed.

Lemma threeBackupsFS_wellFormed : wellFormed threeBackupsFS.
Proof. apply (bool_decide_unpack _). by vm_compute. Qed.

(** ** The fingerprint *)

Lemma wordBytes_length w : length (SHA256.wordBytes w) = 4%nat.
Proof. reflexivity. Qed.

Lemma Sum256_length content : length (SHA256.Sum256 content) = 32%nat.
Proof.
  unfold SHA256.Sum256, SHA256.digestBytes.
  by rewrite !length_app, !wordBytes_length.
Qed.

Lemma hexEncode_length bs :
  String.length (hexEncode bs) = (2 * length bs)%nat.
Proof.
  induction bs as [|b bs IH]; [done|].
  change (hexEncode (b :: bs)) with
    (String (hexDigit (Z_of_byte b / 16))
       (String (hexDigit (Z_of_byte b mod 16)) (hexEncode bs))).
  cbn [String.length length]. rewrite IH. lia.
Qed.

Lemma quoted_length text :
  String.length (quoted text) = (2 + String.length text)%nat.
Proof.
  unfold quoted. rewrite !length_append. cbn [quote String.length]. lia.
Qed.

(** C5, as the code has it: the fingerprint of a byte sequence, the
    empty one included, is the quoted hexadecimal rendering of the
    first 8 bytes of its SHA-256 digest, 18 characters long; only
    absent content (the nil slice) has the sentinel fingerprint, which
    no byte sequence shares; equal inputs have equal fingerprints. *)
Theorem computeETag_fingerprint :
  (forall content,
     computeETag (Some content) =
       quoted (hexEncode (take 8 (SHA256.Sum256 content))) /\
     String.length (computeETag (Some content)) = 18%nat /\
     computeETag (Some content) <> computeETag None) /\
  computeETag None = quoted "0" /\
  (forall b1 b2, b1 = b2 -> computeETag b1 = computeETag b2).
Proof.
  assert (forall content, String.length (computeETag (Some content)) = 18%nat)
    as Hlen.
  { intros content. unfold computeETag.
    rewrite quoted_length, hexEncode_length, length_take, Sum256_length.
    reflexivity. }
  split_and!; [|done|by intros ? ? ->].
  intros content. split_and!; [done|done|].
  intros Heq. pose proof (Hlen content) as H. rewrite Heq in H.
  by vm_compute in H.
Qed.

(** The fingerprint theorem at the bytes of an empty object. *)
Lemma computeETag_fingerprint_witness :
  String.length (computeETag (Some (bytes "{}"))) = 18%nat /\
  computeETag (Some (bytes "{}")) <> computeETag None /\
  computeETag (Some (bytes "{}")) = computeETag (Some (bytes "{}")).
Proof.
  split_and!.
  - apply (proj1 computeETag_fingerprint (bytes "{}")).
  - apply (proj1 computeETag_fingerprint (bytes "{}")).
  - apply (proj2 (proj2 computeETag_fingerprint)). reflexivity.
Defined.

(** C5, against the claim: the fingerprint of empty content is not
    the sentinel. *)
Lemma computeETag_empty_content :
  computeETag (Some []) = quoted "e3b0c44298fc1c14" /\
  computeETag (Some []) <> quoted "0".
Proof. split; [by vm_compute|]. vm_compute. discriminate. Qed.

(** ** Validation *)

Lemma eqb_json name lit :
  (name ++ ".json" =? lit ++ ".json") = (name =? lit).
Proof.
  destruct (String.eqb_spec name lit) as [->|Hne].
  - apply String.eqb_refl.
  - apply String.eqb_neq. intros H. by apply append_inv_tail in H.
Qed.

(** C7: [validateByPath] accepts exactly what the shape table allows
    for the document the path names, and on an object its verdict
    depends on nothing but which keys the object has. *)
Theorem validateByPath_shape_table path name parsed :
  Base path = name ++ ".json" ->
  (validateByPath path parsed = None <-> shapeRule name parsed = true) /\
  (forall ms ms',
     (forall key, hasKey ms key = hasKey ms' key) ->
     validateByPath path (JObject ms) = validateByPath path (JObject ms')).
Proof.
  intros Hbase. unfold validateByPath, shapeRule. rewrite Hbase.
  change "environments.json" with ("environments" ++ ".json").
  change "releases.json" with ("releases" ++ ".json").
  change "holidays.json" with ("holidays" ++ ".json").
  rewrite !eqb_json. split.
  - destruct (name =? "environments").
    { destruct parsed as [| | | | |ms]; try done.
      by destruct (hasKey ms "environments"). }
    destruct (name =? "releases").
    { by destruct parsed. }
    destruct (name =? "holidays"); [|done].
    destruct parsed as [| | | | |ms]; try done.
    by destruct (hasKey ms "holidays").
  - intros ms ms' Hkeys. by rewrite !Hkeys.
Qed.

(** The shape table at the environments document and an object without the
    key. *)
Lemma validateByPath_shape_table_witness :
  Base (documentPath Environments) = "environments" ++ ".json" /\
  (validateByPath (documentPath Environments) (JObject [("notEnvironments", JArray [])])
     = None <->
   shapeRule "environments" (JObject [("notEnvironments", JArray [])]) = true).
Proof.
  split; [reflexivity|].
  apply (validateByPath_shape_table (documentPath Environments) "environments").
  reflexivity.
Defined.

(** ** Reading a document *)

(** C8: a GET of a document whose file does not exist answers 200 with
    the body "{}" every time it is repeated, and the file system stays
    as it was. *)
Theorem absent_document_reads_empty `{codec : JSONCodec} `{sorter : SliceSorter} d r now fs n :
  method r = GET ->
  IsNotExist (os_Stat (documentPath d) fs) = true ->
  repeatRequest n (handleDocument d r now) fs =
  (repeat (Replied {| status := StatusOK; respHeader := jsonHeader;
                      respBody := bytes "{}" |}) n, fs).
Proof.
  intros Hget Habsent.
  assert (handleDocument d r now fs =
          (Replied {| status := StatusOK; respHeader := jsonHeader;
                      respBody := bytes "{}" |}, fs)) as Hone.
  { destruct d; unfold handleDocument, handleEmployees, handleDaysOff,
      handleHolidays; rewrite Hget; unfold serveJSONFile;
      unfold documentPath in Habsent; cbn [documentFile] in Habsent;
      by rewrite Habsent. }
  induction n as [|n IH]; [done|].
  cbn [repeatRequest repeat]. by rewrite Hone, IH.
Qed.

(** Three GETs of the releases document, which has no file. *)
Lemma absent_document_reads_empty_witness :
  repeatRequest 3
    (handleDocument (codec := RefJSON.codec) (sorter := goSort) Releases
       getRequest sampleTime) sampleFS =
  (repeat (Replied {| status := StatusOK; respHeader := jsonHeader;
                      respBody := bytes "{}" |}) 3, sampleFS).
Proof.
  apply (absent_document_reads_empty (codec := RefJSON.codec) (sorter := goSort)
           Releases getRequest sampleTime sampleFS 3).
  - reflexivity.
  - vm_compute. reflexivity.
Defined.

(** ** Rejected bodies *)

(** C6: a POST whose body does not parse is answered 400 "Invalid
    JSON"; one whose body parses and fails validation is answered 400
    "Schema validation failed"; either way whatever the headers and
    the state are, and the state stays as it was. *)
Theorem rejected_body_changes_nothing `{codec : JSONCodec} `{sorter : SliceSorter}
    d r now fs body :
  method r = POST -> reqBody r = Some body ->
  (Unmarshal body = None ->
   handleDocument d r now fs =
   (Replied (http_Error ∅ "Invalid JSON" StatusBadRequest), fs)) /\
  (forall parsed msg,
     Unmarshal body = Some parsed ->
     validateByPath (documentPath d) parsed = Some msg ->
     handleDocument d r now fs =
     (Replied (http_Error ∅ ("Schema validation failed: " ++ msg)
                          StatusBadRequest), fs)).
Proof.
  intros Hpost Hbody. split.
  - intros Hparse.
    destruct d; unfold handleDocument, handleEmployees, handleDaysOff,
      handleHolidays, updateJSONFileWithBackup;
      by rewrite Hpost, Hbody, Hparse.
  - intros parsed msg Hparse Hshape.
    destruct d; unfold handleDocument, handleEmployees, handleDaysOff,
      handleHolidays, updateJSONFileWithBackup;
      unfold documentPath in Hshape; cbn [documentFile] in Hshape;
      by rewrite Hpost, Hbody, Hparse, Hshape.
Qed.

(** A body that does not parse, and one that parses and lacks the key. *)
Lemma rejected_body_changes_nothing_witness :
  handleDocument (codec := RefJSON.codec) (sorter := goSort) Environments
    (postRequest ∅ "{") sampleTime sampleFS =
    (Replied (http_Error ∅ "Invalid JSON" StatusBadRequest), sampleFS) /\
  handleDocument (codec := RefJSON.codec) (sorter := goSort) Environments
    (postRequest ∅ ("{" ++ quoted "notEnvironments" ++ ": []}"))
    sampleTime sampleFS =
    (Replied (http_Error ∅
                ("Schema validation failed: " ++ "missing environments array")
                StatusBadRequest), sampleFS).
Proof.
  split.
  - apply (proj1 (rejected_body_changes_nothing (codec := RefJSON.codec)
                    (sorter := goSort) Environments (postRequest ∅ "{")
                    sampleTime sampleFS (bytes "{") eq_refl eq_refl)).
    vm_compute. reflexivity.
  - apply (proj2 (rejected_body_changes_nothing (codec := RefJSON.codec)
                    (sorter := goSort) Environments
                    (postRequest ∅ ("{" ++ quoted "notEnvironments" ++ ": []}"))
                    sampleTime sampleFS _ eq_refl eq_refl)
             (JObject [("notEnvironments", JArray [])])).
    + vm_compute. reflexivity.
    + vm_compute. reflexivity.
Defined.

(** ** The precondition *)

Lemma http_Error_ETag etag msg code :
  status (http_Error {[ "ETag" := etag ]} msg code) = code /\
  respHeader (http_Error {[ "ETag" := etag ]} msg code) !! "ETag" = Some etag.
Proof.
  split; [done|]. unfold http_Error. cbn [respHeader].
  rewrite !lookup_insert_ne by done.
  rewrite lookup_delete_ne by done. apply lookup_singleton_eq.
Qed.

Lemma documentContent_file d fs current :
  documentContent d fs = Some current ->
  exists files backups,
    fs = Data files backups /\ files !! documentFile d = Some (File current).
Proof.
  unfold documentContent. destruct fs as [|files backups]; [done|].
  cbn [dataFiles]. destruct (files !! documentFile d) as [[c|]|] eqn:Hf;
    [|done..].
  intros [= ->]. by exists files, backups.
Qed.

(** C1, as the code has it: a POST whose body parses, passes
    validation and re-serialises, sent with a non-empty If-Match that
    differs from the fingerprint of the bytes on disk, is answered
    412 with the fingerprint of those bytes as ETag, and the state
    stays as it was. *)
Theorem stale_precondition_rejected `{codec : JSONCodec} `{sorter : SliceSorter}
    d r now fs body parsed prettyJSON current :
  method r = POST -> reqBody r = Some body ->
  Unmarshal body = Some parsed ->
  validateByPath (documentPath d) parsed = None ->
  MarshalIndent parsed = Some prettyJSON ->
  documentContent d fs = Some current ->
  Get (reqHeader r) "If-Match" <> "" ->
  computeETag (Some current) <> Get (reqHeader r) "If-Match" ->
  exists resp,
    handleDocument d r now fs = (Replied resp, fs) /\
    status resp = StatusPreconditionFailed /\
    respHeader resp !! "ETag" = Some (computeETag (Some current)).
Proof.
  intros Hpost Hbody Hparse Hvalid Hmarshal Hcontent Hgiven Hstale.
  destruct (documentContent_file d fs current Hcontent)
    as (files & backups & -> & Hfile).
  rewrite handleDocument_POST by done. unfold updateJSONFileWithBackup.
  rewrite Hbody, Hparse, Hvalid, Hmarshal.
  destruct (document_stat_read d files backups current Hfile) as [-> ->].
  cbn [fst].
  apply String.eqb_neq in Hgiven, Hstale. rewrite Hgiven, Hstale. cbn [negb andb].
  eexists. split; [reflexivity|]. apply http_Error_ETag.
Qed.

(** A valid body behind an If-Match that names another fingerprint. *)
Lemma stale_precondition_rejected_witness :
  exists resp,
    handleDocument (codec := RefJSON.codec) (sorter := goSort) Environments
      (postRequest {[ "If-Match" := quoted "0011223344556677" ]} environmentsBody)
      sampleTime sampleFS = (Replied resp, sampleFS) /\
    status resp = StatusPreconditionFailed /\
    respHeader resp !! "ETag" = Some (computeETag (Some (bytes "{}"))).
Proof.
  eapply (stale_precondition_rejected (codec := RefJSON.codec) (sorter := goSort)
            Environments _ sampleTime sampleFS (bytes environmentsBody)).
  - reflexivity.
  - reflexivity.
  - vm_compute. reflexivity.
  - vm_compute. reflexivity.
  - reflexivity.
  - vm_compute. reflexivity.
  - vm_compute. discriminate.
  - vm_compute. discriminate.
Defined.

(** C1, against the claim: the target exists, the If-Match is there
    and stale, and the answer is 400, because the body does not
    parse. *)
Lemma stale_precondition_behind_invalid_body :
  documentContent Environments sampleFS = Some (bytes "{}") /\
  Get (reqHeader (postRequest {[ "If-Match" := quoted "0011223344556677" ]} "{"))
      "If-Match" <> "" /\
  computeETag (Some (bytes "{}")) <> quoted "0011223344556677" /\
  handleDocument (codec := RefJSON.codec) (sorter := goSort) Environments
    (postRequest {[ "If-Match" := quoted "0011223344556677" ]} "{")
    sampleTime sampleFS =
  (Replied (http_Error ∅ "Invalid JSON" StatusBadRequest), sampleFS) /\
  StatusBadRequest <> StatusPreconditionFailed.
Proof.
  split_and!.
  - by vm_compute.
  - vm_compute. discriminate.
  - vm_compute. discriminate.
  - by vm_compute.
  - done.
Qed.

Lemma writeAndReply_status filePath prettyJSON fs resp fs' :
  writeAndReply filePath prettyJSON fs = (Replied resp, fs') ->
  status resp = StatusInternalServerError \/ resp = updatedResponse prettyJSON.
Proof.
  unfold writeAndReply.
  destruct (os_WriteFile filePath prettyJSON fs) as [[e|] fs1];
    intros [= <- <-]; [by left|by right].
Qed.

(** A 412 only ever answers a non-empty If-Match. *)
Lemma precondition_failed_needs_header `{codec : JSONCodec} `{sorter : SliceSorter}
    r filePath maxBackups now fs resp fs' :
  updateJSONFileWithBackup r filePath maxBackups now fs = (Replied resp, fs') ->
  status resp = StatusPreconditionFailed ->
  Get (reqHeader r) "If-Match" <> "".
Proof.
  unfold updateJSONFileWithBackup.
  destruct (reqBody r) as [body|]; [|by intros [= <- <-]].
  destruct (Unmarshal body) as [jsonData|]; [|by intros [= <- <-]].
  destruct (validateByPath filePath jsonData); [by intros [= <- <-]|].
  destruct (MarshalIndent jsonData) as [prettyJSON|]; [|by intros [= <- <-]].
  assert (forall st, writeAndReply filePath prettyJSON st = (Replied resp, fs') ->
            status resp = StatusPreconditionFailed -> False) as Hwrite.
  { intros st [Hs| ->]%writeAndReply_status; [by rewrite Hs|done]. }
  destruct (os_Stat filePath fs);
    [intros Hw Hs; by destruct (Hwrite _ Hw Hs)|].
  destruct (negb (Get (reqHeader r) "If-Match" =? "")) eqn:Hgiven.
  { intros _ _. by apply negb_true_iff, String.eqb_neq in Hgiven. }
  cbn [andb].
  destruct (os_ReadFile filePath fs) as [origData [e|]];
    [intros Hw Hs; by destruct (Hwrite _ Hw Hs)|].
  destruct (os_WriteFile _ _ fs) as [[e|] fs1];
    [intros Hw Hs; by destruct (Hwrite _ Hw Hs)|].
  destruct (cleanupOldBackups _ _ _) as [[err|] fs3]; [|done].
  intros Hw Hs. by destruct (Hwrite _ Hw Hs).
Qed.

Lemma documentContent_written d files backups prettyJSON :
  documentContent d (Data (<[documentFile d := File prettyJSON]> files) backups)
  = Some prettyJSON.
Proof.
  unfold documentContent. cbn [dataFiles]. by rewrite lookup_insert_eq.
Qed.

(** C10: a POST whose If-Match header is present and empty is handled
    as the same request without the header; it is never answered 412;
    and when its body is accepted its content replaces that of the
    existing file, whatever that file holds. *)
Theorem empty_if_match_is_no_precondition
    `{codec : JSONCodec} `{sorter : SliceSorter} d r now fs :
  method r = POST -> reqHeader r !! "If-Match" = Some "" ->
  handleDocument d r now fs = handleDocument d (withoutIfMatch r) now fs /\
  (forall resp fs',
     handleDocument d r now fs = (Replied resp, fs') ->
     status resp <> StatusPreconditionFailed) /\
  (forall body parsed prettyJSON current,
     SortPermutes sorter -> wellFormed fs ->
     reqBody r = Some body -> Unmarshal body = Some parsed ->
     validateByPath (documentPath d) parsed = None ->
     MarshalIndent parsed = Some prettyJSON ->
     documentContent d fs = Some current ->
     exists fs',
       handleDocument d r now fs = (Replied (updatedResponse prettyJSON), fs') /\
       documentContent d fs' = Some prettyJSON).
Proof.
  intros Hpost Hempty.
  assert (Get (reqHeader r) "If-Match" = "") as Hget
    by (unfold Get; by rewrite Hempty).
  split_and!.
  - rewrite !handleDocument_POST by done.
    unfold updateJSONFileWithBackup, maxBackupsHeader, withoutIfMatch, Get.
    cbn [reqBody reqHeader].
    rewrite lookup_delete_eq, lookup_delete_ne by done. by rewrite Hempty.
  - intros resp fs' Hreply Hstatus.
    rewrite handleDocument_POST in Hreply by done.
    by apply (precondition_failed_needs_header _ _ _ _ _ _ _ Hreply).
  - intros body parsed prettyJSON current Hperm Hwf Hbody Hparse Hvalid
      Hmarshal Hcontent.
    destruct (documentContent_file d fs current Hcontent)
      as (files & backups & -> & Hfile).
    destruct (update_existing d r now files backups body parsed prettyJSON
                current) as (backups' & -> & _); try done.
    { by rewrite Hget. }
    eexists. split; [done|]. apply documentContent_written.
Qed.

(** A POST with an empty If-Match header. *)
Lemma empty_if_match_is_no_precondition_witness :
  handleDocument (codec := RefJSON.codec) (sorter := goSort) Environments
    (postRequest {[ "If-Match" := "" ]} environmentsBody) sampleTime sampleFS =
  handleDocument (codec := RefJSON.codec) (sorter := goSort) Environments
    (withoutIfMatch (postRequest {[ "If-Match" := "" ]} environmentsBody))
    sampleTime sampleFS.
Proof.
  apply (empty_if_match_is_no_precondition (codec := RefJSON.codec)
           (sorter := goSort) Environments _ sampleTime sampleFS).
  - reflexivity.
  - vm_compute. reflexivity.
Defined.

(** ** The backup of a write *)

(** What a 200 tells about the request. *)
Lemma accepted_write_inv `{codec : JSONCodec} `{sorter : SliceSorter}
    r filePath maxBackups now fs resp fs' :
  updateJSONFileWithBackup r filePath maxBackups now fs = (Replied resp, fs') ->
  status resp = StatusOK ->
  exists body parsed prettyJSON,
    reqBody r = Some body /\ Unmarshal body = Some parsed /\
    validateByPath filePath parsed = None /\
    MarshalIndent parsed = Some prettyJSON /\
    (os_Stat filePath fs = None ->
     negb (Get (reqHeader r) "If-Match" =? "") &&
       negb (computeETag (os_ReadFile filePath fs).1 =?
             Get (reqHeader r) "If-Match") = false).
Proof.
  unfold updateJSONFileWithBackup.
  destruct (reqBody r) as [body|]; [|by intros [= <- <-]].
  destruct (Unmarshal body) as [jsonData|] eqn:Hparse; [|by intros [= <- <-]].
  destruct (validateByPath filePath jsonData) eqn:Hvalid;
    [by intros [= <- <-]|].
  destruct (MarshalIndent jsonData) as [prettyJSON|] eqn:Hmarshal;
    [|by intros [= <- <-]].
  intros Hreply Hok. exists body, jsonData, prettyJSON. split_and!; try done.
  intros Hstat. rewrite Hstat in Hreply.
  destruct (negb _ && negb _); [|done].
  injection Hreply as <- <-. done.
Qed.

Lemma document_write_backups d data fs :
  backupFiles (os_WriteFile (documentPath d) data fs).2 = backupFiles fs.
Proof.
  unfold os_WriteFile. rewrite (proj1 (documentPath_resolve d)).
  destruct fs as [|files backups]; [done|].
  by destruct (writeEntry _ data files).
Qed.

(** C3, as the code has it.  For a POST answered 200 on a document
    whose file holds [current], with the backup directory in place and
    neither the backup's name nor its sidecar's taken by a directory:
    the backup with the bytes of [current] and the sidecar with the
    hexadecimal SHA-256 of those bytes and a newline are put into the
    backup directory, and what the directory holds after the request
    is that directory after the rotation of the same request.  For a
    POST on a document without a file the backup directory stays as it
    was. *)
Theorem backup_taken_before_write `{codec : JSONCodec} `{sorter : SliceSorter}
    d r now :
  method r = POST ->
  (forall files m current resp fs',
     SortPermutes sorter -> wellFormed (Data files (Some m)) ->
     files !! documentFile d = Some (File current) ->
     isDirectory (m !! backupName d now) = false ->
     isDirectory (m !! (backupName d now ++ ".sha256")) = false ->
     handleDocument d r now (Data files (Some m)) = (Replied resp, fs') ->
     status resp = StatusOK ->
     let taken := withBackup (backupName d now) current m in
     taken !! backupName d now = Some (File current) /\
     taken !! (backupName d now ++ ".sha256") = Some (File (sidecarOf current)) /\
     exists l,
       listBackups (documentPrefix d) (Data files (Some taken)) = inr l /\
       backupFiles fs' =
         Some (if (Z.of_nat (length l) <=? maxBackupsHeader r)%Z then taken
               else foldr delete taken
                      (drop (Z.to_nat (maxBackupsHeader r))
                            (sortSlice newerFirst l)))) /\
  (forall fs resp fs',
     os_Stat (documentPath d) fs <> None ->
     handleDocument d r now fs = (Replied resp, fs') ->
     backupFiles fs' = backupFiles fs).
Proof.
  intros Hpost. split.
  - intros files m current resp fs' Hperm Hwf Hfile Hname Hside Hreply Hok taken.
    split_and!.
    + unfold taken, withBackup.
      rewrite lookup_insert_ne by apply sidecar_name_differs.
      apply lookup_insert_eq.
    + apply lookup_insert_eq.
    + pose proof Hreply as Hreply'.
      rewrite handleDocument_POST in Hreply' by done.
      destruct (accepted_write_inv _ _ _ _ _ _ _ Hreply' Hok)
        as (body & parsed & prettyJSON & Hbody & Hparse & Hvalid & Hmarshal
            & Hguard).
      destruct (document_stat_read d files (Some m) current Hfile)
        as [Hstat Hread].
      specialize (Hguard Hstat). rewrite Hread in Hguard. cbn [fst] in Hguard.
      destruct (update_existing d r now files (Some m) body parsed prettyJSON
                  current) as (backups' & Heq & Hrot); try done.
      rewrite Hname, Hside in Hrot. fold taken in Hrot.
      rewrite Heq in Hreply. injection Hreply as _ <-. cbn [backupFiles].
      destruct (listBackups (documentPrefix d) (Data files (Some taken)))
        as [err|l] eqn:Hl.
      { by rewrite listBackups_present in Hl. }
      exists l. split; [done|].
      assert (plainNames taken) as Htaken.
      { destruct Hwf as (_ & _ & Hm). unfold taken, withBackup.
        pose proof (backupName_plain d now).
        apply plainNames_insert; [|by apply plainName_sidecar].
        by apply plainNames_insert. }
      pose proof (maxBackupsHeader_pos r).
      rewrite (cleanupOldBackups_present _ _ _ _ l Hperm Htaken) in Hrot
        by (done || lia).
      by injection Hrot as <-.
  - intros fs resp fs' Hstat Hreply.
    rewrite handleDocument_POST in Hreply by done.
    unfold updateJSONFileWithBackup in Hreply.
    destruct (reqBody r) as [body|]; [|by injection Hreply as _ <-].
    destruct (Unmarshal body) as [jsonData|]; [|by injection Hreply as _ <-].
    destruct (validateByPath _ jsonData); [by injection Hreply as _ <-|].
    destruct (MarshalIndent jsonData) as [prettyJSON|];
      [|by injection Hreply as _ <-].
    destruct (os_Stat (documentPath d) fs); [|done].
    unfold writeAndReply in Hreply.
    pose proof (document_write_backups d prettyJSON fs) as Hsame.
    destruct (os_WriteFile (documentPath d) prettyJSON fs) as [[e|] fs1];
      by injection Hreply as _ <-.
Qed.

(** The first overwrite of the environments document. *)
Lemma backup_taken_before_write_witness :
  exists resp fs',
    handleDocument (codec := RefJSON.codec) (sorter := goSort) Environments
      (postRequest ∅ environmentsBody) sampleTime sampleFS = (Replied resp, fs') /\
    status resp = StatusOK /\
    exists l,
      listBackups (documentPrefix Environments)
        (Data {[ "environments.json" := File (bytes "{}") ]}
           (Some (withBackup (backupName Environments sampleTime) (bytes "{}") ∅)))
        = inr l /\
      backupFiles fs' =
        Some (if (Z.of_nat (length l) <=?
                  maxBackupsHeader (postRequest ∅ environmentsBody))%Z
              then withBackup (backupName Environments sampleTime) (bytes "{}") ∅
              else foldr delete
                     (withBackup (backupName Environments sampleTime) (bytes "{}") ∅)
                     (drop (Z.to_nat (maxBackupsHeader
                                        (postRequest ∅ environmentsBody)))
                           (sortSlice (SliceSorter := goSort) newerFirst l))).
Proof.
  eexists _, _. split; [vm_compute; reflexivity|]. split; [reflexivity|].
  eapply (proj1 (backup_taken_before_write (codec := RefJSON.codec)
                   (sorter := goSort) Environments
                   (postRequest ∅ environmentsBody) sampleTime eq_refl)
            {[ "environments.json" := File (bytes "{}") ]} ∅ (bytes "{}")).
  - apply goSort_permutes.
  - apply sampleFS_wellFormed.
  - reflexivity.
  - reflexivity.
  - reflexivity.
  - vm_compute. reflexivity.
  - reflexivity.
Defined.

(** C3, against the claim: with the backup directory gone the POST of
    an accepted body to an existing document is answered 200, the
    document takes the new content, and no backup is written. *)
Lemma write_without_backup_directory :
  documentContent Environments noBackupDirFS = Some (bytes "{}") /\
  exists resp fs',
    handleDocument (codec := RefJSON.codec) (sorter := goSort) Environments
      (postRequest ∅ environmentsBody) sampleTime noBackupDirFS
      = (Replied resp, fs') /\
    status resp = StatusOK /\
    documentContent Environments fs' <> Some (bytes "{}") /\
    backupFiles fs' = None.
Proof.
  split; [by vm_compute|]. eexists _, _. split_and!.
  - vm_compute. reflexivity.
  - reflexivity.
  - vm_compute. discriminate.
  - reflexivity.
Qed.

(** ** The bound that rotation keeps *)

(** When [cleanupOldBackups] returns, listing the prefix gives at most
    [maxBackups] names, and it leaves the state alone when the listing
    was within the limit before. *)
Lemma cleanupOldBackups_bound `{sorter : SliceSorter}
    base maxBackups fs out fs' :
  SortPermutes sorter -> wellFormed fs -> (0 <= maxBackups)%Z ->
  cleanupOldBackups base maxBackups fs = (out, fs') ->
  (forall l',
     listBackups (TrimSuffix base ".json") fs' = inr l' ->
     (Z.of_nat (length l') <= maxBackups)%Z) /\
  (forall l,
     listBackups (TrimSuffix base ".json") fs = inr l ->
     (Z.of_nat (length l) <= maxBackups)%Z -> fs' = fs).
Proof.
  intros Hperm Hwf Hmax Hclean.
  destruct (listBackups (TrimSuffix base ".json") fs) as [err|l] eqn:Hl.
  { unfold cleanupOldBackups in Hclean. rewrite Hl in Hclean.
    injection Hclean as _ <-. rewrite Hl. by split. }
  destruct fs as [|files [m|]];
    [by destruct (listBackups_missing (TrimSuffix base ".json") NoData)
       as [? ?]; [|congruence]
    | |by destruct (listBackups_missing (TrimSuffix base ".json")
                     (Data files None)) as [? ?]; [|congruence]].
  destruct Hwf as (_ & _ & Hm).
  rewrite (cleanupOldBackups_present _ _ _ _ l Hperm Hm Hmax Hl) in Hclean.
  injection Hclean as _ <-.
  destruct (Z.of_nat (length l) <=? maxBackups)%Z eqn:Hcount.
  - split; [|done]. intros l' Hl'. rewrite Hl in Hl'. injection Hl' as <-. lia.
  - split; [|intros ? [= <-]; lia].
    intros l' Hl'.
    rewrite (listing_after_rotation _ _ _ _ _ _ Hperm Hmax Hl Hl').
    rewrite length_take. lia.
Qed.

(** Rotation with a limit of 2 on three backups and their sidecars. *)
Lemma cleanupOldBackups_bound_check :
  wellFormed threeBackupsFS /\
  exists out fs' l',
    cleanupOldBackups (sorter := goSort) "environments.json" 2 threeBackupsFS
      = (out, fs') /\
    listBackups "environments" fs' = inr l' /\
    (Z.of_nat (length l') <= 2)%Z.
Proof.
  split; [apply threeBackupsFS_wellFormed|].
  eexists _, _, _. split_and!.
  - vm_compute. reflexivity.
  - vm_compute. reflexivity.
  - eapply (cleanupOldBackups_bound (sorter := goSort) "environments.json" 2
              threeBackupsFS).
    + apply goSort_permutes.
    + apply threeBackupsFS_wellFormed.
    + lia.
    + vm_compute. reflexivity.
    + vm_compute. reflexivity.
Defined.

Lemma serveAll_wellFormed `{codec : JSONCodec} `{sorter : SliceSorter}
    trace fs :
  wellFormed fs -> wellFormed (serveAll trace fs).
Proof.
  revert fs. induction trace as [|[[e r] now] trace IH]; intros fs Hwf; [done|].
  cbn [serveAll]. apply IH. destruct e as [d|]; cbn [serve].
  - by apply handleDocument_wellFormed.
  - by apply handleBackups_wellFormed.
Qed.

Lemma listBackups_data pre files files' backups :
  listBackups pre (Data files backups) = listBackups pre (Data files' backups).
Proof. destruct backups as [m|]; [by rewrite !listBackups_present|done]. Qed.

(** C4: start from a well-formed state and serve any requests.  A POST
    to a document that is answered 200 and whose backup was written
    (the document had a file, the backup directory was there, the
    backup's name was not taken by a directory) leaves at most
    [maxBackups] names under the document's prefix: the listing after
    its rotation step, which the final write of the document does not
    change.  And rotation changes nothing where the listing is within
    the limit already. *)
Theorem rotation_bound_after_every_write
    `{codec : JSONCodec} `{sorter : SliceSorter}
    trace fs0 d r now resp fs' current m :
  SortPermutes sorter -> wellFormed fs0 ->
  method r = POST ->
  documentContent d (serveAll trace fs0) = Some current ->
  backupFiles (serveAll trace fs0) = Some m ->
  isDirectory (m !! backupName d now) = false ->
  handleDocument d r now (serveAll trace fs0) = (Replied resp, fs') ->
  status resp = StatusOK ->
  (exists l,
     listBackups (documentPrefix d) fs' = inr l /\
     (Z.of_nat (length l) <= maxBackupsHeader r)%Z) /\
  (forall st l,
     wellFormed st ->
     listBackups (documentPrefix d) st = inr l ->
     (Z.of_nat (length l) <= maxBackupsHeader r)%Z ->
     cleanupOldBackups (documentFile d) (maxBackupsHeader r) st
       = (Returned None, st)).
Proof.
  intros Hperm Hwf0 Hpost Hcontent Hbackups Hname Hreply Hok.
  pose proof (serveAll_wellFormed trace fs0 Hwf0) as Hwf.
  pose proof (maxBackupsHeader_pos r) as Hmax.
  split.
  - destruct (documentContent_file d _ current Hcontent)
      as (files & backups & Hfs & Hfile).
    rewrite Hfs in *. cbn [backupFiles] in Hbackups. subst backups.
    pose proof Hreply as Hreply'.
    rewrite handleDocument_POST in Hreply' by done.
    destruct (accepted_write_inv _ _ _ _ _ _ _ Hreply' Hok)
      as (body & parsed & prettyJSON & Hbody & Hparse & Hvalid & Hmarshal
          & Hguard).
    destruct (document_stat_read d files (Some m) current Hfile)
      as [Hstat Hread].
    specialize (Hguard Hstat). rewrite Hread in Hguard. cbn [fst] in Hguard.
    destruct (update_existing d r now files (Some m) body parsed prettyJSON
                current) as (backups' & Heq & Hrot); try done.
    rewrite Hname in Hrot. rewrite Heq in Hreply. injection Hreply as _ <-.
    match type of Hrot with
    | cleanupOldBackups _ _ (Data files (Some ?dir)) = _ => set (m2 := dir) in *
    end.
    assert (wellFormed (Data files (Some m2))) as Hwf2.
    { destruct Hwf as (Hf & Hb & Hm). split_and!; [done..|].
      pose proof (backupName_plain d now) as Hplain.
      unfold m2, withBackup.
      destruct (isDirectory (m !! (backupName d now ++ ".sha256"))).
      - by apply plainNames_insert.
      - apply plainNames_insert; [|by apply plainName_sidecar].
        by apply plainNames_insert. }
    destruct (listBackups (documentPrefix d) (Data files backups'))
      as [err|l] eqn:Hl.
    { destruct backups' as [m'|]; [by rewrite listBackups_present in Hl|].
      destruct (listBackups (TrimSuffix (documentFile d) ".json")
                  (Data files (Some m2))) as [err'|l0] eqn:Hl0;
        [by rewrite listBackups_present in Hl0|].
      destruct Hwf2 as (_ & _ & Hm2).
      by rewrite (cleanupOldBackups_present _ _ _ _ l0 Hperm Hm2) in Hrot
        by (done || lia). }
    exists l. split.
    + by rewrite (listBackups_data _ _ files).
    + assert (0 <= maxBackupsHeader r)%Z as Hmax' by lia.
      apply (proj1 (cleanupOldBackups_bound _ _ _ _ _ Hperm Hwf2 Hmax' Hrot)).
      exact Hl.
  - intros st l Hst Hl Hcount.
    destruct st as [|files [dir|]];
      [by destruct (listBackups_missing (documentPrefix d) NoData)
         as [? ?]; [|congruence]
      | |by destruct (listBackups_missing (documentPrefix d)
                       (Data files None)) as [? ?]; [|congruence]].
    destruct Hst as (_ & _ & Hdir).
    rewrite (cleanupOldBackups_present _ _ _ _ l Hperm Hdir) by (done || lia).
    by apply Z.leb_le in Hcount as ->.
Qed.

(** A POST with a limit of 1 after another request. *)
Lemma rotation_bound_after_every_write_witness :
  exists resp fs' l,
    handleDocument (codec := RefJSON.codec) (sorter := goSort) Environments
      (postRequest {[ "X-Max-Backups" := "1" ]} environmentsBody) sampleTime
      (serveAll (codec := RefJSON.codec) (sorter := goSort)
         [(BackupsEndpoint, getRequest, sampleTime)] threeBackupsFS)
      = (Replied resp, fs') /\
    listBackups (documentPrefix Environments) fs' = inr l /\
    (Z.of_nat (length l) <=
       maxBackupsHeader (postRequest {[ "X-Max-Backups" := "1" ]} environmentsBody))%Z.
Proof.
  destruct (rotation_bound_after_every_write (codec := RefJSON.codec)
              (sorter := goSort) [(BackupsEndpoint, getRequest, sampleTime)]
              threeBackupsFS Environments
              (postRequest {[ "X-Max-Backups" := "1" ]} environmentsBody)
              sampleTime
              (updatedResponse (bytes ("{" ++ newline ++ "  " ++
                 quoted "environments" ++ ": []" ++ newline ++ "}")))
              (handleDocument (codec := RefJSON.codec) (sorter := goSort)
                 Environments
                 (postRequest {[ "X-Max-Backups" := "1" ]} environmentsBody)
                 sampleTime threeBackupsFS).2
              (bytes "{}") threeBackups) as [(l & Hl & Hbound) _].
  - apply goSort_permutes.
  - apply threeBackupsFS_wellFormed.
  - reflexivity.
  - vm_compute. reflexivity.
  - reflexivity.
  - vm_compute. reflexivity.
  - vm_compute. reflexivity.
  - reflexivity.
  - eexists _, _, l. split_and!; [vm_compute; reflexivity| |exact Hbound].
    exact Hl.
Defined.

(** ** Which backups rotation keeps *)

Lemma gtString_leb a b : gtString a b = negb (String.leb a b).
Proof.
  unfold gtString, String.ltb, String.leb.
  rewrite (String.compare_antisym a b). by destruct (String.compare b a).
Qed.

Lemma gtString_asym a b : gtString a b = true -> gtString b a = false.
Proof.
  rewrite !gtString_leb, negb_true_iff, negb_false_iff. intros Hab.
  destruct (String.leb_total a b) as [H|H]; congruence.
Qed.

Lemma gtString_negtrans a b c :
  gtString a b = false -> gtString b c = false -> gtString a c = false.
Proof.
  rewrite !gtString_leb, !negb_false_iff. intros Hab Hbc.
  apply Is_true_true. apply Is_true_true in Hab, Hbc.
  change (String.le a c). by transitivity b.
Qed.

Lemma gtString_irrefl a : gtString a a = false.
Proof.
  destruct (gtString a a) eqn:H; [|done]. by rewrite (gtString_asym a a H) in H.
Qed.

Lemma gtString_total a b :
  a <> b -> gtString a b = false -> gtString b a = true.
Proof.
  rewrite !gtString_leb, negb_false_iff, negb_true_iff. intros Hne Hab.
  destruct (String.leb b a) eqn:Hba; [|done].
  destruct Hne. by apply String.leb_antisym.
Qed.

Lemma newerFirst_stamp a b :
  (3 <= length (Split a "."))%nat -> (3 <= length (Split b "."))%nat ->
  newerFirst a b = gtString (stamp a) (stamp b).
Proof.
  intros Ha Hb. unfold newerFirst, stamp.
  apply Nat.ltb_ge in Ha, Hb. by rewrite Ha, Hb.
Qed.

Lemma newerFirst_strictWeakOrderOn l :
  (forall n, n ∈ l -> (3 <= length (Split n "."))%nat) ->
  strictWeakOrderOn l newerFirst.
Proof.
  intros Hparts. split.
  - intros a b Ha Hb. rewrite !newerFirst_stamp by auto. apply gtString_asym.
  - intros a b c Ha Hb Hc. rewrite !newerFirst_stamp by auto.
    apply gtString_negtrans.
Qed.

Lemma filter_all {A} (P : A -> bool) (l : list A) :
  (forall x, x ∈ l -> P x = true) -> filter P l = l.
Proof.
  induction l as [|x l IH]; intros H; [done|].
  rewrite filter_cons, decide_True by (rewrite H; [done|left]).
  rewrite IH; [done|]. intros y Hy. apply H. by right.
Qed.

Lemma filter_none {A} (P : A -> bool) (l : list A) :
  (forall x, x ∈ l -> P x = false) -> filter P l = [].
Proof.
  induction l as [|x l IH]; intros H; [done|].
  rewrite filter_cons, decide_False by (rewrite H; [intros []|left]).
  apply IH. intros y Hy. apply H. by right.
Qed.

(** In a list sorted newest first whose timestamps differ, the names
    with a later timestamp than [n] are those in front of [n]. *)
Lemma newerThan_sorted front n back :
  (forall x, x ∈ (front ++ n :: back)%list -> (3 <= length (Split x "."))%nat) ->
  NoDup (stamp <$> (front ++ n :: back)%list) ->
  StronglySorted (fun a b => newerFirst b a = false) (front ++ n :: back)%list ->
  newerThan n (front ++ n :: back)%list = length front.
Proof.
  intros Hparts Hnd Hsorted. unfold newerThan.
  rewrite fmap_app, fmap_cons in Hnd.
  apply NoDup_app in Hnd as (_ & Hfront & _).
  apply StronglySorted_app in Hsorted as (Hbefore & _ & Hrest).
  apply StronglySorted_cons in Hrest as [Hafter _].
  rewrite Forall_forall in Hafter.
  assert (n ∈ (front ++ n :: back)%list) as Hn
    by (apply elem_of_app; right; left).
  rewrite filter_app, filter_cons, decide_False
    by (rewrite gtString_irrefl; intros []).
  rewrite filter_all, filter_none, app_nil_r; [done|..].
  - intros x Hx. specialize (Hafter x Hx).
    rewrite newerFirst_stamp in Hafter; [done|apply Hparts..]; [|done].
    apply elem_of_app. right. by right.
  - intros x Hx.
    assert (x ∈ (front ++ n :: back)%list) as Hx'
      by (apply elem_of_app; by left).
    apply gtString_total.
    + intros Heq. apply (Hfront (stamp x)).
      * by apply list_elem_of_fmap_2.
      * rewrite <- Heq. left.
    + rewrite <- (newerFirst_stamp n x) by auto.
      apply Hbefore; [done|left].
Qed.

Lemma elem_of_take_middle {A} (front : list A) n back k :
  NoDup (front ++ n :: back)%list ->
  n ∈ take k (front ++ n :: back)%list <-> (length front < k)%nat.
Proof.
  intros Hnd. apply NoDup_app in Hnd as (_ & Hfront & _).
  destruct (decide (k <= length front)%nat) as [Hle|Hgt].
  - rewrite take_app_le by done. split; [|lia].
    intros Hin. destruct (Hfront n); [|left].
    eapply elem_of_sublist; [done|]. apply sublist_take.
  - split; [lia|]. intros _. rewrite take_app_ge by lia.
    apply elem_of_app. right.
    destruct (k - length front)%nat as [|k'] eqn:Hk; [lia|]. left.
Qed.

(** On a prefix that holds nothing but backups with different
    timestamps, more of them than the limit, rotation keeps the
    [maxBackups] backups with the latest timestamps: a name stays when
    fewer than [maxBackups] names carry a later timestamp. *)
Lemma rotation_keeps_newest `{sorter : SliceSorter}
    base maxBackups files m l :
  SortPermutes sorter -> SortSorts sorter ->
  plainNames m -> (0 <= maxBackups < Z.of_nat (length l))%Z ->
  listBackups (TrimSuffix base ".json") (Data files (Some m)) = inr l ->
  (forall n, n ∈ l -> (3 <= length (Split n "."))%nat) ->
  NoDup (stamp <$> l) ->
  exists m' l',
    cleanupOldBackups base maxBackups (Data files (Some m)) =
      (Returned None, Data files (Some m')) /\
    listBackups (TrimSuffix base ".json") (Data files (Some m')) = inr l' /\
    Z.of_nat (length l') = maxBackups /\
    forall n, n ∈ l' <->
      n ∈ l /\ (Z.of_nat (newerThan n l) < maxBackups)%Z.
Proof.
  intros Hperm Hsorts Hm [Hmax Hmore] Hl Hparts Hstamps.
  rewrite (cleanupOldBackups_present _ _ _ _ l Hperm Hm) by done.
  assert ((Z.of_nat (length l) <=? maxBackups)%Z = false) as -> by lia.
  set (sorted := sortSlice newerFirst l).
  assert (sorted ≡ₚ l) as Hp by apply Hperm.
  pose proof (Hsorts _ _ _ (newerFirst_strictWeakOrderOn l Hparts)) as Hsorted.
  fold sorted in Hsorted.
  destruct (listBackups (TrimSuffix base ".json")
              (Data files (Some (foldr delete m
                 (drop (Z.to_nat maxBackups) sorted))))) as [err|l'] eqn:Hl'.
  { by rewrite listBackups_present in Hl'. }
  pose proof (listing_after_rotation _ _ _ _ _ _ Hperm Hmax Hl Hl') as Hkept.
  fold sorted in Hkept.
  destruct (listBackups_spec _ _ _ _ Hl) as [Hnd _].
  eexists _, l'. split_and!; [reflexivity|exact Hl'|..].
  - rewrite Hkept, length_take, Hp. lia.
  - intros n. rewrite Hkept.
    assert (NoDup sorted) as Hnds by (by rewrite Hp).
    split.
    + intros Hin.
      assert (n ∈ sorted) as Hn
        by (eapply elem_of_sublist; [done|apply sublist_take]).
      split; [by rewrite <- Hp|].
      destruct (list_elem_of_split _ _ Hn) as (front & back & Hsplit).
      rewrite Hsplit in Hin, Hnds, Hsorted.
      apply (elem_of_take_middle _ _ _ _ Hnds) in Hin.
      unfold newerThan. rewrite <- Hp. fold (newerThan n sorted).
      rewrite Hsplit, newerThan_sorted; [lia| |..|done].
      * intros x Hx. apply Hparts. by rewrite <- Hp, Hsplit.
      * by rewrite <- Hsplit, Hp.
    + intros [Hn Hnewer]. rewrite <- Hp in Hn.
      destruct (list_elem_of_split _ _ Hn) as (front & back & Hsplit).
      unfold newerThan in Hnewer. rewrite <- Hp in Hnewer.
      fold (newerThan n sorted) in Hnewer.
      rewrite Hsplit in Hnds, Hsorted, Hnewer |- *.
      apply (elem_of_take_middle _ _ _ _ Hnds).
      rewrite newerThan_sorted in Hnewer; [lia| |..|done].
      * intros x Hx. apply Hparts. by rewrite <- Hp, Hsplit.
      * by rewrite <- Hsplit, Hp.
Qed.

(** ** Rotation counts the sidecars *)

(** C2, the code at the failing input: three backups with their
    sidecars and a limit of 2.  The listing has six names; rotation
    keeps the first two of the sorted listing, the newest backup and
    its sidecar, and deletes the second newest backup with the rest. *)
Theorem rotation_counts_sidecars :
  listBackups "environments" threeBackupsFS =
    inr [ "environments.20250101-000000.json";
          "environments.20250101-000000.json.sha256";
          "environments.20250102-000000.json";
          "environments.20250102-000000.json.sha256";
          "environments.20250103-000000.json";
          "environments.20250103-000000.json.sha256" ] /\
  cleanupOldBackups (sorter := goSort) "environments.json" 2 threeBackupsFS =
    (Returned None,
     Data {[ "environments.json" := File (bytes "{}") ]}
       (Some (withBackup "environments.20250103-000000.json" (bytes "{3}") ∅))) /\
  withBackup "environments.20250103-000000.json" (bytes "{3}") ∅
    !! "environments.20250102-000000.json" = None.
Proof. split_and!; by vm_compute. Qed.

(** ** Deleting a backup *)

Lemma handleBackups_DELETE `{codec : JSONCodec} r fs filename :
  method r = DELETE -> reqBody r ≫= DecodeFilename = Some filename ->
  filename <> "" ->
  handleBackups r fs =
  match os_Remove (Join backupDir (Base filename)) fs with
  | (Some e, fs') =>
      (Replied (http_Error ∅
                  ("Error deleting backup: " ++
                   pathError "remove" (Join backupDir (Base filename)) e)
                  StatusInternalServerError), fs')
  | (None, fs') =>
      (Replied {| status := StatusOK; respHeader := jsonHeader;
                  respBody := bytes backupDeleted |}, fs')
  end.
Proof.
  intros Hdelete Hbody Hname. unfold handleBackups.
  rewrite Hdelete, Hbody. apply String.eqb_neq in Hname. by rewrite Hname.
Qed.

(** A DELETE that names a backup file removes that entry of the backup
    directory and nothing else; the sidecar stays. *)
Lemma delete_removes_the_named_backup `{codec : JSONCodec}
    r files m filename content :
  wellFormed (Data files (Some m)) ->
  method r = DELETE -> reqBody r ≫= DecodeFilename = Some filename ->
  filename <> "" ->
  m !! Base filename = Some (File content) ->
  handleBackups r (Data files (Some m)) =
    (Replied {| status := StatusOK; respHeader := jsonHeader;
                respBody := bytes backupDeleted |},
     Data files (Some (delete (Base filename) m))) /\
  delete (Base filename) m !! (Base filename ++ ".sha256") =
    m !! (Base filename ++ ".sha256").
Proof.
  intros (_ & _ & Hm) Hdelete Hbody Hname Hfile.
  rewrite (handleBackups_DELETE r _ filename) by done.
  rewrite os_Remove_backup by (by eapply Hm).
  unfold removeEntry. rewrite Hfile. split; [done|].
  apply lookup_delete_ne. symmetry. apply sidecar_name_differs.
Qed.

(** Whatever the body parser, a DELETE of ["."] removes an empty backup
    directory itself. *)
Lemma delete_dot `{codec : JSONCodec} r files :
  method r = DELETE -> reqBody r ≫= DecodeFilename = Some "." ->
  handleBackups r (Data files (Some ∅)) =
    (Replied {| status := StatusOK; respHeader := jsonHeader;
                respBody := bytes backupDeleted |},
     Data files None).
Proof.
  intros Hdelete Hbody. by rewrite (handleBackups_DELETE r _ ".").
Qed.

(** C9, the code at the failing input: the filename ["."] survives
    [filepath.Base], [filepath.Join] turns it into the backup directory,
    and [os.Remove] removes that directory when it is empty; the
    answer is 200. *)
Theorem delete_dot_removes_backup_directory :
  Base "." = "." /\ Join backupDir (Base ".") = "data/backups" /\
  handleBackups (codec := RefJSON.codec)
    (deleteRequest ("{" ++ quoted "filename" ++ ": " ++ quoted "." ++ "}"))
    sampleFS =
  (Replied {| status := StatusOK; respHeader := jsonHeader;
              respBody := bytes backupDeleted |},
   noBackupDirFS).
Proof. split_and!; by vm_compute. Qed.

(** ** What [filepath.Base] lets through *)

Lemma Split_nonempty s sep : Split s sep <> [].
Proof.
  destruct s as [|c s]; simpl; [done|].
  destruct (Ascii.eqb c sep); [done|]. by destruct (Split s sep).
Qed.

Lemma last_Forall {A} (P : A -> Prop) (l : list A) d :
  l <> [] -> Forall P l -> P (List.last l d).
Proof.
  intros Hne Hall. destruct (exists_last Hne) as (front & x & ->).
  rewrite last_last. apply Forall_app in Hall as [_ Hx].
  by apply Forall_cons in Hx as [Hx _].
Qed.

(** The last element of a path is a name, or one of the three elements
    that are not: ["."], [".."] and ["/"]. *)
Lemma Base_cases p :
  Base p = "." \/ Base p = ".." \/ Base p = "/" \/ plainName (Base p) = true.
Proof.
  unfold Base. destruct (p =? "") eqn:Hp; [by left|].
  set (elem := List.last (Split (trimTrailingSeparators p) Separator) "").
  assert (noSeparator elem = true) as Hsep.
  { apply (last_Forall (fun e => noSeparator e = true)).
    - apply Split_nonempty.
    - apply Split_parts_noSeparator. }
  destruct (elem =? "") eqn:He; [by right; right; left|].
  destruct (elem =? ".") eqn:Hd; [left; by apply String.eqb_eq|].
  destruct (elem =? "..") eqn:Hdd; [right; left; by apply String.eqb_eq|].
  right; right; right. unfold plainName. by rewrite He, Hd, Hdd, Hsep.
Qed.

(** ** Fetching a backup *)

(** Where the path of a backup named by a request leads: to an entry of
    the backup directory, to the backup directory itself or to
    [./data]. *)
Lemma backup_path_cases p :
  (plainName (Base p) = true /\
   resolve (Join backupDir (Base p)) = LBackupEntry (Base p)) \/
  resolve (Join backupDir (Base p)) = LBackupDir \/
  resolve (Join backupDir (Base p)) = LDataDir.
Proof.
  destruct (Base_cases p) as [-> | [-> | [-> | Hplain]]].
  - right; left. by vm_compute.
  - right; right. by vm_compute.
  - right; left. by vm_compute.
  - left. split; [done|]. rewrite Join_backupDir by done. by apply resolve_backup.
Qed.

(** X1: a backup fetch (GET with [filename]) changes nothing, answers
    200 or 500, and a 200 serves a regular file that sits in the backup
    directory under the last element of [filename]: the body carries
    that name, the fingerprint of the file's bytes and the bytes. *)
Theorem backup_fetch_stays_in_backup_directory `{codec : JSONCodec} r fs :
  method r = GET -> Get (query r) "filename" <> "" ->
  let fname := Base (Get (query r) "filename") in
  exists resp,
    handleBackups r fs = (Replied resp, fs) /\
    (status resp = StatusOK \/ status resp = StatusInternalServerError) /\
    (status resp = StatusOK ->
     exists m content,
       backupFiles fs = Some m /\ plainName fname = true /\
       m !! fname = Some (File content) /\
       respBody resp =
         Encode (JObject [ ("filename", JString fname);
                           ("checksum", JString (computeETag (Some content)));
                           ("content", JString (string_of_list_byte content)) ])) /\
    (forall m content,
       backupFiles fs = Some m -> plainName fname = true ->
       m !! fname = Some (File content) -> status resp = StatusOK).
Proof.
  intros Hget Hname fname. unfold handleBackups. rewrite Hget.
  apply String.eqb_neq in Hname. rewrite Hname. cbn [negb].
  fold fname.
  destruct (backup_path_cases (Get (query r) "filename"))
    as [[Hplain Hres] | [Hres | Hres]]; fold fname in Hres.
  - fold fname in Hplain. unfold os_ReadFile. rewrite Hres.
    destruct fs as [|files [m|]]; cbn [find].
    + eexists. split; [done|]. split; [by right|]. split; [done|].
      intros m content Hm. done.
    + destruct (m !! fname) as [[content|nonempty]|] eqn:Hm.
      * eexists. split; [done|]. split; [by left|]. split; [|done].
        intros _. exists m, content. done.
      * eexists. split; [done|]. split; [by right|]. split; [done|].
        intros m' content [= <-] _ Hc. congruence.
      * eexists. split; [done|]. split; [by right|]. split; [done|].
        intros m' content [= <-] _ Hc. congruence.
    + eexists. split; [done|]. split; [by right|]. split; [done|].
      intros m content Hm. done.
  - unfold os_ReadFile. rewrite Hres.
    assert (plainName fname = true -> False) as Hnot.
    { intros Hplain. subst fname.
      rewrite Join_backupDir, resolve_backup in Hres by done. done. }
    destruct fs as [|files [m|]]; cbn [find];
      (eexists; split; [done|]; split; [by right|]; split; [done|]);
      intros m' content _ Hplain; by destruct Hnot.
  - unfold os_ReadFile. rewrite Hres.
    assert (plainName fname = true -> False) as Hnot.
    { intros Hplain. subst fname.
      rewrite Join_backupDir, resolve_backup in Hres by done. done. }
    destruct fs as [|files backups]; cbn [find];
      (eexists; split; [done|]; split; [by right|]; split; [done|]);
      intros m' content _ Hplain; by destruct Hnot.
Qed.

(** A fetch whose filename climbs out of the backup directory: only the
    last element is looked up. *)
Lemma backup_fetch_stays_in_backup_directory_witness :
  exists resp,
    handleBackups (codec := RefJSON.codec)
      (fetchRequest "../environments.20250103-000000.json") threeBackupsFS
      = (Replied resp, threeBackupsFS) /\
    status resp = StatusOK.
Proof.
  destruct (backup_fetch_stays_in_backup_directory (codec := RefJSON.codec)
              (fetchRequest "../environments.20250103-000000.json")
              threeBackupsFS) as (resp & Hreply & _ & _ & Hfile).
  - reflexivity.
  - vm_compute. discriminate.
  - exists resp. split; [exact Hreply|].
    eapply Hfile; [reflexivity|reflexivity|vm_compute; reflexivity].
Defined.

(** ** What a DELETE can remove *)

#[local] Ltac failedDelete :=
  eexists _, _; split; [reflexivity|]; split; [by right; right|];
  split; [done|]; split; [done|]; done.

Lemma isEmptyDir_true (m : gmap string entry) : isEmptyDir m = true -> m = ∅.
Proof. unfold isEmptyDir. intros H. by apply bool_decide_eq_true in H. Qed.

(** X2: a DELETE on the backups endpoint is answered 200, 400 or 500;
    unless it is answered 200 the state stays as it was; a 200 means
    that the last element of the filename named one entry of the
    backup directory, a file or an empty directory, and that entry is
    gone, or that it was ["."] or ["/"] and the empty backup directory
    is gone, or that it was [".."] and the empty [./data] without a
    backup directory is gone.  No document changes. *)
Theorem backup_delete_removes_one_entry `{codec : JSONCodec} r fs :
  method r = DELETE ->
  exists resp fs',
    handleBackups r fs = (Replied resp, fs') /\
    (status resp = StatusOK \/ status resp = StatusBadRequest \/
     status resp = StatusInternalServerError) /\
    (status resp <> StatusOK -> fs' = fs) /\
    (forall d, documentContent d fs' = documentContent d fs) /\
    (status resp = StatusOK ->
     exists filename,
       reqBody r ≫= DecodeFilename = Some filename /\ filename <> "" /\
       ((exists files m,
           plainName (Base filename) = true /\
           fs = Data files (Some m) /\
           m !! Base filename <> None /\
           m !! Base filename <> Some (SubDir true) /\
           fs' = Data files (Some (delete (Base filename) m))) \/
        (exists files,
           (Base filename = "." \/ Base filename = "/") /\
           fs = Data files (Some ∅) /\ fs' = Data files None) \/
        (Base filename = ".." /\ fs = Data ∅ None /\ fs' = NoData))).
Proof.
  intros Hdel.
  destruct (reqBody r ≫= DecodeFilename) as [filename|] eqn:Hbody; cycle 1.
  { unfold handleBackups. rewrite Hdel, Hbody.
    eexists _, fs. split; [done|]. split; [by right; left|]. done. }
  destruct (String.eqb_spec filename "") as [->|Hname].
  { unfold handleBackups. rewrite Hdel, Hbody. cbn [String.eqb].
    eexists _, fs. split; [done|]. split; [by right; left|]. done. }
  rewrite (handleBackups_DELETE r fs filename) by done.
  destruct (Base_cases filename) as [Hb | [Hb | [Hb | Hplain]]].
  - (* "." : the backup directory *)
    rewrite Hb. change (Join backupDir ".") with "data/backups".
    unfold os_Remove. change (resolve "data/backups") with LBackupDir.
    destruct fs as [|files [m|]]; try (failedDelete).
    destruct (isEmptyDir m) eqn:Hm; [|failedDelete].
    apply isEmptyDir_true in Hm as ->.
    eexists _, _. split; [done|]. split; [by left|]. split; [done|].
    split; [done|]. intros _. exists filename. split; [done|]. split; [done|].
    right; left. exists files. rewrite Hb. split; [by left|]. done.
  - (* ".." : the data directory *)
    rewrite Hb. change (Join backupDir "..") with "data".
    unfold os_Remove. change (resolve "data") with LDataDir.
    destruct fs as [|files backups]; [failedDelete|].
    destruct (isEmptyDir files) eqn:Hfiles; cbn [andb];
      [|failedDelete].
    destruct backups as [m|];
      [rewrite bool_decide_eq_false_2 by done; failedDelete|].
    rewrite bool_decide_eq_true_2 by done.
    apply isEmptyDir_true in Hfiles as ->.
    eexists _, _. split; [done|]. split; [by left|]. split; [done|].
    split; [by intros []|]. intros _. exists filename. split; [done|]. split; [done|].
    right; right. done.
  - (* "/" : the backup directory *)
    rewrite Hb. change (Join backupDir "/") with "data/backups".
    unfold os_Remove. change (resolve "data/backups") with LBackupDir.
    destruct fs as [|files [m|]]; try (failedDelete).
    destruct (isEmptyDir m) eqn:Hm; [|failedDelete].
    apply isEmptyDir_true in Hm as ->.
    eexists _, _. split; [done|]. split; [by left|]. split; [done|].
    split; [done|]. intros _. exists filename. split; [done|]. split; [done|].
    right; left. exists files. rewrite Hb. split; [by right|]. done.
  - destruct fs as [|files [m|]].
    + unfold os_Remove. rewrite Join_backupDir, resolve_backup by done.
      failedDelete.
    + rewrite os_Remove_backup by done. unfold removeEntry.
      destruct (m !! Base filename) as [[content|[|]]|] eqn:Hm;
        try (failedDelete).
      * eexists _, _. split; [done|]. split; [by left|]. split; [done|].
        split; [done|]. intros _. exists filename. split; [done|]. split; [done|].
        left. exists files, m. rewrite Hm. done.
      * eexists _, _. split; [done|]. split; [by left|]. split; [done|].
        split; [done|]. intros _. exists filename. split; [done|]. split; [done|].
        left. exists files, m. rewrite Hm. done.
    + unfold os_Remove. rewrite Join_backupDir, resolve_backup by done.
      failedDelete.
Qed.

(** A DELETE of the second of three backups. *)
Lemma backup_delete_removes_one_entry_witness :
  exists resp fs',
    handleBackups (codec := RefJSON.codec)
      (deleteRequest (deleteBody "environments.20250102-000000.json"))
      threeBackupsFS = (Replied resp, fs') /\
    forall d, documentContent d fs' = documentContent d threeBackupsFS.
Proof.
  destruct (backup_delete_removes_one_entry (codec := RefJSON.codec)
              (deleteRequest (deleteBody "environments.20250102-000000.json"))
              threeBackupsFS) as (resp & fs' & Hreply & _ & _ & Hdocs & _).
  - reflexivity.
  - exists resp, fs'. split; [exact Hreply|exact Hdocs].
Defined.

(** ** The ways through [updateJSONFileWithBackup] *)

Lemma cleanupOldBackups_Panic `{sorter : SliceSorter} base maxBackups fs fs' :
  cleanupOldBackups base maxBackups fs = (Panic, fs') -> (maxBackups < 0)%Z.
Proof.
  unfold cleanupOldBackups.
  destruct (listBackups _ fs) as [err|backups]; [done|].
  destruct (Z.of_nat (length backups) <=? maxBackups)%Z; [done|].
  destruct (maxBackups <? 0)%Z eqn:Hneg; [intros _; lia|].
  by destruct (removeBackups _ fs).
Qed.

(** Every call comes to one of four ends: a rejection (400 or 500)
    before anything is looked up on disk, a 412, a panic in rotation
    (only with a negative limit), or the write of the new content,
    either on the state as it was or on the state after the backup,
    its sidecar and rotation. *)
Lemma update_outcome `{codec : JSONCodec} `{sorter : SliceSorter}
    r filePath maxBackups now fs :
  let result := updateJSONFileWithBackup r filePath maxBackups now fs in
  let ifMatch := Get (reqHeader r) "If-Match" in
  let current := (os_ReadFile filePath fs).1 in
  let backupPath :=
    Join backupDir
      (TrimSuffix (Base filePath) ".json" ++ "." ++ Format now ++ ".json") in
  (exists msg code,
     result = (Replied (http_Error ∅ msg code), fs) /\
     (code = StatusBadRequest \/ code = StatusInternalServerError)) \/
  (result = (Replied (http_Error {[ "ETag" := computeETag current ]}
                                 "Precondition Failed"
                                 StatusPreconditionFailed), fs) /\
   os_Stat filePath fs = None /\ ifMatch <> "" /\
   computeETag current <> ifMatch) \/
  (result.1 = Panicked /\ (maxBackups < 0)%Z) \/
  (exists body parsed prettyJSON st,
     reqBody r = Some body /\ Unmarshal body = Some parsed /\
     validateByPath filePath parsed = None /\
     MarshalIndent parsed = Some prettyJSON /\
     (os_Stat filePath fs = None -> ifMatch = "" \/ computeETag current = ifMatch) /\
     result = writeAndReply filePath prettyJSON st /\
     (st = fs \/
      exists origData fs1 out,
        os_Stat filePath fs = None /\
        os_ReadFile filePath fs = (origData, None) /\
        os_WriteFile backupPath (default [] origData) fs = (None, fs1) /\
        cleanupOldBackups (Base filePath) maxBackups (writeChecksum backupPath fs1)
          = (Returned out, st))).
Proof.
  intros result ifMatch current backupPath.
  subst result. unfold updateJSONFileWithBackup.
  destruct (reqBody r) as [body|]; [|left; eexists _, _; split; [done|by left]].
  destruct (Unmarshal body) as [jsonData|] eqn:Hparse;
    [|left; eexists _, _; split; [done|by left]].
  destruct (validateByPath filePath jsonData) eqn:Hvalid;
    [left; eexists _, _; split; [done|by left]|].
  destruct (MarshalIndent jsonData) as [prettyJSON|] eqn:Hmarshal;
    [|left; eexists _, _; split; [done|by right]].
  destruct (os_Stat filePath fs) eqn:Hstat.
  { right; right; right. exists body, jsonData, prettyJSON, fs.
    split_and!; try done. by left. }
  fold ifMatch current.
  destruct (String.eqb_spec ifMatch "") as [Hempty|Hgiven]; cbn [negb andb];
    [|destruct (String.eqb_spec (computeETag current) ifMatch) as [Hsame|Hstale];
      cbn [negb]].
  3: { right; left. done. }
  all: fold backupPath.
  all: destruct (os_ReadFile filePath fs) as [origData [e|]] eqn:Hread;
    [right; right; right; exists body, jsonData, prettyJSON, fs;
     split_and!; try done; [by intros _; auto|by left] |].
  all: destruct (os_WriteFile backupPath (default [] origData) fs)
         as [[e|] fs1] eqn:Hbackup.
  all: try (right; right; right; exists body, jsonData, prettyJSON, fs1;
            split_and!; try done; [by intros _; auto|];
            left;
            by (unfold os_WriteFile in Hbackup;
                repeat case_match; simplify_eq)).
  all: destruct (cleanupOldBackups (Base filePath) maxBackups
                   (writeChecksum backupPath fs1)) as [[err|] fs3] eqn:Hclean.
  all: try (right; right; left; split; [done|];
            by apply cleanupOldBackups_Panic in Hclean).
  all: right; right; right; exists body, jsonData, prettyJSON, fs3;
    split_and!; try done; [by intros _; auto|];
    right; exists origData, fs1, err; done.
Qed.

Lemma serveJSONFile_status filePath fs :
  status (serveJSONFile filePath fs) = StatusOK \/
  status (serveJSONFile filePath fs) = StatusInternalServerError.
Proof.
  unfold serveJSONFile. destruct (IsNotExist _); [by left|].
  destruct (os_ReadFile filePath fs) as [data [e|]]; [by right|by left].
Qed.

Lemma handleDocument_other `{codec : JSONCodec} `{sorter : SliceSorter}
    d r now fs :
  method r <> GET -> method r <> POST ->
  handleDocument d r now fs = (Replied methodNotAllowed, fs).
Proof.
  intros Hget Hpost.
  destruct d; unfold handleDocument, handleEmployees, handleDaysOff,
    handleHolidays; by destruct (method r).
Qed.

Lemma handleDocument_GET `{codec : JSONCodec} `{sorter : SliceSorter}
    d r now fs :
  method r = GET ->
  handleDocument d r now fs = (Replied (serveJSONFile (documentPath d) fs), fs).
Proof.
  intros Hget.
  destruct d; unfold handleDocument, handleEmployees, handleDaysOff,
    handleHolidays; by rewrite Hget.
Qed.

(** X3: rotation's loop starts at index [maxBackups] and panics on a
    negative one, and [updateJSONFileWithBackup] panics with it; the
    limit the document handlers read off the request is positive, so
    they answer every request, with 200, 400, 405, 412 or 500, and with
    405 exactly the requests that are neither GET nor POST. *)
Theorem document_handlers_always_reply `{codec : JSONCodec} `{sorter : SliceSorter} :
  (forall r filePath maxBackups now fs,
     (updateJSONFileWithBackup r filePath maxBackups now fs).1 = Panicked ->
     (maxBackups < 0)%Z) /\
  (forall d r now fs,
     exists resp,
       (handleDocument d r now fs).1 = Replied resp /\
       status resp ∈ [StatusOK; StatusBadRequest; StatusMethodNotAllowed;
                      StatusPreconditionFailed; StatusInternalServerError] /\
       (status resp = StatusMethodNotAllowed <->
        method r <> GET /\ method r <> POST)).
Proof.
  split.
  - intros r filePath maxBackups now fs.
    destruct (update_outcome r filePath maxBackups now fs)
      as [(msg & code & -> & _) | [(-> & _) | [(_ & Hneg) |
          (body & parsed & prettyJSON & st & _ & _ & _ & _ & _ & -> & _)]]];
      try done.
    unfold writeAndReply. by destruct (os_WriteFile _ _ st) as [[e|] fs'].
  - intros d r now fs. destruct (method r) eqn:Hmethod.
    + rewrite handleDocument_GET by done. eexists. split; [done|].
      destruct (serveJSONFile_status (documentPath d) fs) as [-> | ->];
        (split; [set_solver|]); split; try done; by intros [].
    + rewrite handleDocument_POST by done.
      pose proof (maxBackupsHeader_pos r) as Hpos.
      destruct (update_outcome r (documentPath d) (maxBackupsHeader r) now fs)
        as [(msg & code & -> & [-> | ->]) | [(-> & _) | [(_ & Hneg) |
            (body & parsed & prettyJSON & st & _ & _ & _ & _ & _ & -> & _)]]].
      * eexists. split; [done|]. split; [set_solver|].
        split; [done|by intros []].
      * eexists. split; [done|]. split; [set_solver|].
        split; [done|by intros []].
      * eexists. split; [done|]. split; [set_solver|].
        split; [done|by intros []].
      * lia.
      * unfold writeAndReply. destruct (os_WriteFile _ _ st) as [[e|] fs'];
          (eexists; split; [done|]; split; [set_solver|]);
          (split; [done|by intros []]).
    + rewrite handleDocument_other by (by rewrite Hmethod). eexists.
      split; [done|]. split; [set_solver|]. done.
    + rewrite handleDocument_other by (by rewrite Hmethod). eexists.
      split; [done|]. split; [set_solver|]. done.
Qed.

(** ** What a 412 tells *)

(** X4: a document handler answers 412 only to a POST with a non-empty
    If-Match whose document is on disk with another fingerprint than
    the If-Match names; the state stays as it was and the ETag header of
    the reply is the fingerprint of what is on disk. *)
Theorem precondition_failed_means_stale `{codec : JSONCodec} `{sorter : SliceSorter}
    d r now fs resp fs' :
  handleDocument d r now fs = (Replied resp, fs') ->
  status resp = StatusPreconditionFailed ->
  method r = POST /\ fs' = fs /\
  Get (reqHeader r) "If-Match" <> "" /\
  exists files backups onDisk,
    fs = Data files backups /\ files !! documentFile d = Some onDisk /\
    computeETag (Some (bytesOnDisk onDisk)) <> Get (reqHeader r) "If-Match" /\
    respHeader resp !! "ETag" = Some (computeETag (Some (bytesOnDisk onDisk))).
Proof.
  intros Hreply Hstatus.
  destruct (method r) eqn:Hmethod.
  - rewrite handleDocument_GET in Hreply by done. injection Hreply as <- <-.
    by destruct (serveJSONFile_status (documentPath d) fs) as [Hs | Hs];
      rewrite Hs in Hstatus.
  - split; [done|]. rewrite handleDocument_POST in Hreply by done.
    destruct (update_outcome r (documentPath d) (maxBackupsHeader r) now fs)
      as [(msg & code & Hr & [-> | ->]) | [(Hr & Hstat & Hgiven & Hstale) |
          [(_ & Hneg) | (body & parsed & prettyJSON & st & _ & _ & _ & _ & _ & Hr & _)]]];
      [rewrite Hr in Hreply..|pose proof (maxBackupsHeader_pos r); lia|rewrite Hr in Hreply].
    + by injection Hreply as <- <-.
    + by injection Hreply as <- <-.
    + injection Hreply as <- <-. split; [done|]. split; [done|].
      unfold os_Stat in Hstat. unfold os_ReadFile in Hstale |- *.
      rewrite (proj1 (documentPath_resolve d)) in *.
      destruct fs as [|files backups]; [done|]. cbn [find] in *.
      destruct (files !! documentFile d) as [onDisk|] eqn:Hdoc; [|done].
      exists files, backups, onDisk. split; [done|]. split; [done|].
      destruct onDisk as [content|nonempty]; cbn [fst bytesOnDisk] in *;
        (split; [done|]); apply http_Error_ETag.
    + apply writeAndReply_status in Hreply as [Hs | ->]; [by rewrite Hs in Hstatus|done].
  - rewrite handleDocument_other in Hreply by (by rewrite Hmethod).
    by injection Hreply as <- <-.
  - rewrite handleDocument_other in Hreply by (by rewrite Hmethod).
    by injection Hreply as <- <-.
Qed.

(** The 412 behind an If-Match that names another fingerprint. *)
Lemma precondition_failed_means_stale_witness :
  exists files backups onDisk,
    sampleFS = Data files backups /\
    files !! documentFile Environments = Some onDisk /\
    computeETag (Some (bytesOnDisk onDisk)) <>
      Get (reqHeader (postRequest {[ "If-Match" := quoted "0011223344556677" ]}
                        environmentsBody)) "If-Match".
Proof.
  destruct (precondition_failed_means_stale (codec := RefJSON.codec)
              (sorter := goSort) Environments
              (postRequest {[ "If-Match" := quoted "0011223344556677" ]}
                 environmentsBody)
              sampleTime sampleFS
              (http_Error {[ "ETag" := computeETag (Some (bytes "{}")) ]}
                 "Precondition Failed" StatusPreconditionFailed)
              sampleFS)
    as (_ & _ & _ & files & backups & onDisk & Hfs & Hfile & Hstale & _).
  - vm_compute. reflexivity.
  - reflexivity.
  - exists files, backups, onDisk. split; [exact Hfs|]. split; [exact Hfile|].
    exact Hstale.
Defined.

(** ** What a write leaves alone *)

Lemma sameExceptBackups_refl pre fs : sameExceptBackups pre fs fs.
Proof. split; [done|]. by destruct (backupFiles fs). Qed.

Lemma sameExceptBackups_trans pre fs1 fs2 fs3 :
  sameExceptBackups pre fs1 fs2 -> sameExceptBackups pre fs2 fs3 ->
  sameExceptBackups pre fs1 fs3.
Proof.
  intros [Hd12 Hb12] [Hd23 Hb23]. split; [congruence|].
  destruct (backupFiles fs1), (backupFiles fs2), (backupFiles fs3); try done.
  intros n Hn. rewrite Hb23, Hb12 by done. done.
Qed.

Lemma prefix_app (pre rest : string) : String.prefix pre (pre ++ rest) = true.
Proof.
  induction pre as [|c pre IH]; simpl; [by destruct rest|].
  by destruct (ascii_dec c c).
Qed.

Lemma prefix_app_r (pre s rest : string) :
  String.prefix pre s = true -> String.prefix pre (s ++ rest) = true.
Proof.
  revert s. induction pre as [|c pre IH]; intros [|c' s]; simpl; try done.
  - by destruct rest.
  - destruct (ascii_dec c c'); [apply IH|done].
Qed.

Lemma backupName_prefix d now :
  HasPrefix (backupName d now) (documentPrefix d) = true.
Proof. apply prefix_app. Qed.

Lemma prefix_head a pre c n :
  String.prefix (String a pre) (String c n) = true -> a = c.
Proof. cbn [String.prefix]. by destruct (ascii_dec a c). Qed.

(** The prefixes of the three documents start with different letters. *)
Lemma documentPrefix_exclusive d d' n :
  d' <> d -> HasPrefix n (documentPrefix d') = true ->
  HasPrefix n (documentPrefix d) = false.
Proof.
  intros Hd Hp'. destruct (HasPrefix n (documentPrefix d)) eqn:Hp; [|done].
  unfold HasPrefix in *. destruct n as [|c n]; [by destruct d'|].
  change (documentPrefix Environments) with "environments" in *.
  change (documentPrefix Releases) with "releases" in *.
  change (documentPrefix Holidays) with "holidays" in *.
  destruct d, d'; try done;
    apply prefix_head in Hp; apply prefix_head in Hp'; by subst.
Qed.

Lemma documentFile_inj d d' : documentFile d = documentFile d' -> d = d'.
Proof. by destruct d, d'. Qed.

Lemma writeEntry_lookup n data m m' k :
  writeEntry n data m = Some m' -> k <> n -> m' !! k = m !! k.
Proof.
  unfold writeEntry. intros Hw Hk.
  destruct (m !! n) as [[c|b]|]; simplify_eq; by rewrite lookup_insert_ne.
Qed.

(** A write into the backup directory under a name with the prefix. *)
Lemma os_WriteFile_backup_frame pre n data fs :
  plainName n = true -> HasPrefix n pre = true ->
  sameExceptBackups pre fs (os_WriteFile (Join backupDir n) data fs).2.
Proof.
  intros Hplain Hpre. unfold os_WriteFile.
  rewrite Join_backupDir, resolve_backup by done.
  destruct fs as [|files [m|]]; try apply sameExceptBackups_refl.
  destruct (writeEntry n data m) as [m'|] eqn:Hw;
    [|apply sameExceptBackups_refl].
  split; [done|]. cbn. intros k Hk. eapply writeEntry_lookup; [done|].
  intros ->. congruence.
Qed.

Lemma writeChecksum_frame pre n fs :
  plainName n = true -> HasPrefix n pre = true ->
  sameExceptBackups pre fs (writeChecksum (Join backupDir n) fs).
Proof.
  intros Hplain Hpre. unfold writeChecksum.
  destruct (os_ReadFile _ fs) as [b [e|]]; [apply sameExceptBackups_refl|].
  rewrite sidecar_path by done.
  apply os_WriteFile_backup_frame; [by apply plainName_sidecar|].
  by apply prefix_app_r.
Qed.

(** What rotation does to a state: nothing outside the backup
    directory, and in it every entry stays as it was or, a regular file
    with the prefix, is gone. *)
Lemma cleanupOldBackups_effect `{sorter : SliceSorter}
    base maxBackups fs out fs' :
  SortPermutes sorter -> wellFormed fs -> (0 <= maxBackups)%Z ->
  cleanupOldBackups base maxBackups fs = (out, fs') ->
  dataFiles fs' = dataFiles fs /\
  match backupFiles fs with
  | None => fs' = fs
  | Some m =>
      out = Returned None /\
      exists m',
        backupFiles fs' = Some m' /\
        forall n,
          m' !! n = m !! n \/
          (m' !! n = None /\ HasPrefix n (TrimSuffix base ".json") = true /\
           exists content, m !! n = Some (File content))
  end.
Proof.
  intros Hperm Hwf Hk Hclean.
  destruct (backupFiles fs) as [m|] eqn:Hbackups; cycle 1.
  { destruct (listBackups_missing (TrimSuffix base ".json") fs Hbackups)
      as [err Herr].
    unfold cleanupOldBackups in Hclean. rewrite Herr in Hclean.
    by injection Hclean as <- <-. }
  destruct fs as [|files backups]; [done|]. cbn in Hbackups. subst backups.
  destruct Hwf as (_ & _ & Hplain).
  destruct (listBackups (TrimSuffix base ".json") (Data files (Some m)))
    as [err|l] eqn:Hlist.
  { by rewrite listBackups_present in Hlist. }
  rewrite (cleanupOldBackups_present base maxBackups files m l) in Hclean by done.
  injection Hclean as <- <-. split; [done|]. split; [done|].
  eexists. split; [done|]. intros n.
  destruct (Z.of_nat (length l) <=? maxBackups)%Z; [by left|].
  rewrite lookup_foldr_delete.
  destruct (decide (n ∈ drop (Z.to_nat maxBackups) (sortSlice newerFirst l)))
    as [Hin|Hout]; [|by left].
  right. split; [done|].
  apply subseteq_drop in Hin. rewrite (Hperm _ newerFirst l) in Hin.
  apply (listBackups_spec _ _ _ _ Hlist) in Hin as [Hfile Hpre]. done.
Qed.

Lemma cleanupOldBackups_frame `{sorter : SliceSorter}
    base maxBackups fs out fs' :
  SortPermutes sorter -> wellFormed fs -> (0 <= maxBackups)%Z ->
  cleanupOldBackups base maxBackups fs = (out, fs') ->
  sameExceptBackups (TrimSuffix base ".json") fs fs'.
Proof.
  intros Hperm Hwf Hk Hclean.
  destruct (cleanupOldBackups_effect _ _ _ _ _ Hperm Hwf Hk Hclean)
    as [Hdata Hbackups].
  split; [done|].
  destruct (backupFiles fs) as [m|] eqn:Hb; [|subst fs'; by rewrite Hb].
  destruct Hbackups as (_ & m' & -> & Hm'). intros n Hn.
  destruct (Hm' n) as [H | (_ & Hpre & _)]; [done|congruence].
Qed.

(** A POST to a document either leaves the state as it was, with
    another answer than 200, or is answered 200 with the new content in
    the document's file and with nothing else changed but backups of
    this document. *)
Lemma document_post_outcome `{codec : JSONCodec} `{sorter : SliceSorter}
    d r now fs :
  SortPermutes sorter -> wellFormed fs -> method r = POST ->
  (exists resp,
     handleDocument d r now fs = (Replied resp, fs) /\ status resp <> StatusOK) \/
  (exists body parsed prettyJSON files backups backups',
     reqBody r = Some body /\ Unmarshal body = Some parsed /\
     validateByPath (documentPath d) parsed = None /\
     MarshalIndent parsed = Some prettyJSON /\
     fs = Data files backups /\
     isDirectory (files !! documentFile d) = false /\
     (forall current,
        files !! documentFile d = Some (File current) ->
        Get (reqHeader r) "If-Match" = "" \/
        computeETag (Some current) = Get (reqHeader r) "If-Match") /\
     handleDocument d r now fs =
       (Replied (updatedResponse prettyJSON),
        Data (<[documentFile d := File prettyJSON]> files) backups') /\
     sameExceptBackups (documentPrefix d) fs (Data files backups')).
Proof.
  intros Hperm Hwf Hpost. rewrite handleDocument_POST by done.
  pose proof (maxBackupsHeader_pos r) as Hpos.
  destruct (documentPath_resolve d) as [Hresolve Hbase].
  destruct (update_outcome r (documentPath d) (maxBackupsHeader r) now fs)
    as [(msg & code & -> & [-> | ->]) | [(-> & _) | [(_ & Hneg) |
        (body & parsed & prettyJSON & st & Hbody & Hparse & Hvalid & Hmarshal &
         Hguard & -> & Hst)]]].
  - left. eexists. split; [done|]. done.
  - left. eexists. split; [done|]. done.
  - left. eexists. split; [done|]. done.
  - lia.
  - assert (sameExceptBackups (documentPrefix d) fs st /\
            (st = fs \/ exists current,
               os_ReadFile (documentPath d) fs = (Some current, None)))
      as [Hframe Hread].
    { destruct Hst as [-> | (origData & fs1 & out & Hstat & Hread & Hbackup & Hclean)].
      { split; [apply sameExceptBackups_refl|by left]. }
      rewrite Hbase in Hbackup, Hclean.
      change (TrimSuffix (documentFile d) ".json" ++ "." ++ Format now ++ ".json")
        with (backupName d now) in Hbackup, Hclean.
      split.
      - eapply sameExceptBackups_trans; [|eapply sameExceptBackups_trans].
        + pose proof (os_WriteFile_backup_frame (documentPrefix d)
                        (backupName d now) (default [] origData) fs
                        (backupName_plain d now) (backupName_prefix d now)) as H1.
          rewrite Hbackup in H1. exact H1.
        + apply (writeChecksum_frame (documentPrefix d) (backupName d now) fs1);
            [apply backupName_plain|apply backupName_prefix].
        + eapply (cleanupOldBackups_frame (documentFile d) (maxBackupsHeader r));
            [done| |lia|exact Hclean].
          apply writeChecksum_wellFormed.
          pose proof (os_WriteFile_wellFormed (Join backupDir (backupName d now))
                        (default [] origData) fs Hwf) as H1.
          by rewrite Hbackup in H1.
      - right. unfold os_ReadFile in Hread |- *.
        destruct (find (resolve (documentPath d)) fs) as [[current|nonempty]|];
          [by exists current|done|done]. }
    destruct fs as [|files backups].
    { destruct Hread as [-> | [current Hread]];
        [|unfold os_ReadFile in Hread; by rewrite Hresolve in Hread].
      left. unfold writeAndReply, os_WriteFile. rewrite Hresolve.
      eexists. split; [done|]. done. }
    destruct st as [|files' backups']; [by destruct Hframe|].
    pose proof Hframe as [[= ->] _].
    destruct (isDirectory (files !! documentFile d)) eqn:Hdir.
    + destruct Hread as [[= ->] | [current Hread]].
      * left. unfold writeAndReply, os_WriteFile. rewrite Hresolve.
        unfold writeEntry.
        destruct (files !! documentFile d) as [[c|b]|]; try done.
        eexists. split; [done|]. done.
      * unfold os_ReadFile in Hread. rewrite Hresolve in Hread. cbn [find] in Hread.
        by destruct (files !! documentFile d) as [[c|b]|].
    + right. exists body, parsed, prettyJSON, files, backups, backups'.
      split_and!; try done.
      * intros current Hcurrent.
        destruct (document_stat_read d files backups current Hcurrent)
          as [Hstat Hread'].
        specialize (Hguard Hstat). by rewrite Hread' in Hguard.
      * unfold writeAndReply. by rewrite document_write.
Qed.



Lemma document_written d prettyJSON st fs' :
  os_WriteFile (documentPath d) prettyJSON st = (None, fs') ->
  documentContent d fs' = Some prettyJSON /\
  serveJSONFile (documentPath d) fs' =
    {| status := StatusOK; respHeader := jsonHeader; respBody := prettyJSON |}.
Proof.
  unfold os_WriteFile. rewrite (proj1 (documentPath_resolve d)).
  destruct st as [|files backups]; [done|].
  unfold writeEntry. intros Hw.
  assert (fs' = Data (<[documentFile d := File prettyJSON]> files) backups) as ->.
  { destruct (files !! documentFile d) as [[c|b]|]; by simplify_eq. }
  split; [apply documentContent_written|].
  unfold serveJSONFile.
  destruct (document_stat_read d (<[documentFile d := File prettyJSON]> files)
              backups prettyJSON) as [-> ->]; [apply lookup_insert_eq|]. done.
Qed.

(** X6: when a POST to a document is answered 200, the body parsed and
    passed the shape check, the document's file holds the
    re-serialised body, the ETag of the reply is the fingerprint of
    those bytes, and a GET of the document that follows is answered 200
    with exactly those bytes. *)
Theorem accepted_write_is_served_back `{codec : JSONCodec} `{sorter : SliceSorter}
    d r now fs resp fs' :
  method r = POST ->
  handleDocument d r now fs = (Replied resp, fs') ->
  status resp = StatusOK ->
  exists body parsed prettyJSON,
    reqBody r = Some body /\ Unmarshal body = Some parsed /\
    validateByPath (documentPath d) parsed = None /\
    MarshalIndent parsed = Some prettyJSON /\
    documentContent d fs' = Some prettyJSON /\
    respHeader resp !! "ETag" = Some (computeETag (Some prettyJSON)) /\
    forall r' now',
      method r' = GET ->
      handleDocument d r' now' fs' =
        (Replied {| status := StatusOK; respHeader := jsonHeader;
                    respBody := prettyJSON |}, fs').
Proof.
  intros Hpost Hreply Hstatus. rewrite handleDocument_POST in Hreply by done.
  destruct (update_outcome r (documentPath d) (maxBackupsHeader r) now fs)
    as [(msg & code & Hr & [-> | ->]) | [(Hr & _) | [(Hr & _) |
        (body & parsed & prettyJSON & st & Hbody & Hparse & Hvalid & Hmarshal &
         _ & Hr & _)]]].
  - rewrite Hr in Hreply. by injection Hreply as <- <-.
  - rewrite Hr in Hreply. by injection Hreply as <- <-.
  - rewrite Hr in Hreply. by injection Hreply as <- <-.
  - by rewrite Hreply in Hr.
  - rewrite Hr in Hreply. unfold writeAndReply in Hreply.
    destruct (os_WriteFile (documentPath d) prettyJSON st) as [[e|] fs1] eqn:Hw;
      injection Hreply as <- <-; [done|].
    destruct (document_written d prettyJSON st fs1 Hw) as [Hcontent Hserve].
    exists body, parsed, prettyJSON. split_and!; try done.
    intros r' now' Hget. rewrite handleDocument_GET by done. by rewrite Hserve.
Qed.

(** A write of the environments document and the GET after it. *)
Lemma accepted_write_is_served_back_witness :
  exists prettyJSON,
    documentContent Environments
      (handleDocument (codec := RefJSON.codec) (sorter := goSort) Environments
         (postRequest ∅ environmentsBody) sampleTime sampleFS).2
      = Some prettyJSON /\
    handleDocument (codec := RefJSON.codec) (sorter := goSort) Environments
      getRequest sampleTime
      (handleDocument (codec := RefJSON.codec) (sorter := goSort) Environments
         (postRequest ∅ environmentsBody) sampleTime sampleFS).2 =
    (Replied {| status := StatusOK; respHeader := jsonHeader;
                respBody := prettyJSON |},
     (handleDocument (codec := RefJSON.codec) (sorter := goSort) Environments
        (postRequest ∅ environmentsBody) sampleTime sampleFS).2).
Proof.
  assert (exists resp,
            handleDocument (codec := RefJSON.codec) (sorter := goSort)
              Environments (postRequest ∅ environmentsBody) sampleTime sampleFS =
            (Replied resp,
             (handleDocument (codec := RefJSON.codec) (sorter := goSort)
                Environments (postRequest ∅ environmentsBody) sampleTime
                sampleFS).2) /\
            status resp = StatusOK) as (resp & Hreply & Hok).
  { eexists. split; [vm_compute; reflexivity|reflexivity]. }
  destruct (accepted_write_is_served_back (codec := RefJSON.codec)
              (sorter := goSort) Environments
              (postRequest ∅ environmentsBody) sampleTime sampleFS resp _
              eq_refl Hreply Hok)
    as (body & parsed & prettyJSON & _ & _ & _ & _ & Hcontent & _ & Hget).
  exists prettyJSON. split; [exact Hcontent|]. apply Hget. reflexivity.
Defined.

Lemma sameExceptBackups_find pre fs fs' :
  sameExceptBackups pre fs fs' ->
  (forall n, find (LDataEntry n) fs' = find (LDataEntry n) fs) /\
  (forall n, HasPrefix n pre = false ->
             find (LBackupEntry n) fs' = find (LBackupEntry n) fs) /\
  (backupFiles fs' = None <-> backupFiles fs = None).
Proof.
  intros [Hdata Hbackups].
  destruct fs as [|files backups], fs' as [|files' backups']; try done.
  injection Hdata as ->. cbn in Hbackups.
  destruct backups as [m|], backups' as [m'|]; try done.
  all: split; [done|]; split; [|done]; intros n Hn; cbn; by apply Hbackups.
Qed.

(** X7: a request to a document endpoint, whatever its method, leaves
    every other entry of [./data] as it was, and in the backup
    directory every entry whose name does not start with the
    document's prefix; neither directory comes or goes.  So the other
    two documents, their backups and their sidecars are as they
    were. *)
Theorem write_touches_one_document `{codec : JSONCodec} `{sorter : SliceSorter}
    d r now fs :
  SortPermutes sorter -> wellFormed fs ->
  let fs' := (handleDocument d r now fs).2 in
  (forall n, n <> documentFile d ->
             find (LDataEntry n) fs' = find (LDataEntry n) fs) /\
  (forall n, HasPrefix n (documentPrefix d) = false ->
             find (LBackupEntry n) fs' = find (LBackupEntry n) fs) /\
  (dataFiles fs' = None <-> dataFiles fs = None) /\
  (backupFiles fs' = None <-> backupFiles fs = None) /\
  (forall d', d' <> d ->
     documentContent d' fs' = documentContent d' fs /\
     forall n, HasPrefix n (documentPrefix d') = true ->
               find (LBackupEntry n) fs' = find (LBackupEntry n) fs).
Proof.
  intros Hperm Hwf fs'.
  assert ((forall n, n <> documentFile d ->
             find (LDataEntry n) fs' = find (LDataEntry n) fs) /\
          (forall n, HasPrefix n (documentPrefix d) = false ->
             find (LBackupEntry n) fs' = find (LBackupEntry n) fs) /\
          (dataFiles fs' = None <-> dataFiles fs = None) /\
          (backupFiles fs' = None <-> backupFiles fs = None))
    as (Hdata & Hbackups & Hdir & Hbdir).
  { subst fs'. destruct (method r) eqn:Hmethod.
    - by rewrite handleDocument_GET.
    - destruct (document_post_outcome d r now fs Hperm Hwf Hmethod)
        as [(resp0 & -> & _) |
            (body & parsed & prettyJSON & files & backups & backups' & _ & _ & _ &
             _ & -> & _ & _ & -> & Hframe)]; [done|].
      destruct (sameExceptBackups_find _ _ _ Hframe) as (_ & Hb & Hbd).
      split_and!; try done.
      intros n Hn. cbn. by rewrite lookup_insert_ne.
    - by rewrite handleDocument_other by (by rewrite Hmethod).
    - by rewrite handleDocument_other by (by rewrite Hmethod). }
  split_and!; try done.
  intros d' Hd'. split.
  - assert (documentFile d' <> documentFile d) as Hfile
      by (intros Heq; by apply documentFile_inj in Heq).
    specialize (Hdata _ Hfile). unfold documentContent.
    destruct fs as [|files backups], fs' as [|files' backups']; cbn in *;
      try done; try (by destruct Hdir as [H1 H2]; (discriminate H1 || discriminate H2)).
    by rewrite Hdata.
  - intros n Hn. apply Hbackups. by eapply documentPrefix_exclusive.
Qed.

(** A write of the environments document leaves the releases document
    alone. *)
Lemma write_touches_one_document_witness :
  documentContent Releases
    (handleDocument (codec := RefJSON.codec) (sorter := goSort) Environments
       (postRequest ∅ environmentsBody) sampleTime threeBackupsFS).2 =
  documentContent Releases threeBackupsFS.
Proof.
  refine (proj1 (proj2 (proj2 (proj2 (proj2
    (write_touches_one_document (codec := RefJSON.codec) (sorter := goSort)
       Environments (postRequest ∅ environmentsBody) sampleTime threeBackupsFS
       goSort_permutes threeBackupsFS_wellFormed)))) Releases _)).
  discriminate.
Defined.

(** ** Documents over a run of requests *)

Lemma os_Remove_documents p fs d :
  documentContent d (os_Remove (Join backupDir (Base p)) fs).2 =
  documentContent d fs.
Proof.
  unfold os_Remove.
  destruct (backup_path_cases p) as [[_ ->] | [-> | ->]].
  - destruct fs as [|files [m|]]; try done.
    by destruct (removeEntry (Base p) m).
  - destruct fs as [|files [m|]]; try done. by destruct (isEmptyDir m).
  - destruct fs as [|files backups]; [done|].
    destruct (isEmptyDir files) eqn:Hfiles; [|done].
    apply isEmptyDir_true in Hfiles as ->.
    by destruct (bool_decide (backups = None)).
Qed.

Lemma handleBackups_documents `{codec : JSONCodec} r fs d :
  documentContent d (handleBackups r fs).2 = documentContent d fs.
Proof.
  unfold handleBackups. destruct (method r); try done.
  - destruct (negb _).
    + by destruct (os_ReadFile _ fs) as [? [?|]].
    + destruct (_ =? ""); [done|]. by destruct (listBackups _ fs).
  - destruct (reqBody r ≫= DecodeFilename) as [name|]; [|done].
    destruct (name =? ""); [done|].
    pose proof (os_Remove_documents name fs d) as Hdoc.
    by destruct (os_Remove _ fs) as [[e|] fs'].
Qed.

(** One request: a document keeps its content, or the request is a
    POST to it and the content is the re-serialised body. *)
Lemma serve_document `{codec : JSONCodec} `{sorter : SliceSorter}
    e r now fs d :
  SortPermutes sorter -> wellFormed fs ->
  documentContent d (serve e r now fs).2 = documentContent d fs \/
  (e = DocumentEndpoint d /\ method r = POST /\
   exists body parsed prettyJSON,
     reqBody r = Some body /\ Unmarshal body = Some parsed /\
     validateByPath (documentPath d) parsed = None /\
     MarshalIndent parsed = Some prettyJSON /\
     documentContent d (serve e r now fs).2 = Some prettyJSON).
Proof.
  intros Hperm Hwf. destruct e as [d'|]; cbn [serve];
    [|left; apply handleBackups_documents].
  destruct (method r) eqn:Hmethod.
  - left. by rewrite handleDocument_GET.
  - destruct (document_post_outcome d' r now fs Hperm Hwf Hmethod)
      as [(resp0 & -> & _) |
          (body & parsed & prettyJSON & files & backups & backups' & Hbody &
           Hparse & Hvalid & Hmarshal & -> & _ & _ & -> & _)]; [by left|].
    cbn [snd].
    destruct (String.eqb_spec (documentFile d') (documentFile d)) as [Heq|Hne].
    + apply documentFile_inj in Heq as ->.
      right. split; [done|]. split; [done|].
      exists body, parsed, prettyJSON. split_and!; try done.
      apply documentContent_written.
    + left. unfold documentContent. cbn [dataFiles].
      by rewrite lookup_insert_ne.
  - left. by rewrite handleDocument_other by (by rewrite Hmethod).
  - left. by rewrite handleDocument_other by (by rewrite Hmethod).
Qed.

Lemma serve_wellFormed `{codec : JSONCodec} `{sorter : SliceSorter}
    e r now fs :
  wellFormed fs -> wellFormed (serve e r now fs).2.
Proof.
  destruct e; [apply handleDocument_wellFormed|apply handleBackups_wellFormed].
Qed.

(** X8: no run of requests loses a document.  After any requests, to
    any endpoints, a document that had content holds that content
    still, or the re-serialised body of a POST to it that was among the
    requests and passed the shape check. *)
Theorem documents_survive_requests `{codec : JSONCodec} `{sorter : SliceSorter}
    trace fs d content :
  SortPermutes sorter -> wellFormed fs ->
  documentContent d fs = Some content ->
  documentContent d (serveAll trace fs) = Some content \/
  exists r now body parsed prettyJSON,
    (DocumentEndpoint d, r, now) ∈ trace /\ method r = POST /\
    reqBody r = Some body /\ Unmarshal body = Some parsed /\
    validateByPath (documentPath d) parsed = None /\
    MarshalIndent parsed = Some prettyJSON /\
    documentContent d (serveAll trace fs) = Some prettyJSON.
Proof.
  intros Hperm. revert fs content.
  induction trace as [|[[e r] now] trace IH]; intros fs content Hwf Hcontent;
    [by left|].
  cbn [serveAll].
  pose proof (serve_wellFormed e r now fs Hwf) as Hwf1.
  assert (forall c1,
    documentContent d (serve e r now fs).2 = Some c1 ->
    (c1 = content \/
     exists r0 now0 body parsed,
       (DocumentEndpoint d, r0, now0) ∈ (e, r, now) :: trace /\ method r0 = POST /\
       reqBody r0 = Some body /\ Unmarshal body = Some parsed /\
       validateByPath (documentPath d) parsed = None /\
       MarshalIndent parsed = Some c1) ->
    documentContent d (serveAll trace (serve e r now fs).2) = Some content \/
    exists r0 now0 body parsed prettyJSON,
      (DocumentEndpoint d, r0, now0) ∈ (e, r, now) :: trace /\ method r0 = POST /\
      reqBody r0 = Some body /\ Unmarshal body = Some parsed /\
      validateByPath (documentPath d) parsed = None /\
      MarshalIndent parsed = Some prettyJSON /\
      documentContent d (serveAll trace (serve e r now fs).2) = Some prettyJSON)
    as Hrest.
  { intros c1 Hc1 Horigin.
    destruct (IH _ c1 Hwf1 Hc1)
      as [Hsame | (r0 & now0 & body & parsed & prettyJSON & Hin & Hrest)].
    - destruct Horigin as [-> | (r0 & now0 & body & parsed & Hin & Hpost & Hbody &
                                  Hparse & Hvalid & Hmarshal)]; [by left|].
      right. exists r0, now0, body, parsed, c1. done.
    - right. exists r0, now0, body, parsed, prettyJSON.
      split; [by apply list_elem_of_further|done]. }
  destruct (serve_document e r now fs d Hperm Hwf)
    as [Hsame | (-> & Hpost & body & parsed & prettyJSON & Hbody & Hparse &
                 Hvalid & Hmarshal & Hnew)].
  - apply (Hrest content); [congruence|by left].
  - apply (Hrest prettyJSON); [done|]. right.
    exists r, now, body, parsed. split; [apply list_elem_of_here|done].
Qed.

(** A DELETE on the backups endpoint and a write of another document. *)
Lemma documents_survive_requests_witness :
  documentContent Environments
    (serveAll (codec := RefJSON.codec) (sorter := goSort)
       [ (BackupsEndpoint,
          deleteRequest (deleteBody "environments.20250102-000000.json"),
          sampleTime);
         (DocumentEndpoint Releases, postRequest ∅ (releasesBody "Planned"),
          sampleTime) ]
       threeBackupsFS) = Some (bytes "{}") \/
  exists r now body parsed prettyJSON,
    (DocumentEndpoint Environments, r, now) ∈
      [ (BackupsEndpoint,
         deleteRequest (deleteBody "environments.20250102-000000.json"),
         sampleTime);
        (DocumentEndpoint Releases, postRequest ∅ (releasesBody "Planned"),
         sampleTime) ] /\
    method r = POST /\
    reqBody r = Some body /\ Unmarshal (JSONCodec := RefJSON.codec) body = Some parsed /\
    validateByPath (documentPath Environments) parsed = None /\
    MarshalIndent (JSONCodec := RefJSON.codec) parsed = Some prettyJSON /\
    documentContent Environments
      (serveAll (codec := RefJSON.codec) (sorter := goSort)
         [ (BackupsEndpoint,
            deleteRequest (deleteBody "environments.20250102-000000.json"),
            sampleTime);
           (DocumentEndpoint Releases, postRequest ∅ (releasesBody "Planned"),
            sampleTime) ]
         threeBackupsFS) = Some prettyJSON.
Proof.
  apply (documents_survive_requests (codec := RefJSON.codec) (sorter := goSort)).
  - apply goSort_permutes.
  - apply threeBackupsFS_wellFormed.
  - reflexivity.
Defined.

(** ** The ETag of a write as the precondition of the next *)

Lemma quoted_nonempty text : quoted text <> "".
Proof. done. Qed.

Lemma updatedResponse_ETag prettyJSON :
  respHeader (updatedResponse prettyJSON) !! "ETag" =
  Some (computeETag (Some prettyJSON)).
Proof.
  unfold updatedResponse. cbn [respHeader].
  rewrite lookup_insert_ne by done. apply lookup_singleton_eq.
Qed.

(** A POST of an accepted body whose If-Match names another fingerprint
    than that of the document's file. *)
Lemma post_behind_stale_precondition `{codec : JSONCodec} `{sorter : SliceSorter}
    d r now files backups body parsed prettyJSON current :
  method r = POST -> reqBody r = Some body ->
  Unmarshal body = Some parsed ->
  validateByPath (documentPath d) parsed = None ->
  MarshalIndent parsed = Some prettyJSON ->
  files !! documentFile d = Some (File current) ->
  Get (reqHeader r) "If-Match" <> "" ->
  computeETag (Some current) <> Get (reqHeader r) "If-Match" ->
  handleDocument d r now (Data files backups) =
    (Replied (http_Error {[ "ETag" := computeETag (Some current) ]}
                         "Precondition Failed" StatusPreconditionFailed),
     Data files backups).
Proof.
  intros Hpost Hbody Hparse Hvalid Hmarshal Hfile Hgiven Hstale.
  rewrite handleDocument_POST by done. unfold updateJSONFileWithBackup.
  rewrite Hbody, Hparse, Hvalid, Hmarshal.
  destruct (document_stat_read d files backups current Hfile) as [-> ->].
  cbn [fst].
  apply String.eqb_neq in Hgiven, Hstale. by rewrite Hgiven, Hstale.
Qed.

(** X9: the ETag a successful write returns is the precondition of the
    next write.  After a POST answered 200, a POST of an accepted body
    that carries the returned ETag as If-Match is answered 200 and its
    content is in the file; a further POST that carries the first ETag
    again, when the content in between has another fingerprint, is
    answered 412 with the ETag of the second write and changes
    nothing. *)
Theorem returned_etag_guards_the_next_write `{codec : JSONCodec} `{sorter : SliceSorter}
    d r1 now1 fs0 resp1 fs1 r2 now2 body2 parsed2 pretty2 :
  SortPermutes sorter -> wellFormed fs0 ->
  method r1 = POST ->
  handleDocument d r1 now1 fs0 = (Replied resp1, fs1) ->
  status resp1 = StatusOK ->
  method r2 = POST -> reqBody r2 = Some body2 ->
  Unmarshal body2 = Some parsed2 ->
  validateByPath (documentPath d) parsed2 = None ->
  MarshalIndent parsed2 = Some pretty2 ->
  respHeader resp1 !! "ETag" = Some (Get (reqHeader r2) "If-Match") ->
  exists fs2,
    handleDocument d r2 now2 fs1 = (Replied (updatedResponse pretty2), fs2) /\
    documentContent d fs2 = Some pretty2 /\
    forall r3 now3 body3 parsed3 pretty3,
      method r3 = POST -> reqBody r3 = Some body3 ->
      Unmarshal body3 = Some parsed3 ->
      validateByPath (documentPath d) parsed3 = None ->
      MarshalIndent parsed3 = Some pretty3 ->
      Get (reqHeader r3) "If-Match" = Get (reqHeader r2) "If-Match" ->
      computeETag (Some pretty2) <> Get (reqHeader r2) "If-Match" ->
      exists resp3,
        handleDocument d r3 now3 fs2 = (Replied resp3, fs2) /\
        status resp3 = StatusPreconditionFailed /\
        respHeader resp3 !! "ETag" = Some (computeETag (Some pretty2)).
Proof.
  intros Hperm Hwf0 Hpost1 Hreply1 Hok1 Hpost2 Hbody2 Hparse2 Hvalid2 Hmarshal2
    Hetag.
  assert (wellFormed fs1) as Hwf1.
  { pose proof (handleDocument_wellFormed d r1 now1 fs0 Hwf0) as H.
    by rewrite Hreply1 in H. }
  destruct (document_post_outcome d r1 now1 fs0 Hperm Hwf0 Hpost1)
    as [(resp0 & Hr & Hfailed) |
        (body1 & parsed1 & pretty1 & files & backups & backups' & _ & _ & _ &
         _ & -> & _ & _ & Hr & _)];
    rewrite Hr in Hreply1; injection Hreply1 as <- <-; [done|].
  rewrite updatedResponse_ETag in Hetag.
  apply (inj Some) in Hetag.
  destruct (update_existing d r2 now2 (<[documentFile d := File pretty1]> files)
              backups' body2 parsed2 pretty2 pretty1)
    as (backups2 & Hr2 & _); try done.
  { apply lookup_insert_eq. }
  { rewrite Hetag, String.eqb_refl. apply andb_false_r. }
  eexists. split; [exact Hr2|]. split; [apply documentContent_written|].
  intros r3 now3 body3 parsed3 pretty3 Hpost3 Hbody3 Hparse3 Hvalid3 Hmarshal3
    Hsame Hstale.
  eexists. split.
  - apply (post_behind_stale_precondition d r3 now3 _ _ body3 parsed3 pretty3 pretty2);
      try done.
    + apply lookup_insert_eq.
    + rewrite Hsame, <- Hetag. apply quoted_nonempty.
    + by rewrite Hsame.
  - apply http_Error_ETag.
Qed.

Lemma freshFS_wellFormed : wellFormed freshFS.
Proof. apply (bool_decide_unpack _). by vm_compute. Qed.

(** The first two requests of the scenario of section 8 of the spec. *)
Lemma returned_etag_guards_the_next_write_witness :
  exists prettyJSON fs2,
    handleDocument (codec := RefJSON.codec) (sorter := goSort) Releases
      followUpRequest (atSecond 2) (scenarioStep None "Planned" 1 freshFS).2 =
      (Replied (updatedResponse prettyJSON), fs2) /\
    documentContent Releases fs2 = Some prettyJSON.
Proof.
  assert (exists resp,
            handleDocument (codec := RefJSON.codec) (sorter := goSort) Releases
              (postRequest {[ "X-Max-Backups" := "2" ]} (releasesBody "Planned"))
              (atSecond 1) freshFS =
            (Replied resp, (scenarioStep None "Planned" 1 freshFS).2) /\
            status resp = StatusOK /\
            respHeader resp !! "ETag" =
              Some (Get (reqHeader followUpRequest) "If-Match"))
    as (resp & Hreply & Hok & Hetag).
  { eexists. split; [vm_compute; reflexivity|].
    split; [reflexivity|vm_compute; reflexivity]. }
  assert (exists parsed prettyJSON,
            Unmarshal (JSONCodec := RefJSON.codec) (bytes (releasesBody "Done"))
              = Some parsed /\
            validateByPath (documentPath Releases) parsed = None /\
            MarshalIndent (JSONCodec := RefJSON.codec) parsed = Some prettyJSON)
    as (parsed & prettyJSON & Hparse & Hvalid & Hmarshal).
  { eexists _, _. split; [vm_compute; reflexivity|].
    split; [vm_compute; reflexivity|reflexivity]. }
  destruct (returned_etag_guards_the_next_write (codec := RefJSON.codec)
              (sorter := goSort) Releases
              (postRequest {[ "X-Max-Backups" := "2" ]} (releasesBody "Planned"))
              (atSecond 1) freshFS resp (scenarioStep None "Planned" 1 freshFS).2
              followUpRequest (atSecond 2) (bytes (releasesBody "Done"))
              parsed prettyJSON goSort_permutes freshFS_wellFormed eq_refl
              Hreply Hok eq_refl eq_refl Hparse Hvalid Hmarshal Hetag)
    as (fs2 & Hreply2 & Hcontent & _).
  exists prettyJSON, fs2. split; [exact Hreply2|exact Hcontent].
Defined.

(** ** Rotation deletes listed files *)

(** X10: with a limit that is not negative, rotation returns; it never
    touches [./data]; without a backup directory it returns the error
    of the listing and changes nothing; with one it returns no error,
    adds nothing to the directory, and whatever it removes is a
    regular file whose name starts with the prefix. *)
Theorem rotation_only_removes_listed_files `{sorter : SliceSorter}
    base maxBackups fs :
  SortPermutes sorter -> wellFormed fs -> (0 <= maxBackups)%Z ->
  exists err fs',
    cleanupOldBackups base maxBackups fs = (Returned err, fs') /\
    dataFiles fs' = dataFiles fs /\
    match backupFiles fs with
    | None => err <> None /\ fs' = fs
    | Some m =>
        err = None /\
        exists m',
          backupFiles fs' = Some m' /\ m' ⊆ m /\
          forall n e,
            m !! n = Some e -> m' !! n = None ->
            HasPrefix n (TrimSuffix base ".json") = true /\
            exists content, e = File content
    end.
Proof.
  intros Hperm Hwf Hk.
  destruct (cleanupOldBackups base maxBackups fs) as [out fs'] eqn:Hclean.
  destruct (cleanupOldBackups_effect _ _ _ _ _ Hperm Hwf Hk Hclean)
    as [Hdata Heffect].
  destruct (backupFiles fs) as [m|] eqn:Hbackups.
  - destruct Heffect as (-> & m' & Hm' & Hentries).
    exists None, fs'. split; [done|]. split; [done|]. split; [done|].
    exists m'. split; [done|]. split.
    + apply map_subseteq_spec. intros n e Hn.
      destruct (Hentries n) as [Hsame | [Hgone _]]; congruence.
    + intros n e Hn Hgone.
      destruct (Hentries n) as [Hsame | (_ & Hpre & content & Hfile)];
        [congruence|].
      split; [done|]. exists content. congruence.
  - subst fs'.
    destruct (listBackups_missing (TrimSuffix base ".json") fs Hbackups)
      as [msg Hmsg].
    unfold cleanupOldBackups in Hclean. rewrite Hmsg in Hclean.
    injection Hclean as <-. exists (Some msg), fs. done.
Qed.

(** Rotation with a limit of 2 on three backups and their sidecars. *)
Lemma rotation_only_removes_listed_files_witness :
  exists err fs',
    cleanupOldBackups (sorter := goSort) "environments.json" 2 threeBackupsFS
      = (Returned err, fs') /\
    dataFiles fs' = dataFiles threeBackupsFS.
Proof.
  destruct (rotation_only_removes_listed_files (sorter := goSort)
              "environments.json" 2 threeBackupsFS)
    as (err & fs' & Hclean & Hdata & _).
  - apply goSort_permutes.
  - apply threeBackupsFS_wellFormed.
  - lia.
  - exists err, fs'. split; [exact Hclean|exact Hdata].
Defined.

(** ** The listing *)

Lemma StronglySorted_filter {A} (R : relation A) (P : A -> bool) (l : list A) :
  StronglySorted R l -> StronglySorted R (filter P l).
Proof.
  induction 1 as [|x l Hl IH Hx]; [constructor|].
  rewrite filter_cons. destruct (decide (P x)); [|done].
  constructor; [done|].
  apply Forall_forall. intros y [_ Hy]%list_elem_of_filter.
  by eapply Forall_forall in Hx.
Qed.

#[local] Instance nameLe_trans : Transitive nameLe.
Proof. intros a b c. unfold nameLe. apply transitivity. Qed.

#[local] Instance nameLe_total : Total nameLe.
Proof. intros a b. unfold nameLe. apply total, _. Qed.

(** X11: without a backup directory [listBackups] returns an error; with
    one it returns, in ascending order of the names and each once, the
    names of the regular files of the directory that start with the
    prefix, and nothing else: the sidecars of matching backups are in
    the listing, subdirectories are not. *)
Theorem listBackups_sorted_files_with_prefix filePrefix fs :
  match backupFiles fs with
  | None => exists err, listBackups filePrefix fs = inl err
  | Some m =>
      exists l,
        listBackups filePrefix fs = inr l /\
        StronglySorted String.le l /\ NoDup l /\
        (forall n, n ∈ l <->
           (exists content, m !! n = Some (File content)) /\
           HasPrefix n filePrefix = true) /\
        (forall n content,
           n ∈ l -> m !! (n ++ ".sha256") = Some (File content) ->
           (n ++ ".sha256") ∈ l)
  end.
Proof.
  destruct (backupFiles fs) as [m|] eqn:Hbackups;
    [|by apply listBackups_missing].
  destruct fs as [|files backups]; [done|]. cbn in Hbackups. subst backups.
  destruct (listBackups filePrefix (Data files (Some m))) as [err|l] eqn:Hlist.
  { by rewrite listBackups_present in Hlist. }
  exists l. split; [done|].
  destruct (listBackups_spec _ _ _ _ Hlist) as [Hnodup Hspec].
  split_and!; try done.
  - rewrite listBackups_present in Hlist. injection Hlist as <-.
    apply (StronglySorted_fmap fst nameLe); [done|].
    apply StronglySorted_filter, StronglySorted_merge_sort; apply _.
  - intros n content [_ Hpre]%Hspec Hsidecar. apply Hspec.
    split; [by exists content|]. by apply prefix_app_r.
Qed.

(** ** The sidecar and the fingerprint *)

Lemma hexEncode_take k bs rest :
  (k <= length bs)%nat ->
  hexEncode (take k bs) = substring 0 (2 * k) (hexEncode bs ++ rest).
Proof.
  revert bs. induction k as [|k IH]; intros bs Hk.
  { rewrite take_0. cbn. by destruct (hexEncode bs ++ rest). }
  destruct bs as [|b bs]; [cbn in Hk; lia|]. cbn [take].
  change (hexEncode (b :: ?l)) with
    (String (hexDigit (Z_of_byte b / 16))
       (String (hexDigit (Z_of_byte b mod 16)) (hexEncode l))).
  replace (2 * S k)%nat with (S (S (2 * k))) by lia.
  cbn [String.append substring]. rewrite IH; [done|]. cbn in Hk. lia.
Qed.

(** X12: [writeChecksum] on a backup whose sidecar's name is free or
    taken by a file writes that one entry and no other: 64 hexadecimal
    digits and a newline, of which the first 16 digits, in double
    quotes, are the fingerprint [computeETag] gives the backup's
    bytes, the checksum a fetch of the backup reports. *)
Theorem sidecar_carries_the_fingerprint files m n content :
  plainName n = true -> m !! n = Some (File content) ->
  isDirectory (m !! (n ++ ".sha256")) = false ->
  exists text,
    writeChecksum (Join backupDir n) (Data files (Some m)) =
      Data files (Some (<[n ++ ".sha256" := File (bytes text)]> m)) /\
    String.length text = 65%nat /\
    substring 64 1 text = newline /\
    computeETag (Some content) = quoted (substring 0 16 text).
Proof.
  intros Hplain Hfile Hdir.
  rewrite (writeChecksum_backup files m n content) by done. rewrite Hdir.
  exists (hexEncode (SHA256.Sum256 content) ++ newline). split; [done|].
  assert (String.length (hexEncode (SHA256.Sum256 content)) = 64%nat) as Hlen
    by (by rewrite hexEncode_length, Sum256_length).
  split_and!.
  - by rewrite length_append, Hlen.
  - rewrite <- Hlen. clear Hlen.
    induction (hexEncode (SHA256.Sum256 content)) as [|c s IH]; [done|].
    cbn [String.length String.append substring]. exact IH.
  - rewrite <- (hexEncode_take 8) by (rewrite Sum256_length; lia). done.
Qed.

(** The sidecar of one backup. *)
Lemma sidecar_carries_the_fingerprint_witness :
  exists text,
    writeChecksum (Join backupDir "environments.20250101-000000.json")
      (Data ∅ (Some {[ "environments.20250101-000000.json" := File (bytes "{1}") ]})) =
      Data ∅ (Some (<["environments.20250101-000000.json" ++ ".sha256" :=
                       File (bytes text)]>
                      {[ "environments.20250101-000000.json" := File (bytes "{1}") ]})) /\
    String.length text = 65%nat /\
    substring 64 1 text = newline /\
    computeETag (Some (bytes "{1}")) = quoted (substring 0 16 text).
Proof.
  apply (sidecar_carries_the_fingerprint ∅
           {[ "environments.20250101-000000.json" := File (bytes "{1}") ]}
           "environments.20250101-000000.json" (bytes "{1}")).
  - reflexivity.
  - vm_compute. reflexivity.
  - vm_compute. reflexivity.
Defined.

(** ** Rotation by timestamp *)

Lemma filter_split_length {A} (P Q : A -> bool) (l : list A) :
  (forall x, x ∈ l -> P x = negb (Q x)) ->
  (length (filter P l) + length (filter Q l))%nat = length l.
Proof.
  induction l as [|x l IH]; intros H; [done|].
  rewrite !filter_cons.
  pose proof (H x (list_elem_of_here _ _)) as Hx.
  assert (forall y, y ∈ l -> P y = negb (Q y)) as Hl
    by (intros y Hy; apply H; by right).
  specialize (IH Hl).
  destruct (Q x); cbn [negb] in Hx; rewrite Hx.
  - rewrite decide_False, decide_True by (exact I || intros []).
    cbn [length]. lia.
  - rewrite decide_True, decide_False by (exact I || intros []).
    cbn [length]. lia.
Qed.

(** Where a name stands in a listing sorted newest first: behind the
    names with a later timestamp, among those with its own. *)
Lemma position_by_stamp front n back :
  (forall x, x ∈ (front ++ n :: back)%list -> (3 <= length (Split x "."))%nat) ->
  StronglySorted (fun a b => newerFirst b a = false) (front ++ n :: back)%list ->
  (newerThan n (front ++ n :: back)%list <= length front <
   newerThan n (front ++ n :: back)%list + sameStamp n (front ++ n :: back)%list)%nat.
Proof.
  intros Hparts Hsorted. unfold newerThan, sameStamp.
  apply StronglySorted_app in Hsorted as (Hbefore & _ & Hrest).
  apply StronglySorted_cons in Hrest as [Hafter _].
  rewrite Forall_forall in Hafter.
  assert (n ∈ (front ++ n :: back)%list) as Hn
    by (apply elem_of_app; right; left).
  rewrite !filter_app, !filter_cons.
  rewrite decide_False by (rewrite gtString_irrefl; intros []).
  rewrite decide_True by (by rewrite String.eqb_refl).
  rewrite (filter_none _ back), app_nil_r; cycle 1.
  { intros x Hx. specialize (Hafter x Hx).
    rewrite newerFirst_stamp in Hafter; [done|apply Hparts..]; [|done].
    apply elem_of_app. right. by right. }
  rewrite !length_app. cbn [length].
  pose proof (filter_split_length
    (fun other => gtString (stamp other) (stamp n))
    (fun other => stamp other =? stamp n) front) as Hsplit.
  cbn beta in Hsplit.
  enough (forall x, x ∈ front ->
            gtString (stamp x) (stamp n) = negb (stamp x =? stamp n)) as Hall
    by (specialize (Hsplit Hall); lia).
  intros x Hx.
  assert (x ∈ (front ++ n :: back)%list) as Hx' by (apply elem_of_app; by left).
  assert (gtString (stamp n) (stamp x) = false) as Hle.
  { rewrite <- (newerFirst_stamp n x) by auto. apply Hbefore; [done|left]. }
  destruct (String.eqb_spec (stamp x) (stamp n)) as [->|Hne]; cbn [negb].
  - apply gtString_irrefl.
  - apply gtString_total; [congruence|done].
Qed.

Lemma elem_of_drop_middle {A} (front : list A) n back k :
  NoDup (front ++ n :: back)%list ->
  n ∈ drop k (front ++ n :: back)%list <-> (k <= length front)%nat.
Proof.
  intros Hnd.
  destruct (decide (k <= length front)%nat) as [Hle|Hgt].
  - rewrite drop_app_le by done. split; [done|]. intros _.
    apply elem_of_app. right. left.
  - split; [|lia]. rewrite drop_app_ge by lia.
    destruct (k - length front)%nat as [|k'] eqn:Hk; [lia|]. cbn [drop].
    intros Hin. apply NoDup_app in Hnd as (_ & _ & Hback).
    apply NoDup_cons in Hback as [Hnot _]. destruct Hnot.
    eapply elem_of_sublist; [done|]. apply sublist_drop.
Qed.

(** X13: which names rotation keeps, for any [sort.Slice] that meets its
    contract, on a listing whose names have a timestamp token.  A name
    stays when the names with a later timestamp and those with its own,
    itself among them, are together at most [maxBackups]; it is
    deleted when [maxBackups] names or more have a later timestamp.  A
    backup and its sidecar have one timestamp, so they count as two. *)
Theorem rotation_keeps_by_stamp `{sorter : SliceSorter}
    base maxBackups files m l :
  SortPermutes sorter -> SortSorts sorter ->
  plainNames m -> (0 <= maxBackups)%Z ->
  listBackups (TrimSuffix base ".json") (Data files (Some m)) = inr l ->
  (forall n, n ∈ l -> (3 <= length (Split n "."))%nat) ->
  exists m',
    cleanupOldBackups base maxBackups (Data files (Some m)) =
      (Returned None, Data files (Some m')) /\
    forall n, n ∈ l ->
      ((Z.of_nat (newerThan n l + sameStamp n l) <= maxBackups)%Z ->
       m' !! n = m !! n) /\
      ((maxBackups <= Z.of_nat (newerThan n l))%Z -> m' !! n = None).
Proof.
  intros Hperm Hsorts Hm Hmax Hl Hparts.
  rewrite (cleanupOldBackups_present _ _ _ _ l Hperm Hm) by done.
  eexists. split; [reflexivity|]. intros n Hn.
  destruct (Z.of_nat (length l) <=? maxBackups)%Z eqn:Hfew.
  { split; [done|]. intros Hnewer.
    assert (newerThan n l < length l)%nat as Hlt.
    { unfold newerThan. apply (length_filter_lt _ l n); [done|].
      rewrite gtString_irrefl. intros []. }
    lia. }
  set (sorted := sortSlice newerFirst l).
  assert (sorted ≡ₚ l) as Hp by apply Hperm.
  pose proof (Hsorts _ _ _ (newerFirst_strictWeakOrderOn l Hparts)) as Hsorted.
  fold sorted in Hsorted.
  destruct (listBackups_spec _ _ _ _ Hl) as [Hnd _].
  assert (NoDup sorted) as Hnds by (by rewrite Hp).
  assert (n ∈ sorted) as Hns by (by rewrite Hp).
  destruct (list_elem_of_split _ _ Hns) as (front & back & Hsplit).
  assert (newerThan n l <= length front < newerThan n l + sameStamp n l)%nat
    as Hpos.
  { unfold newerThan, sameStamp. rewrite <- Hp.
    fold (newerThan n sorted) (sameStamp n sorted). rewrite Hsplit.
    apply position_by_stamp.
    - intros x Hx. apply Hparts. by rewrite <- Hp, Hsplit.
    - by rewrite <- Hsplit. }
  rewrite lookup_foldr_delete. rewrite Hsplit in Hnds |- *.
  pose proof (elem_of_drop_middle front n back (Z.to_nat maxBackups) Hnds)
    as Hdrop.
  split; intros Hcount.
  - rewrite decide_False; [done|]. rewrite Hdrop. lia.
  - rewrite decide_True; [done|]. rewrite Hdrop. lia.
Qed.

(** Three backups with their sidecars and a limit of 2: the newest
    backup stays, the second newest goes. *)
Lemma rotation_keeps_by_stamp_witness :
  exists m',
    cleanupOldBackups (sorter := goSort) "environments.json" 2 threeBackupsFS =
      (Returned None,
       Data {[ "environments.json" := File (bytes "{}") ]} (Some m')) /\
    m' !! "environments.20250103-000000.json" =
      threeBackups !! "environments.20250103-000000.json" /\
    m' !! "environments.20250102-000000.json" = None.
Proof.
  destruct (rotation_keeps_by_stamp (sorter := goSort) "environments.json" 2
              {[ "environments.json" := File (bytes "{}") ]} threeBackups
              [ "environments.20250101-000000.json";
                "environments.20250101-000000.json.sha256";
                "environments.20250102-000000.json";
                "environments.20250102-000000.json.sha256";
                "environments.20250103-000000.json";
                "environments.20250103-000000.json.sha256" ])
    as (m' & Hclean & Hkept).
  - apply goSort_permutes.
  - apply goSort_sorts.
  - apply threeBackupsFS_wellFormed.
  - lia.
  - vm_compute. reflexivity.
  - intros n Hn.
    repeat (apply elem_of_cons in Hn as [-> | Hn]; [vm_compute; lia|]).
    by apply elem_of_nil in Hn.
  - exists m'. split; [exact Hclean|]. split.
    + apply (Hkept "environments.20250103-000000.json").
      * do 4 right. left.
      * vm_compute. discriminate.
    + apply (Hkept "environments.20250102-000000.json").
      * do 2 right. left.
      * vm_compute. discriminate.
Defined.

(** ** The names of backups and the order of their timestamps *)

Lemma Split_freeOf sep s : freeOf sep s = true -> Split s sep = [s].
Proof.
  induction s as [|c s IH]; cbn [freeOf Split]; [done|].
  intros [Hc Hs]%andb_true_iff. apply negb_true_iff in Hc.
  by rewrite Hc, IH.
Qed.

Lemma Split_app a b sep :
  Split (a ++ String sep b) sep = (Split a sep ++ Split b sep)%list.
Proof.
  induction a as [|c a IH]; cbn [String.append Split].
  - by rewrite Ascii.eqb_refl.
  - destruct (Ascii.eqb c sep); [by rewrite IH|]. rewrite IH.
    pose proof (Split_nonempty a sep). by destruct (Split a sep).
Qed.

Lemma freeOf_app c (a b : string) :
  freeOf c (a ++ b) = freeOf c a && freeOf c b.
Proof.
  induction a as [|x a IH]; cbn [String.append freeOf]; [done|].
  by rewrite IH, andb_assoc.
Qed.

Lemma digitChar_noDot n : Ascii.eqb (digitChar n) "." = false.
Proof.
  unfold digitChar.
  assert (n mod 10 < 10)%nat as Hk by (apply Nat.mod_upper_bound; lia).
  revert Hk. generalize (n mod 10)%nat. intros k Hk.
  do 10 (destruct k as [|k]; [reflexivity|]). lia.
Qed.

Lemma twoDigits_noDot n : freeOf "." (twoDigits n) = true.
Proof. unfold twoDigits. cbn [freeOf]. by rewrite !digitChar_noDot. Qed.

Lemma decimal_noDot fuel n acc :
  freeOf "." acc = true -> freeOf "." (decimal fuel n acc) = true.
Proof.
  revert n acc.
  induction fuel as [|fuel IH]; intros n acc Hacc; cbn [decimal]; [done|].
  assert (freeOf "." (String (digitChar n) acc) = true) as H.
  { cbn [freeOf]. by rewrite digitChar_noDot, Hacc. }
  destruct (n <? 10)%nat; [done|]. by apply IH.
Qed.

Lemma yearDigits_noDot y : freeOf "." (yearDigits y) = true.
Proof.
  unfold yearDigits. destruct (y / 100 <? 100)%nat.
  - by rewrite freeOf_app, !twoDigits_noDot.
  - by apply decimal_noDot.
Qed.

Lemma Format_noDot now : freeOf "." (Format now) = true.
Proof.
  unfold Format. by rewrite !freeOf_app, yearDigits_noDot, !twoDigits_noDot.
Qed.

(** The name of a backup has three parts between dots, that of its
    sidecar four; the second is the timestamp. *)
Lemma Split_backupName d now :
  Split (backupName d now) "." = [documentPrefix d; Format now; "json"] /\
  Split (backupName d now ++ ".sha256") "." =
    [documentPrefix d; Format now; "json"; "sha256"].
Proof.
  unfold backupName.
  assert (freeOf "." (documentPrefix d) = true) as Hprefix by (by destruct d).
  pose proof (Format_noDot now) as Hstamp.
  split.
  - change (documentPrefix d ++ "." ++ Format now ++ ".json")
      with (documentPrefix d ++ String "." (Format now ++ String "." "json")).
    by rewrite !Split_app, !Split_freeOf.
  - rewrite !append_assoc.
    change (documentPrefix d ++ "." ++ Format now ++ ".json" ++ ".sha256")
      with (documentPrefix d ++
            String "." (Format now ++ String "." ("json" ++ String "." "sha256"))).
    by rewrite !Split_app, !Split_freeOf.
Qed.

Lemma compare_app (a a' b b' : string) :
  String.length a = String.length a' ->
  String.compare (a ++ b) (a' ++ b') =
  match String.compare a a' with
  | Eq => String.compare b b'
  | c => c
  end.
Proof.
  revert a'. induction a as [|x a IH]; intros [|x' a'] Hlen; try done.
  cbn [String.append String.compare].
  destruct (Ascii.compare x x'); [|done..].
  apply IH. cbn in Hlen. lia.
Qed.

Lemma twoDigits_compare_table :
  forallb (fun n =>
    forallb (fun m =>
      match String.compare (twoDigits n) (twoDigits m), Nat.compare n m with
      | Eq, Eq | Lt, Lt | Gt, Gt => true
      | _, _ => false
      end) (seq 0 100)) (seq 0 100) = true.
Proof. vm_compute. reflexivity. Qed.

(** Two digits order numbers below 100 as the numbers are ordered. *)
Lemma twoDigits_compare n m :
  (n < 100)%nat -> (m < 100)%nat ->
  String.compare (twoDigits n) (twoDigits m) = Nat.compare n m.
Proof.
  intros Hn Hm. pose proof twoDigits_compare_table as Htable.
  rewrite forallb_forall in Htable.
  specialize (Htable n (proj2 (in_seq _ _ _) (conj (Nat.le_0_l _) Hn))).
  rewrite forallb_forall in Htable.
  specialize (Htable m (proj2 (in_seq _ _ _) (conj (Nat.le_0_l _) Hm))).
  by destruct (String.compare _ _), (Nat.compare n m).
Qed.

Lemma twoDigits_mod n : twoDigits n = twoDigits (n mod 100).
Proof.
  assert (((n / 10) mod 10 = ((n mod 100) / 10) mod 10)%nat) as Htens
    by (lia).
  assert ((n mod 10 = (n mod 100) mod 10)%nat) as Hunits
    by (lia).
  unfold twoDigits, digitChar. by rewrite Htens, Hunits.
Qed.

Lemma compare_by_hundreds n m :
  Nat.compare n m =
  match Nat.compare (n / 100) (m / 100) with
  | Eq => Nat.compare (n mod 100) (m mod 100)
  | c => c
  end.
Proof.
  destruct (Nat.compare_spec (n / 100) (m / 100)) as [Hq|Hq|Hq].
  - destruct (Nat.compare_spec (n mod 100) (m mod 100)) as [Hr|Hr|Hr].
    + apply Nat.compare_eq_iff. lia.
    + apply Nat.compare_lt_iff. lia.
    + apply Nat.compare_gt_iff. lia.
  - apply Nat.compare_lt_iff. lia.
  - apply Nat.compare_gt_iff. lia.
Qed.

Lemma yearDigits_four y :
  (y < 100 * 100)%nat -> yearDigits y = twoDigits (y / 100) ++ twoDigits (y mod 100).
Proof.
  intros Hy. unfold yearDigits.
  assert (y / 100 < 100)%nat as Hq
    by (lia).
  apply Nat.ltb_lt in Hq. rewrite Hq. by rewrite <- twoDigits_mod.
Qed.

Lemma yearDigits_compare y1 y2 :
  (y1 < 100 * 100)%nat -> (y2 < 100 * 100)%nat ->
  String.compare (yearDigits y1) (yearDigits y2) = Nat.compare y1 y2.
Proof.
  intros H1 H2. rewrite !yearDigits_four by done.
  rewrite compare_app by done.
  rewrite !twoDigits_compare, <- compare_by_hundreds; [done|..];
    lia.
Qed.

(** Up to the year 9999 the timestamps are ordered as the times are. *)
Lemma Format_compare t1 t2 :
  fourDigitYear t1 -> fourDigitYear t2 ->
  String.compare (Format t1) (Format t2) =
  lexCompare (timeFields t1) (timeFields t2).
Proof.
  intros (Hy1 & Hmo1 & Hd1 & Hh1 & Hmi1 & Hs1) (Hy2 & Hmo2 & Hd2 & Hh2 & Hmi2 & Hs2).
  unfold Format, timeFields. cbn [lexCompare].
  rewrite compare_app by (by rewrite !yearDigits_four).
  rewrite yearDigits_compare by done.
  destruct (Nat.compare (Year t1) (Year t2)); [|done..].
  rewrite compare_app, twoDigits_compare by done.
  destruct (Nat.compare (Month t1) (Month t2)); [|done..].
  rewrite compare_app, twoDigits_compare by done.
  destruct (Nat.compare (Day t1) (Day t2)); [|done..].
  rewrite (compare_app "-" "-") by done. cbn [String.compare Ascii.compare].
  change (("-" ?= "-")%string) with Eq. cbv iota.
  rewrite compare_app, twoDigits_compare by done.
  destruct (Nat.compare (Hour t1) (Hour t2)); [|done..].
  rewrite compare_app, twoDigits_compare by done.
  destruct (Nat.compare (Minute t1) (Minute t2)); [|done..].
  rewrite twoDigits_compare by done.
  by destruct (Nat.compare (Second t1) (Second t2)).
Qed.

(** X14: the names [updateJSONFileWithBackup] gives backups carry the
    time as their second part between dots, and up to the year 9999
    the order rotation sorts by is the order of the times: of two
    names, backups or sidecars of one document, rotation puts the one
    first whose time is later, and neither first when the times are
    equal. *)
Theorem rotation_order_is_chronological d t1 t2 :
  fourDigitYear t1 -> fourDigitYear t2 ->
  stamp (backupName d t1) = Format t1 /\
  stamp (backupName d t1 ++ ".sha256") = Format t1 /\
  forall a b,
    a ∈ [backupName d t1; backupName d t1 ++ ".sha256"] ->
    b ∈ [backupName d t2; backupName d t2 ++ ".sha256"] ->
    newerFirst a b = earlier t2 t1.
Proof.
  intros H1 H2.
  destruct (Split_backupName d t1) as [Hb1 Hs1].
  destruct (Split_backupName d t2) as [Hb2 Hs2].
  assert (stamp (backupName d t1) = Format t1) as Hstamp1
    by (unfold stamp; by rewrite Hb1).
  assert (stamp (backupName d t1 ++ ".sha256") = Format t1) as Hstamp1'
    by (unfold stamp; by rewrite Hs1).
  assert (stamp (backupName d t2) = Format t2) as Hstamp2
    by (unfold stamp; by rewrite Hb2).
  assert (stamp (backupName d t2 ++ ".sha256") = Format t2) as Hstamp2'
    by (unfold stamp; by rewrite Hs2).
  split; [done|]. split; [done|].
  assert (gtString (Format t1) (Format t2) = earlier t2 t1) as Horder.
  { unfold gtString, String.ltb, earlier. by rewrite Format_compare. }
  intros a b Ha Hb.
  apply elem_of_cons in Ha as [-> | Ha]; [|apply list_elem_of_singleton in Ha as ->];
    (apply elem_of_cons in Hb as [-> | Hb];
       [|apply list_elem_of_singleton in Hb as ->]);
    rewrite newerFirst_stamp by (rewrite ?Hb1, ?Hs1, ?Hb2, ?Hs2; cbn; lia);
    by rewrite ?Hstamp1, ?Hstamp1', ?Hstamp2, ?Hstamp2'.
Qed.

(** A backup and the sidecar of the backup a second older. *)
Lemma rotation_order_is_chronological_witness :
  newerFirst (backupName Releases (atSecond 2))
    (backupName Releases (atSecond 1) ++ ".sha256") =
  earlier (atSecond 1) (atSecond 2).
Proof.
  refine (proj2 (proj2 (rotation_order_is_chronological Releases (atSecond 2)
                          (atSecond 1) _ _)) _ _ _ _).
  - unfold fourDigitYear. cbn. lia.
  - unfold fourDigitYear. cbn. lia.
  - left.
  - right. left.
Defined.

(** ** The write that keeps its backups next to the document *)


Lemma documentPath_text d : documentPath d = "data/" ++ documentFile d.
Proof. by destruct d. Qed.

Lemma resolve_data n :
  plainName n = true -> n <> "backups" -> resolve ("data/" ++ n) = LDataEntry n.
Proof.
  intros Hn Hne. destruct (plainName_inv n Hn) as (_ & _ & _ & Hs).
  unfold resolve. simpl.
  change (String.append "" n) with n.
  rewrite (Split_noSeparator n Hs).
  unfold cleanElements. cbn [fold_left].
  rewrite (cleanStep_plain _ _ n Hn).
  change (rev (n :: cleanStep false [] "data")) with ["data"; n].
  apply String.eqb_neq in Hne. cbn iota. by rewrite Hne.
Qed.

Lemma movedName_length d now :
  (String.length (documentFile d) + 5 <= String.length (movedName d now))%nat /\
  (13 <= String.length (documentFile d))%nat.
Proof.
  unfold movedName. rewrite !length_append.
  destruct d; cbn [String.length documentFile]; lia.
Qed.

Lemma movedName_plain d now suffix :
  noSeparator suffix = true ->
  plainName (movedName d now ++ suffix) = true /\
  movedName d now ++ suffix <> "backups" /\
  movedName d now ++ suffix <> documentFile d.
Proof.
  intros Hsuffix. pose proof (movedName_length d now) as [Hlen Hdoc]. split_and!.
  - apply plainName_long; [rewrite length_append; lia|].
    unfold movedName.
    rewrite !noSeparator_app, Format_noSeparator, Hsuffix. by destruct d.
  - intros H. apply (f_equal String.length) in H.
    rewrite length_append in H. cbn [String.length] in H. lia.
  - intros H. apply (f_equal String.length) in H.
    rewrite length_append in H. lia.
Qed.

Lemma append_empty (s : string) : s ++ "" = s.
Proof. induction s as [|c s IH]; cbn [String.append]; [done|]. by rewrite IH. Qed.

(** X16: [updateJSONFile] on a document whose file is there, with an
    accepted body and a precondition that holds: the old file is moved
    to [<document>.bak.<timestamp>] in [./data] itself, with its bytes,
    and gets a sidecar there; the document's file is written anew; the
    reply is 200 with the fingerprint of the new bytes; the backup
    directory and every other entry of [./data] stay as they were, and
    nothing is rotated. *)
Theorem legacy_write_moves_the_old_file `{codec : JSONCodec}
    d r now files backups body parsed prettyJSON current :
  reqBody r = Some body -> Unmarshal body = Some parsed ->
  validateByPath (documentPath d) parsed = None ->
  MarshalIndent parsed = Some prettyJSON ->
  files !! documentFile d = Some (File current) ->
  Get (reqHeader r) "If-Match" = "" \/
    computeETag (Some current) = Get (reqHeader r) "If-Match" ->
  isDirectory (files !! movedName d now) = false ->
  isDirectory (files !! (movedName d now ++ ".sha256")) = false ->
  exists resp files',
    updateJSONFile r (documentPath d) now (Data files backups) =
      (resp, Data files' backups) /\
    status resp = StatusOK /\
    respHeader resp !! "ETag" = Some (computeETag (Some prettyJSON)) /\
    files' !! documentFile d = Some (File prettyJSON) /\
    files' !! movedName d now = Some (File current) /\
    files' !! (movedName d now ++ ".sha256") = Some (File (sidecarOf current)) /\
    forall n,
      n <> documentFile d -> n <> movedName d now ->
      n <> movedName d now ++ ".sha256" -> files' !! n = files !! n.
Proof.
  intros Hbody Hparse Hvalid Hmarshal Hfile Hguard Hmoved Hsidecar.
  destruct (movedName_plain d now "" eq_refl) as (Hplain & Hnotdir & Hnotdoc).
  rewrite append_empty in Hplain, Hnotdir, Hnotdoc.
  destruct (movedName_plain d now ".sha256" eq_refl)
    as (Hplain' & Hnotdir' & Hnotdoc').
  assert (resolve (documentPath d ++ ".bak." ++ Format now) =
          LDataEntry (movedName d now)) as Hto.
  { rewrite documentPath_text, append_assoc. by apply resolve_data. }
  assert (resolve ((documentPath d ++ ".bak." ++ Format now) ++ ".sha256") =
          LDataEntry (movedName d now ++ ".sha256")) as Hto'.
  { rewrite documentPath_text, !append_assoc.
    rewrite <- !append_assoc. rewrite !append_assoc.
    change ("data/" ++ documentFile d ++ ".bak." ++ Format now ++ ".sha256")
      with ("data/" ++ (documentFile d ++ ".bak." ++ Format now ++ ".sha256")).
    rewrite <- (append_assoc (documentFile d)).
    rewrite <- (append_assoc (documentFile d ++ ".bak.")).
    rewrite (append_assoc (documentFile d)).
    by apply resolve_data. }
  destruct (documentPath_resolve d) as [Hfrom _].
  unfold updateJSONFile. rewrite Hbody, Hparse, Hvalid, Hmarshal.
  destruct (document_stat_read d files backups current Hfile) as [-> ->].
  cbn [fst].
  assert (negb (Get (reqHeader r) "If-Match" =? "") &&
          negb (computeETag (Some current) =? Get (reqHeader r) "If-Match")
          = false) as ->.
  { destruct Hguard as [-> | ->]; [done|].
    rewrite String.eqb_refl. apply andb_false_r. }
  set (files1 := <[movedName d now := File current]> (delete (documentFile d) files)).
  assert (os_Rename (documentPath d) (documentPath d ++ ".bak." ++ Format now)
            (Data files backups) = (None, Data files1 backups)) as ->.
  { unfold os_Rename. rewrite Hfrom, Hto. cbn [isEntry andb find].
    rewrite Hfile. cbn [isDir parentExists place].
    by destruct (files !! movedName d now) as [[c|b]|]. }
  cbn [snd].
  set (files2 := <[movedName d now ++ ".sha256" := File (sidecarOf current)]> files1).
  assert (writeChecksum (documentPath d ++ ".bak." ++ Format now)
            (Data files1 backups) = Data files2 backups) as ->.
  { unfold writeChecksum, os_ReadFile, os_WriteFile. rewrite Hto, Hto'.
    cbn [find]. unfold files1 at 1. rewrite lookup_insert_eq. cbn [default].
    unfold writeEntry, files1.
    rewrite lookup_insert_ne by (symmetry; apply sidecar_name_differs).
    rewrite lookup_delete_ne by done.
    by destruct (files !! (movedName d now ++ ".sha256")) as [[c|b]|]. }
  unfold os_WriteFile, writeEntry. rewrite Hfrom.
  assert (files2 !! documentFile d = None) as ->.
  { unfold files2, files1.
    rewrite !lookup_insert_ne by done. apply lookup_delete_eq. }
  eexists _, _. split; [reflexivity|]. split; [done|].
  split; [apply (updatedResponse_ETag prettyJSON)|].
  split_and!.
  - apply lookup_insert_eq.
  - rewrite lookup_insert_ne by done. unfold files2.
    rewrite lookup_insert_ne by apply sidecar_name_differs.
    apply lookup_insert_eq.
  - rewrite lookup_insert_ne by done. apply lookup_insert_eq.
  - intros n Hn1 Hn2 Hn3. unfold files2, files1.
    rewrite !lookup_insert_ne by done. by rewrite lookup_delete_ne.
Qed.

(** The first overwrite of the environments document. *)
Lemma legacy_write_moves_the_old_file_witness :
  exists resp files',
    updateJSONFile (codec := RefJSON.codec) (postRequest ∅ environmentsBody)
      (documentPath Environments) sampleTime sampleFS =
      (resp, Data files' (Some ∅)) /\
    status resp = StatusOK /\
    files' !! movedName Environments sampleTime = Some (File (bytes "{}")).
Proof.
  assert (exists parsed prettyJSON,
            Unmarshal (JSONCodec := RefJSON.codec) (bytes environmentsBody)
              = Some parsed /\
            validateByPath (documentPath Environments) parsed = None /\
            MarshalIndent (JSONCodec := RefJSON.codec) parsed = Some prettyJSON)
    as (parsed & prettyJSON & Hparse & Hvalid & Hmarshal).
  { eexists _, _. split; [vm_compute; reflexivity|].
    split; [vm_compute; reflexivity|reflexivity]. }
  destruct (legacy_write_moves_the_old_file (codec := RefJSON.codec)
              Environments (postRequest ∅ environmentsBody) sampleTime
              {[ "environments.json" := File (bytes "{}") ]} (Some ∅)
              (bytes environmentsBody) parsed prettyJSON (bytes "{}")
              eq_refl Hparse Hvalid Hmarshal)
    as (resp & files' & Hreply & Hok & _ & _ & Hmoved & _).
  - vm_compute. reflexivity.
  - left. reflexivity.
  - vm_compute. reflexivity.
  - vm_compute. reflexivity.
  - exists resp, files'. split; [exact Hreply|]. split; [exact Hok|exact Hmoved].
Defined.

(** ** Rotation after rotation, and the backup behind a write *)

(** X17: rotation settles.  After a rotation with some limit, a rotation
    of the same prefix with that limit or a larger one changes
    nothing. *)
Theorem rotation_settles `{sorter : SliceSorter} base maxBackups larger fs :
  SortPermutes sorter -> wellFormed fs ->
  (0 <= maxBackups <= larger)%Z ->
  (cleanupOldBackups base larger (cleanupOldBackups base maxBackups fs).2).2 =
  (cleanupOldBackups base maxBackups fs).2.
Proof.
  intros Hperm Hwf [Hk Hlarger].
  destruct (cleanupOldBackups base maxBackups fs) as [out fs1] eqn:Hfirst.
  pose proof (cleanupOldBackups_wellFormed base maxBackups fs Hwf) as Hwf1.
  rewrite Hfirst in Hwf1. cbn [snd] in *.
  destruct (cleanupOldBackups_bound _ _ _ _ _ Hperm Hwf Hk Hfirst) as [Hbound _].
  destruct (listBackups (TrimSuffix base ".json") fs1) as [err|l] eqn:Hlist.
  - unfold cleanupOldBackups. by rewrite Hlist.
  - destruct (cleanupOldBackups base larger fs1) as [out2 fs2] eqn:Hsecond.
    assert (0 <= larger)%Z as Hk' by lia.
    destruct (cleanupOldBackups_bound _ _ _ _ _ Hperm Hwf1 Hk' Hsecond)
      as [_ Hsame].
    apply (Hsame l Hlist). specialize (Hbound l eq_refl). lia.
Qed.

(** A limit of 5 after a limit of 2. *)
Lemma rotation_settles_witness :
  (cleanupOldBackups (sorter := goSort) "environments.json" 5
     (cleanupOldBackups (sorter := goSort) "environments.json" 2
        threeBackupsFS).2).2 =
  (cleanupOldBackups (sorter := goSort) "environments.json" 2 threeBackupsFS).2.
Proof.
  apply (rotation_settles (sorter := goSort)).
  - apply goSort_permutes.
  - apply threeBackupsFS_wellFormed.
  - lia.
Defined.

Lemma trimTrailingSeparators_noSeparator n :
  noSeparator n = true -> trimTrailingSeparators n = n.
Proof.
  induction n as [|c n IH]; cbn [noSeparator trimTrailingSeparators]; [done|].
  intros [Hc Hn]%andb_true_iff. apply negb_true_iff in Hc.
  rewrite IH by done. unfold Separator in *. rewrite Hc. by rewrite andb_false_r.
Qed.

(** A name is its own last element. *)
Lemma Base_plain n : plainName n = true -> Base n = n.
Proof.
  intros (Hempty & _ & _ & Hsep)%plainName_inv. unfold Base.
  rewrite Hempty, trimTrailingSeparators_noSeparator by done.
  rewrite Split_noSeparator by done. cbn [List.last]. by rewrite Hempty.
Qed.

(** X18: the backup behind a write.  After a POST answered 200 to a
    document whose file held [current], an entry under the backup's
    name that is a regular file holds the bytes of [current]; its
    sidecar, when it is a regular file, holds their SHA-256; and a
    fetch of the backup's name is answered 200 with those bytes and
    with their fingerprint, the ETag the document had before the
    write, as checksum. *)
Theorem backup_holds_the_replaced_bytes `{codec : JSONCodec} `{sorter : SliceSorter}
    d r now files backups current resp fs' m' content :
  SortPermutes sorter -> wellFormed (Data files backups) ->
  method r = POST ->
  files !! documentFile d = Some (File current) ->
  handleDocument d r now (Data files backups) = (Replied resp, fs') ->
  status resp = StatusOK ->
  backupFiles fs' = Some m' ->
  m' !! backupName d now = Some (File content) ->
  content = current /\
  (forall text, m' !! (backupName d now ++ ".sha256") = Some (File text) ->
                text = sidecarOf current) /\
  forall r',
    method r' = GET -> Get (query r') "filename" = backupName d now ->
    handleBackups r' fs' =
      (Replied {| status := StatusOK; respHeader := jsonHeader;
                  respBody :=
                    Encode (JObject
                      [ ("filename", JString (backupName d now));
                        ("checksum", JString (computeETag (Some current)));
                        ("content", JString (string_of_list_byte current)) ]) |},
       fs').
Proof.
  intros Hperm Hwf Hpost Hfile Hreply Hok Hbackups Hentry.
  pose proof (backupName_plain d now) as Hplain.
  pose proof (maxBackupsHeader_pos r) as Hpos.
  rewrite handleDocument_POST in Hreply by done.
  destruct (accepted_write_inv _ _ _ _ _ _ _ Hreply Hok)
    as (body & parsed & prettyJSON & Hbody & Hparse & Hvalid & Hmarshal & Hguard).
  destruct (document_stat_read d files backups current Hfile) as [Hstat Hread].
  specialize (Hguard Hstat). rewrite Hread in Hguard. cbn [fst] in Hguard.
  destruct (update_existing d r now files backups body parsed prettyJSON current)
    as (backups' & Hr & Hrotated); try done.
  rewrite handleDocument_POST in Hr by done. rewrite Hr in Hreply.
  injection Hreply as <- <-. cbn [backupFiles] in Hbackups. subst backups'.
  destruct backups as [m|]; [|done].
  assert (content = current /\
          (forall text, m' !! (backupName d now ++ ".sha256") = Some (File text) ->
                        text = sidecarOf current)) as [-> Hsidecar].
  { destruct (m !! backupName d now) as [[old|nonempty]|] eqn:Hold;
      cbn [isDirectory] in Hrotated.
    2: { injection Hrotated as <-. congruence. }
    all: destruct Hwf as (Hf & Hb & Hm).
    all: match type of Hrotated with
         | cleanupOldBackups _ _ (Data _ (Some ?m2)) = _ =>
             assert (wellFormed (Data files (Some m2))) as Hwf2
         end.
    1, 3: split; [done|]; split; [done|];
      destruct (isDirectory (m !! (backupName d now ++ ".sha256")));
      unfold withBackup; repeat apply plainNames_insert; try done;
      by apply plainName_sidecar.
    all: assert (0 <= maxBackupsHeader r)%Z as Hk by lia.
    all: destruct (cleanupOldBackups_effect _ _ _ _ _ Hperm Hwf2 Hk Hrotated)
           as [_ (_ & m'' & Hm'' & Hentries)];
      cbn [backupFiles] in Hm''; injection Hm'' as <-.
    all: split;
      [ destruct (Hentries (backupName d now)) as [Hsame | [Hgone _]];
          [|congruence];
        rewrite Hentry in Hsame; symmetry in Hsame;
        destruct (isDirectory (m !! (backupName d now ++ ".sha256")));
        unfold withBackup in Hsame;
        rewrite ?(lookup_insert_ne _ (backupName d now ++ ".sha256"))
          in Hsame by apply sidecar_name_differs;
        rewrite lookup_insert_eq in Hsame; congruence
      | intros text Htext;
        destruct (Hentries (backupName d now ++ ".sha256")) as [Hsame | [Hgone _]];
          [|congruence];
        rewrite Htext in Hsame; symmetry in Hsame;
        destruct (isDirectory (m !! (backupName d now ++ ".sha256"))) eqn:Hdir;
        [ rewrite lookup_insert_ne in Hsame
            by (symmetry; apply sidecar_name_differs);
          rewrite Hsame in Hdir; done
        | unfold withBackup in Hsame; rewrite lookup_insert_eq in Hsame;
          congruence ] ]. }
  split; [done|]. split; [done|].
  intros r' Hget Hname. unfold handleBackups. rewrite Hget, Hname.
  assert ((backupName d now =? "") = false) as ->
    by (by apply plainName_inv in Hplain as (? & _)).
  cbn [negb]. rewrite Base_plain by done.
  rewrite os_ReadFile_backup by done. by rewrite Hentry.
Qed.

(** The first overwrite of the environments document and the fetch of
    its backup. *)
Lemma backup_holds_the_replaced_bytes_witness :
  exists resp fs' reply,
    handleDocument (codec := RefJSON.codec) (sorter := goSort) Environments
      (postRequest ∅ environmentsBody) sampleTime sampleFS = (Replied resp, fs') /\
    handleBackups (codec := RefJSON.codec)
      (fetchRequest (backupName Environments sampleTime)) fs' =
      (Replied reply, fs') /\
    status reply = StatusOK.
Proof.
  assert (exists resp fs' m',
            handleDocument (codec := RefJSON.codec) (sorter := goSort)
              Environments (postRequest ∅ environmentsBody) sampleTime
              (Data {[ "environments.json" := File (bytes "{}") ]} (Some ∅)) =
            (Replied resp, fs') /\
            status resp = StatusOK /\
            backupFiles fs' = Some m' /\
            m' !! backupName Environments sampleTime = Some (File (bytes "{}")))
    as (resp & fs' & m' & Hreply & Hok & Hbackups & Hentry).
  { eexists _, _, _. split; [vm_compute; reflexivity|].
    split; [reflexivity|]. split; [reflexivity|vm_compute; reflexivity]. }
  destruct (backup_holds_the_replaced_bytes (codec := RefJSON.codec)
              (sorter := goSort) Environments (postRequest ∅ environmentsBody)
              sampleTime {[ "environments.json" := File (bytes "{}") ]} (Some ∅)
              (bytes "{}") resp fs' m' (bytes "{}")
              goSort_permutes sampleFS_wellFormed eq_refl eq_refl
              Hreply Hok Hbackups Hentry) as (_ & _ & Hfetch).
  exists resp, fs'. eexists. split; [exact Hreply|]. split.
  - apply (Hfetch (fetchRequest (backupName Environments sampleTime)));
      reflexivity.
  - reflexivity.
Defined.

(** ** The limit a request asks for *)

Lemma digitValue_digitChar k :
  digitValue (digitChar k) = Some (Z.of_nat (k mod 10)).
Proof.
  unfold digitValue, digitChar.
  assert (k mod 10 < 10)%nat as Hk by (apply Nat.mod_upper_bound; lia).
  rewrite nat_ascii_embedding by lia.
  assert (((48 <=? Z.of_nat (48 + k mod 10)) &&
           (Z.of_nat (48 + k mod 10) <=? 57))%Z = true) as ->
    by (apply andb_true_iff; split; apply Z.leb_le; lia).
  f_equal. lia.
Qed.

Lemma digitsValue_decimal fuel n acc :
  (n < fuel)%nat ->
  digitsValue (decimal fuel n acc) 0 = digitsValue acc (Z.of_nat n).
Proof.
  revert n acc. induction fuel as [|fuel IH]; intros n acc Hfuel; [lia|].
  cbn [decimal]. destruct (Nat.ltb_spec n 10) as [Hsmall|Hlarge].
  - cbn [digitsValue]. rewrite digitValue_digitChar.
    f_equal. rewrite Nat.mod_small by done. lia.
  - rewrite IH by lia. cbn [digitsValue]. rewrite digitValue_digitChar.
    f_equal. lia.
Qed.

Lemma decimal_head fuel n acc :
  (0 < fuel)%nat ->
  exists k rest, decimal fuel n acc = String (digitChar k) rest.
Proof.
  revert n acc. induction fuel as [|fuel IH]; intros n acc Hfuel; [lia|].
  cbn [decimal]. destruct (n <? 10)%nat; [by eexists _, _|].
  destruct fuel as [|fuel]; [by eexists _, _|]. apply IH. lia.
Qed.

Lemma digitChar_not_sign k :
  Ascii.eqb (digitChar k) "-" = false /\ Ascii.eqb (digitChar k) "+" = false.
Proof.
  unfold digitChar.
  assert (k mod 10 < 10)%nat as Hk by (apply Nat.mod_upper_bound; lia).
  revert Hk. generalize (k mod 10)%nat. intros j Hj.
  do 10 (destruct j as [|j]; [by split|]). lia.
Qed.

Lemma Atoi_decimalDigits n :
  (Z.of_nat n < 2 ^ 63)%Z -> Atoi (decimalDigits n) = Some (Z.of_nat n).
Proof.
  intros Hrange. unfold Atoi, decimalDigits.
  pose proof (digitsValue_decimal (S n) n "" ltac:(lia)) as Hvalue.
  destruct (decimal_head (S n) n "" ltac:(lia)) as (k & rest & Hhead).
  rewrite Hhead in Hvalue |- *.
  destruct (digitChar_not_sign k) as [-> ->].
  change (String (digitChar k) rest =? "") with false. cbv iota.
  rewrite Hvalue. cbn [digitsValue].
  assert (((- 2 ^ 63 <=? Z.of_nat n) && (Z.of_nat n <? 2 ^ 63))%Z = true) as ->
    by (apply andb_true_iff; split; [apply Z.leb_le|apply Z.ltb_lt]; lia).
  done.
Qed.

(** X19: the limit a request asks for is the limit it gets.  A POST
    whose X-Max-Backups header holds the decimal digits of a number
    between 1 and the largest [int] is handled with that number as the
    limit of rotation; without the header, and with a header that says
    0, the limit is the default of 10. *)
Theorem maxBackupsHeader_reads_the_number r :
  (forall n,
     (Z.of_nat n < 2 ^ 63)%Z ->
     reqHeader r !! "X-Max-Backups" = Some (decimalDigits n) ->
     maxBackupsHeader r = if (n =? 0)%nat then defaultMaxBackups else Z.of_nat n) /\
  (reqHeader r !! "X-Max-Backups" = None -> maxBackupsHeader r = defaultMaxBackups).
Proof.
  split.
  - intros n Hrange Hheader. unfold maxBackupsHeader, Get. rewrite Hheader.
    change (default "" (Some (decimalDigits n))) with (decimalDigits n).
    rewrite Atoi_decimalDigits by done.
    destruct (decimal_head (S n) n "" ltac:(lia)) as (k & rest & Hhead).
    unfold decimalDigits. rewrite Hhead.
    change (String (digitChar k) rest =? "") with false. cbv iota.
    destruct (Nat.eqb_spec n 0) as [->|Hn]; [done|].
    assert ((0 <? Z.of_nat n)%Z = true) as -> by (apply Z.ltb_lt; lia). done.
  - intros Hnone. unfold maxBackupsHeader, Get. by rewrite Hnone.
Qed.

(** ** What a GET serves *)

(** X20: a GET of a document never changes the state.  It is answered
    200 with [{}] when nothing is at the document's path, 200 with the
    bytes of the file, as they are, when a regular file is there, and
    500 when a directory is. *)
Theorem get_serves_what_is_on_disk `{codec : JSONCodec} `{sorter : SliceSorter}
    d r now fs :
  method r = GET ->
  handleDocument d r now fs =
  (Replied
     match find (LDataEntry (documentFile d)) fs with
     | None =>
         {| status := StatusOK; respHeader := jsonHeader; respBody := bytes "{}" |}
     | Some (File content) =>
         {| status := StatusOK; respHeader := jsonHeader; respBody := content |}
     | Some (SubDir _) =>
         http_Error ∅ ("Error reading file: " ++
                       pathError "read" (documentPath d) EISDIR)
                    StatusInternalServerError
     end, fs).
Proof.
  intros Hget. rewrite handleDocument_GET by done. f_equal. f_equal.
  unfold serveJSONFile, os_Stat, os_ReadFile.
  rewrite (proj1 (documentPath_resolve d)).
  by destruct (find (LDataEntry (documentFile d)) fs) as [[content|nonempty]|].
Qed.

(** A GET of the environments document of the sample state. *)
Lemma get_serves_what_is_on_disk_witness :
  handleDocument (codec := RefJSON.codec) (sorter := goSort) Environments
    getRequest sampleTime sampleFS =
  (Replied {| status := StatusOK; respHeader := jsonHeader;
              respBody := bytes "{}" |}, sampleFS).
Proof.
  apply (get_serves_what_is_on_disk (codec := RefJSON.codec) (sorter := goSort)
           Environments getRequest sampleTime sampleFS).
  reflexivity.
Defined.

(** * Checks on concrete inputs *)

Example sha_constants :
  length SHA256.roundConstants = 64%nat /\
  nth 0 SHA256.roundConstants 0 = 0x428a2f98 /\
  nth 63 SHA256.roundConstants 0 = 0xc67178f2 /\
  SHA256.h0 SHA256.initial = 0x6a09e667 /\
  SHA256.h7 SHA256.initial = 0x5be0cd19.
Proof. vm_compute. repeat split. Qed.

Example sha_empty :
  hexEncode (SHA256.Sum256 []) =
  "e3b0c44298fc1c149afbf4c8996fb92427ae41e4649b934ca495991b7852b855".
Proof. vm_compute. reflexivity. Qed.

Example sha_abc :
  hexEncode (SHA256.Sum256 (list_byte_of_string "abc")) =
  "ba7816bf8f01cfea414140de5dae2223b00361a396177a9cb410ff61f20015ad".
Proof. vm_compute. reflexivity. Qed.

Example sha_two_blocks :
  hexEncode (SHA256.Sum256 (list_byte_of_string
     "abcdbcdecdefdefgefghfghighijhijkijkljklmklmnlmnomnopnopq")) =
  "248d6a61d20638b8e5c026930c3e6039a33ce45964ff2167f6ecedd419db06c1".
Proof. vm_compute. reflexivity. Qed.

Example base_examples :
  Base "data/environments.json" = "environments.json" /\
  Base "../../etc/passwd" = "passwd" /\ Base "a/b/" = "b" /\
  Base "" = "." /\ Base "///" = "/" /\ Base ".." = ".." /\ Base "x/." = ".".
Proof. vm_compute. repeat split. Qed.

Example join_examples :
  Join dataDir "environments.json" = "data/environments.json" /\
  Join backupDir "releases.20250415-101500.json" =
    "data/backups/releases.20250415-101500.json" /\
  Join backupDir "." = "data/backups" /\ Join backupDir ".." = "data" /\
  Join backupDir "/" = "data/backups" /\ Clean "a/../.." = ".." /\
  Clean "/../a//b/./c/.." = "/a/b".
Proof. vm_compute. repeat split. Qed.

Example trim_examples :
  TrimSuffix "environments.json" ".json" = "environments" /\
  TrimSuffix "environments" ".json" = "environments" /\
  TrimSuffix ".json" ".json" = "" /\
  Split "releases.20250415-101500.json.sha256" "." =
    ["releases"; "20250415-101500"; "json"; "sha256"].
Proof. vm_compute. repeat split. Qed.

Example readdir_example :
  os_ReadDir backupDir
    (Data ∅ (Some (<["b.2.json" := File []]> (<["a" := SubDir false]>
                    (<["b.1.json" := File []]> ∅))))) =
  inr [ {| Name := "a"; IsDir := true |};
        {| Name := "b.1.json"; IsDir := false |};
        {| Name := "b.2.json"; IsDir := false |} ].
Proof. vm_compute. reflexivity. Qed.

Example refjson_examples :
  RefJSON.unmarshal (bytes "{") = None /\
  RefJSON.unmarshal (bytes "{} x") = None /\
  RefJSON.unmarshal (bytes " [1, true,null ] ") =
    Some (JArray [JNumber "1"; JBool true; JNull]) /\
  RefJSON.unmarshal (bytes ("{" ++ quoted "b" ++ ":[], " ++ quoted "a" ++ ": {}}")) =
    Some (JObject [("b", JArray []); ("a", JObject [])]) /\
  RefJSON.render (Some O) (JObject [("b", JArray [JNumber "1"]); ("a", JObject [])]) =
    "{" ++ newline ++ "  " ++ quoted "a" ++ ": {}," ++ newline ++
    "  " ++ quoted "b" ++ ": [" ++ newline ++ "    1" ++ newline ++ "  ]" ++
    newline ++ "}" /\
  RefJSON.decodeFilename (bytes ("{" ++ quoted "Filename" ++ ":" ++ quoted "x.json" ++ "}"))
    = Some "x.json".
Proof. vm_compute. repeat split. Qed.

(** Without sidecars a limit of 2 keeps the two newest of three
    backups. *)
Example rotation_without_sidecars :
  cleanupOldBackups (sorter := goSort) "environments.json" 2 bareBackupsFS =
  (Returned None,
   Data ∅ (Some (<["environments.20250103-000000.json" := File (bytes "{3}")]>
                   (<["environments.20250102-000000.json" := File (bytes "{2}")]>
                      ∅)))).
Proof. by vm_compute. Qed.

(** The scenario of section 8 of the spec. *)
Example spec_scenario :
  let first := scenarioStep None "Planned" 1 freshFS in
  let second := scenarioStep (replyETag first.1) "Done" 2 first.2 in
  let third := scenarioStep (replyETag first.1) "Hotfix" 3 second.2 in
  replyStatus first.1 = Some StatusOK /\
  backupFiles first.2 = Some ∅ /\
  replyStatus second.1 = Some StatusOK /\
  listBackups "releases" second.2 =
    inr [ "releases.20250415-101502.json";
          "releases.20250415-101502.json.sha256" ] /\
  (backupFiles second.2 ≫= fun m => m !! "releases.20250415-101502.json") =
    File <$> documentContent Releases first.2 /\
  replyStatus third.1 = Some StatusPreconditionFailed /\
  third.2 = second.2 /\
  replyETag third.1 = replyETag second.1.
Proof. vm_compute. repeat split. Qed.

(** From the year 10000 on the timestamp has a digit more, and the
    order of the names is no longer that of the times. *)
Example order_breaks_at_year_10000 :
  let last := {| Year := 99 * 100 + 99; Month := 12; Day := 31;
                 Hour := 23; Minute := 59; Second := 59 |} in
  let next := {| Year := 100 * 100; Month := 1; Day := 1;
                 Hour := 0; Minute := 0; Second := 0 |} in
  earlier last next = true /\
  Format next = "100000101-000000" /\
  newerFirst (backupName Releases next) (backupName Releases last) = false /\
  newerFirst (backupName Releases last) (backupName Releases next) = true.
Proof. by vm_compute. Qed.

(** [updateJSONFile] on the sample state. *)
Example legacy_write_example :
  (updateJSONFile (codec := RefJSON.codec) (postRequest ∅ environmentsBody)
     (documentPath Environments) sampleTime sampleFS).2 =
  Data (<["environments.json" :=
            File (bytes ("{" ++ newline ++ "  " ++ quoted "environments" ++
                         ": []" ++ newline ++ "}"))]>
          (<["environments.json.bak.20250415-101500.sha256" :=
               File (sidecarOf (bytes "{}"))]>
             {[ "environments.json.bak.20250415-101500" := File (bytes "{}") ]}))
       (Some ∅).
Proof. by vm_compute. Qed.

Example decimalDigits_examples :
  decimalDigits 0 = "0" /\ decimalDigits 3 = "3" /\ decimalDigits 10 = "10" /\
  decimalDigits 250 = "250" /\
  maxBackupsHeader (postRequest {[ "X-Max-Backups" := "0" ]} "") = 10 /\
  maxBackupsHeader (postRequest {[ "X-Max-Backups" := "-3" ]} "") = 10 /\
  maxBackupsHeader (postRequest {[ "X-Max-Backups" := "three" ]} "") = 10 /\
  maxBackupsHeader (postRequest {[ "X-Max-Backups" := "+07" ]} "") = 7 /\
  maxBackupsHeader (postRequest {[ "X-Max-Backups" := "9223372036854775808" ]} "")
    = 10.
Proof. by vm_compute. Qed.
